(** * MCP-SERVERS: the tool adapters, embedded and checked against their specification

    The repository is a collection of independent MCP servers.  Each one
    declares named tools, turns a call into requests to a vendor (or, for the
    calendar, into [datetime] arithmetic) and returns text.

    Layout of this development:
    - [Py]: what the handlers share with every Python program: exceptions,
      outcomes of a call, [str] of an integer, JSON-like values;
    - [Datetime]: the part of Python's [datetime] and [_strptime] modules the
      calendar server calls (proleptic Gregorian ordinals, the directives
      [%Y], [%m], [%d], [%H], [%M]);
    - [Calendar], [Dropbox], [Instagram], [ElevenLabs], [Pdf], [Telegram],
      [TikTok], [Supabase]: the handlers, one module per server file, with
      the external world (clock, vendor replies, file system) passed
      explicitly;
    - the lemmas, one theorem per claim of the specification, and further
      properties of the handlers (X1, X2, ...). *)

From Stdlib Require Import ZArith Lia String Ascii List Bool DecimalString.
From stdpp Require Import base gmap strings list.

#[local] Set Warnings "-clear-no-such-hyp".
Local Open Scope string_scope.
Local Open Scope Z_scope.

(* ===================================================================== *)
(** * Python basics *)
(* ===================================================================== *)

(** A [str] is the [string] of the bytes of its UTF-8 text: [len] and
    slices count bytes.  On ASCII text ([isascii] below) bytes and
    characters are the same thing, and the definitions are those of Python;
    a statement that measures or cuts a string of the caller, or reads its
    digits, is made for ASCII strings. *)
Module Py.

(** The exception classes that the handlers can meet.  All of them derive
    from [Exception]; [BaseException]s that do not (cancellation, keyboard
    interrupt) are outside the model. *)
Inductive exn_class :=
| ValueError | TypeError | OverflowError | KeyError | IndexError | AttributeError
| OSError | FileNotFoundError | FileExistsError | ImportError
| JSONDecodeError | RequestException | ApiError | PdfReadError.

(** [issubclass c base] for the classes above. *)
Definition subclass (c base : exn_class) : bool :=
  match c, base with
  | ValueError, ValueError | JSONDecodeError, ValueError => true
  | TypeError, TypeError => true
  | OverflowError, OverflowError => true
  | KeyError, KeyError => true
  | IndexError, IndexError => true
  | AttributeError, AttributeError => true
  | OSError, OSError | FileNotFoundError, OSError => true
  | FileNotFoundError, FileNotFoundError => true
  | FileExistsError, OSError | FileExistsError, FileExistsError => true
  | ImportError, ImportError => true
  | JSONDecodeError, JSONDecodeError => true
  | RequestException, RequestException => true
  | ApiError, ApiError => true
  | PdfReadError, PdfReadError => true
  | _, _ => false
  end.

(** An exception object: its class and [str(e)]. *)
Record exn := mk_exn { exn_cls : exn_class; exn_str : string }.

(** What a call does: it returns a value or raises. *)
Inductive outcome (A : Type) :=
| Return (a : A)
| Raise (e : exn).
Arguments Return {A} a.
Arguments Raise {A} e.

Definition bind {A B} (c : outcome A) (k : A -> outcome B) : outcome B :=
  match c with
  | Return a => k a
  | Raise e => Raise e
  end.

(** [try: c  except cls: h] where the handler ignores the exception. *)
Definition try_except {A} (c : outcome A) (base : exn_class) (h : outcome A)
  : outcome A :=
  match c with
  | Return a => Return a
  | Raise e => if subclass (exn_cls e) base then h else Raise e
  end.

(** [str(n)] for an [int]. *)
Definition str_of_int (n : Z) : string := NilZero.string_of_int (Z.to_int n).

(** Argument values of a tool call ([dict[str, Any]]): the JSON scalars the
    tools declare ([string], [integer]) and [null]. *)
Inductive value :=
| VStr (s : string)
| VInt (n : Z)
| VNone.

(** [type(v).__name__] and [str(v)]. *)
Definition type_name (v : value) : string :=
  match v with VStr _ => "str" | VInt _ => "int" | VNone => "NoneType" end.

Definition str (v : value) : string :=
  match v with VStr s => s | VInt n => str_of_int n | VNone => "None" end.

(** A decoded JSON document (what [response.json()] returns); a [dict] is
    the list of its items, each key once; a float is kept as its [repr]. *)
#[local] Unset Elimination Schemes.
Inductive json :=
| JNull
| JBool (b : bool)
| JInt (n : Z)
| JFloat (literal : string)
| JStr (s : string)
| JList (items : list json)
| JDict (items : list (string * json)).
#[local] Set Elimination Schemes.

Fixpoint assoc {A} (key : string) (items : list (string * A)) : option A :=
  match items with
  | [] => None
  | (k, v) :: rest => if (k =? key)%string then Some v else assoc key rest
  end.

Definition json_type_name (j : json) : string :=
  match j with
  | JNull => "NoneType" | JBool _ => "bool" | JInt _ => "int"
  | JFloat _ => "float" | JStr _ => "str" | JList _ => "list" | JDict _ => "dict"
  end.

(** [j.get(key, default)]: only a [dict] has the method. *)
Definition json_get (j : json) (key : string) (default_ : json) : outcome json :=
  match j with
  | JDict items =>
      Return (match assoc key items with Some v => v | None => default_ end)
  | _ => Raise (mk_exn AttributeError
                  ("'" +:+ json_type_name j +:+ "' object has no attribute 'get'"))
  end.

(** [j[key]] for a string key. *)
Definition json_item (j : json) (key : string) : outcome json :=
  match j with
  | JDict items =>
      match assoc key items with
      | Some v => Return v
      | None => Raise (mk_exn KeyError ("'" +:+ key +:+ "'"))
      end
  | JList _ =>
      Raise (mk_exn TypeError "list indices must be integers or slices, not str")
  | JStr _ =>
      Raise (mk_exn TypeError "string indices must be integers, not 'str'")
  | _ => Raise (mk_exn TypeError
                  ("'" +:+ json_type_name j +:+ "' object is not subscriptable"))
  end.

(** [format(j)] inside an f-string: [str(j)].  [repr] stands for the
    [repr] of lists and dicts, which is not spelled out. *)
Definition json_str (repr : json -> string) (j : json) : string :=
  match j with
  | JNull => "None"
  | JBool true => "True"
  | JBool false => "False"
  | JInt n => str_of_int n
  | JFloat literal => literal
  | JStr s => s
  | JList _ | JDict _ => repr j
  end.

(** [range(a, b)] *)
Definition range (a b : Z) : list Z := seqZ a (b - a).

(** [l[i]] for a list: a negative index counts from the end. *)
Definition list_item {A} (l : list A) (i : Z) : outcome A :=
  let n := Z.of_nat (length l) in
  let i' := if i <? 0 then i + n else i in
  match (if i' <? 0 then None else l !! Z.to_nat i') with
  | Some x => Return x
  | None => Raise (mk_exn IndexError "list index out of range")
  end.

(** [s[:n]] for an ASCII [s] (and for [bytes]) *)
Definition prefix (n : nat) (s : string) : string := String.substring 0 n s.

(** The double quote, as a string. *)
Definition dq : string := String (ascii_of_nat 34) EmptyString.

(** [s.startswith(p)] *)
Fixpoint startswith (p s : string) : bool :=
  match p, s with
  | EmptyString, _ => true
  | String a p', String b s' => Ascii.eqb a b && startswith p' s'
  | String _ _, EmptyString => false
  end.


(** [s[-n:]] for a positive [n] and an ASCII [s]: the last [n] characters,
    and all of [s] when it has no more than that. *)
Definition tail_chars (n : nat) (s : string) : string :=
  String.substring (String.length s - n) n s.

(** [l[:n]]: a negative [n] counts from the end. *)
Definition slice_to {A} (n : Z) (l : list A) : list A :=
  if n <? 0 then take (length l - Z.to_nat (- n)) l else take (Z.to_nat n) l.

(** [bool(j)].  [nonzero literal] says whether the float that the literal
    denotes is different from zero. *)
Definition truthy (nonzero : string -> bool) (j : json) : bool :=
  match j with
  | JNull => false
  | JBool b => b
  | JInt n => negb (n =? 0)
  | JFloat literal => nonzero literal
  | JStr s => negb (s =? "")%string
  | JList items => match items with [] => false | _ :: _ => true end
  | JDict items => match items with [] => false | _ :: _ => true end
  end.

(** [s.isascii()] *)
Definition isascii (s : string) : bool :=
  forallb (fun c => (nat_of_ascii c <? 128)%nat) (list_ascii_of_string s).

End Py.

Notation "'let*' x ':=' c 'in' k" := (Py.bind c (fun x => k))
  (at level 10, x name, c at level 100, k at level 200).

(* ===================================================================== *)
(** * The [datetime] library, as far as the calendar server uses it *)
(* ===================================================================== *)

(** The server calls [datetime.strptime], [datetime.strftime],
    [datetime + timedelta], [datetime - datetime] and [timedelta.days].
    The definitions follow CPython's [Lib/_pydatetime.py] and
    [Lib/_strptime.py].  The regular expression class [\d] is the ASCII
    digits here, which is what it is on ASCII strings ([Py.isascii]); in
    other strings CPython also reads the decimal digits of other scripts,
    and those strings are outside the model. *)
Module Datetime.
Import Py.

Definition MINYEAR : Z := 1.
Definition MAXYEAR : Z := 9999.
(** [date.max.toordinal()] *)
Definition _MAXORDINAL : Z := 3652059.

Definition _is_leap (year : Z) : bool :=
  (year mod 4 =? 0) && (negb (year mod 100 =? 0) || (year mod 400 =? 0)).

Definition _DAYS_IN_MONTH (month : Z) : Z :=
  match month with
  | 1 => 31 | 2 => 28 | 3 => 31 | 4 => 30 | 5 => 31 | 6 => 30
  | 7 => 31 | 8 => 31 | 9 => 30 | 10 => 31 | 11 => 30 | 12 => 31
  | _ => -1
  end.

Definition _DAYS_BEFORE_MONTH (month : Z) : Z :=
  match month with
  | 1 => 0 | 2 => 31 | 3 => 59 | 4 => 90 | 5 => 120 | 6 => 151
  | 7 => 181 | 8 => 212 | 9 => 243 | 10 => 273 | 11 => 304 | 12 => 334
  | _ => -1
  end.

Definition _days_before_year (year : Z) : Z :=
  let y := year - 1 in
  y * 365 + y / 4 - y / 100 + y / 400.

Definition _days_in_month (year month : Z) : Z :=
  if (month =? 2) && _is_leap year then 29 else _DAYS_IN_MONTH month.

Definition _days_before_month (year month : Z) : Z :=
  _DAYS_BEFORE_MONTH month + (if (month >? 2) && _is_leap year then 1 else 0).

Definition _ymd2ord (year month day : Z) : Z :=
  _days_before_year year + _days_before_month year month + day.

Definition _DI400Y : Z := Eval cbv in _days_before_year 401.
Definition _DI100Y : Z := Eval cbv in _days_before_year 101.
Definition _DI4Y : Z := Eval cbv in _days_before_year 5.

Record date := mk_date { year : Z; month : Z; day : Z }.

Definition _ord2ymd (n : Z) : date :=
  let n := n - 1 in
  let n400 := n / _DI400Y in
  let n := n mod _DI400Y in
  let year := n400 * 400 + 1 in
  let n100 := n / _DI100Y in
  let n := n mod _DI100Y in
  let n4 := n / _DI4Y in
  let n := n mod _DI4Y in
  let n1 := n / 365 in
  let n := n mod 365 in
  let year := year + (n100 * 100 + n4 * 4 + n1) in
  if (n1 =? 4) || (n100 =? 4) then mk_date (year - 1) 12 31
  else
    let leapyear := (n1 =? 3) && (negb (n4 =? 24) || (n100 =? 3)) in
    let month := Z.shiftr (n + 50) 5 in
    let preceding :=
      _DAYS_BEFORE_MONTH month + (if (month >? 2) && leapyear then 1 else 0) in
    let '(month, preceding) :=
      if preceding >? n
      then (month - 1,
            preceding - (_DAYS_IN_MONTH (month - 1)
                         + (if (month - 1 =? 2) && leapyear then 1 else 0)))
      else (month, preceding) in
    mk_date year month (n - preceding + 1).

(** [_check_date_fields]: the constructor refuses what is not a date. *)
Definition check_date_fields (y m d : Z) : outcome date :=
  if negb ((MINYEAR <=? y) && (y <=? MAXYEAR))
  then Raise (mk_exn ValueError "year must be in 1..9999")
  else if negb ((1 <=? m) && (m <=? 12))
  then Raise (mk_exn ValueError "month must be in 1..12")
  else if negb ((1 <=? d) && (d <=? _days_in_month y m))
  then Raise (mk_exn ValueError "day is out of range for month")
  else Return (mk_date y m d).

Definition toordinal (d : date) : Z := _ymd2ord (year d) (month d) (day d).

(** Comparison of dates is comparison of (year, month, day). *)
Definition date_ltb (a b : date) : bool :=
  (year a <? year b)
  || ((year a =? year b)
      && ((month a <? month b)
          || ((month a =? month b) && (day a <? day b)))).

(** A [datetime]: a date and the second of the day (microseconds and time
    zones play no part in the server). *)
Record datetime := mk_datetime { dt_date : date; dt_secs : Z }.

(** [timedelta(days=n)] *)
Definition timedelta_days (n : Z) : outcome Z :=
  if Z.abs n >? 999999999
  then Raise (mk_exn OverflowError
                ("days=" +:+ str_of_int n +:+ "; must have magnitude <= 999999999"))
  else Return n.

(** [dt + timedelta(days=n)] *)
Definition add_days (dt : datetime) (n : Z) : outcome datetime :=
  let days := toordinal (dt_date dt) + n in
  if (0 <? days) && (days <=? _MAXORDINAL)
  then Return (mk_datetime (_ord2ymd days) (dt_secs dt))
  else Raise (mk_exn OverflowError "date value out of range").

(** [(a - b).days]: timedeltas are normalised, the seconds lie in
    [0, 86400). *)
Definition sub_days (a b : datetime) : Z :=
  (toordinal (dt_date a) - toordinal (dt_date b))
  + (dt_secs a - dt_secs b) / 86400.

(** ** Formatting *)

Definition digit_char (v : Z) : ascii := ascii_of_N (Z.to_N (48 + v)).

Definition pad2 (v : Z) : string :=
  String (digit_char (v / 10)) (String (digit_char (v mod 10)) "").

Definition pad4 (v : Z) : string :=
  String (digit_char (v / 1000))
    (String (digit_char (v / 100 mod 10)) (pad2 (v mod 100))).

(** [%Y], the year with century.  CPython hands the directive to the C
    library or pads the year to four digits itself, depending on platform
    and version: the year 999 is printed as ["999"] (glibc) or as ["0999"].
    [pads_year] says which. *)
Definition strftime_Y (pads_year : bool) (y : Z) : string :=
  if pads_year then pad4 y else str_of_int y.

(** [strftime("%Y-%m-%d")] *)
Definition strftime_Ymd (pads_year : bool) (dt : datetime) : string :=
  let d := dt_date dt in
  strftime_Y pads_year (year d) +:+ "-" +:+ pad2 (month d) +:+ "-" +:+ pad2 (day d).

(** [strftime("%Y-%m-%d %H:%M:%S")] *)
Definition strftime_YmdHMS (pads_year : bool) (dt : datetime) : string :=
  let s := dt_secs dt in
  strftime_Ymd pads_year dt +:+ " " +:+ pad2 (s / 3600) +:+ ":"
    +:+ pad2 (s / 60 mod 60) +:+ ":" +:+ pad2 (s mod 60).

(** [date.weekday()]: Monday is 0. *)
Definition weekday (d : date) : Z := (toordinal d + 6) mod 7.

(** [strftime("%A")] and [strftime("%B")] in the C locale. *)
Definition strftime_A (dt : datetime) : string :=
  match weekday (dt_date dt) with
  | 0 => "Monday" | 1 => "Tuesday" | 2 => "Wednesday" | 3 => "Thursday"
  | 4 => "Friday" | 5 => "Saturday" | _ => "Sunday"
  end.

Definition strftime_B (dt : datetime) : string :=
  match month (dt_date dt) with
  | 1 => "January" | 2 => "February" | 3 => "March" | 4 => "April"
  | 5 => "May" | 6 => "June" | 7 => "July" | 8 => "August"
  | 9 => "September" | 10 => "October" | 11 => "November" | _ => "December"
  end.

(** ** Parsing: [_strptime]

    [strptime] compiles the format to a regular expression, anchors it at
    the start of the input ([re.match]), and then refuses input that the
    match did not consume.  The directives of the server's formats are
<<
    %Y  (?P<Y>\d\d\d\d)
    %m  (?P<m>1[0-2]|0[1-9]|[1-9])
    %d  (?P<d>3[0-1]|[1-2]\d|0[1-9]|[1-9]| [1-9])
    %H  (?P<H>2[0-3]|[0-1]\d|\d)
    %M  (?P<M>[0-5]\d|\d)
>>
    A matcher returns every way its expression matches a prefix of the
    input, the value of the group and the rest of the input, in the order
    in which a backtracking engine tries them; the first element of the
    list for the whole format is the match [re.match] reports. *)

Definition digit_val (c : ascii) : option Z :=
  let n := Z.of_N (N_of_ascii c) in
  if (48 <=? n) && (n <=? 57) then Some (n - 48) else None.

Definition matcher (A : Type) := string -> list (A * string).

(** One digit of the class [[lo-hi]]. *)
Definition cls (lo hi : Z) : matcher Z := fun s =>
  match s with
  | String c rest =>
      match digit_val c with
      | Some v => if (lo <=? v) && (v <=? hi) then [(v, rest)] else []
      | None => []
      end
  | EmptyString => []
  end.

(** Two digits, [[lo1-hi1][lo2-hi2]], read by [int] as a decimal. *)
Definition cls2 (lo1 hi1 lo2 hi2 : Z) : matcher Z := fun s =>
  '(a, r) ← cls lo1 hi1 s; '(b, r') ← cls lo2 hi2 r; [(10 * a + b, r')].

(** A literal character. *)
Definition lit (c : ascii) : matcher unit := fun s =>
  match s with
  | String c' rest => if Ascii.eqb c c' then [(tt, rest)] else []
  | EmptyString => []
  end.

Definition alt {A} (p q : matcher A) : matcher A := fun s => (p s ++ q s)%list.

Definition re_Y : matcher Z := fun s =>
  '(a, r) ← cls2 0 9 0 9 s; '(b, r') ← cls2 0 9 0 9 r; [(100 * a + b, r')].
Definition re_m : matcher Z :=
  alt (cls2 1 1 0 2) (alt (cls2 0 0 1 9) (cls 1 9)).
Definition re_d : matcher Z :=
  alt (cls2 3 3 0 1) (alt (cls2 1 2 0 9) (alt (cls2 0 0 1 9) (alt (cls 1 9)
    (fun s => '(_, r) ← lit " " s; cls 1 9 r)))).
Definition re_H : matcher Z :=
  alt (cls2 2 2 0 3) (alt (cls2 0 1 0 9) (cls 0 9)).
Definition re_M : matcher Z :=
  alt (cls2 0 5 0 9) (cls 0 9).

(** [re.match] for the format ["%Y-%m-%d"]. *)
Definition match_Ymd (s : string) : option (Z * Z * Z * string) :=
  head ('(y, r1) ← re_Y s; '(_, r2) ← lit "-" r1;
        '(m, r3) ← re_m r2; '(_, r4) ← lit "-" r3;
        '(d, r5) ← re_d r4; [(y, m, d, r5)]).

(** [re.match] for the format ["%H:%M"]. *)
Definition match_HM (s : string) : option (Z * Z * string) :=
  head ('(h, r1) ← re_H s; '(_, r2) ← lit ":" r1;
        '(m, r3) ← re_M r2; [(h, m, r3)]).

(** [datetime.strptime(s, "%Y-%m-%d")] for a [str] [s].  The messages of
    the [ValueError]s are shortened: the server never reads them. *)
Definition strptime_Ymd (s : string) : outcome datetime :=
  match match_Ymd s with
  | None => Raise (mk_exn ValueError "time data does not match format '%Y-%m-%d'")
  | Some (y, m, d, rest) =>
      match rest with
      | String _ _ => Raise (mk_exn ValueError "unconverted data remains")
      | EmptyString =>
          let* dd := check_date_fields y m d in
          Return (mk_datetime dd 0)
      end
  end.

(** [datetime.strptime(s, "%H:%M")]: the date defaults to 1900-01-01. *)
Definition strptime_HM (s : string) : outcome datetime :=
  match match_HM s with
  | None => Raise (mk_exn ValueError "time data does not match format '%H:%M'")
  | Some (h, m, rest) =>
      match rest with
      | String _ _ => Raise (mk_exn ValueError "unconverted data remains")
      | EmptyString => Return (mk_datetime (mk_date 1900 1 1) (h * 3600 + m * 60))
      end
  end.

(** [strptime] checks the type of its argument before anything else. *)
Definition strptime (parse : string -> outcome datetime) (v : value)
  : outcome datetime :=
  match v with
  | VStr s => parse s
  | _ => Raise (mk_exn TypeError
                  ("strptime() argument 1 must be str, not " +:+ type_name v))
  end.

(** [timedelta(days=v)] for an argument of any type. *)
Definition timedelta (v : value) : outcome Z :=
  match v with
  | VInt n => timedelta_days n
  | _ => Raise (mk_exn TypeError
                  ("unsupported type for timedelta days component: "
                     +:+ type_name v))
  end.

End Datetime.

(* ===================================================================== *)
(** * Calendar MCP Server *)
(* ===================================================================== *)

(** The response of the low-level servers: [TextContent(type="text", text=...)]. *)
Record TextContent := mk_text { type : string; text : string }.

Definition text_content (s : string) : TextContent := mk_text "text" s.

(** A declared tool: [Tool(name=.., inputSchema={"properties": ..,
    "required": ..})], the properties with their JSON type. *)
Record Tool := mk_tool
  { name : string; properties : list (string * string); required : list string }.

(** The names a server registers. *)
Definition tool_names (tools : list Tool) : list string := map name tools.

(** [arguments.get(key, default)] *)
Definition dict_get (arguments : gmap string Py.value) (key : string)
    (default_ : Py.value) : Py.value :=
  match arguments !! key with
  | Some v => v
  | None => default_
  end.

Module Calendar.
Import Py Datetime.

Definition list_tools : list Tool :=
  [ mk_tool "get_current_date" [] [];
    mk_tool "get_today" [] [];
    mk_tool "get_yesterday" [] [];
    mk_tool "get_tomorrow" [] [];
    mk_tool "get_date_info" [("date_string", "string")] ["date_string"];
    mk_tool "add_days_to_date"
      [("date_string", "string"); ("days", "integer")] ["date_string"; "days"];
    mk_tool "get_days_between_dates"
      [("start_date", "string"); ("end_date", "string")] ["start_date"; "end_date"];
    mk_tool "schedule_reminder"
      [("title", "string"); ("date", "string"); ("time", "string")]
      ["title"; "date"; "time"] ].

Definition invalid_date_format (date_string : string) : string :=
  "Invalid date format: " +:+ date_string +:+ ". Please use YYYY-MM-DD format.".

Definition invalid_both_dates : string :=
  "Invalid date format. Please use YYYY-MM-DD format for both dates.".

Definition invalid_date_or_time : string :=
  "Invalid date or time format. Use YYYY-MM-DD for date and HH:MM for time.".

(** ** The dispatcher of the low-level server

    [now] is what [datetime.now()] returns during the call, [pads_year]
    how the platform prints [%Y]. *)
Definition call_tool (pads_year : bool) (now : datetime) (name : string)
    (arguments : gmap string value) : outcome (list TextContent) :=
  if (name =? "get_current_date")%string then
    Return [text_content (strftime_YmdHMS pads_year now)]
  else if (name =? "get_today")%string then
    Return [text_content (strftime_Ymd pads_year now)]
  else if (name =? "get_yesterday")%string then
    let* delta := timedelta_days 1 in
    let* yesterday := add_days now (- delta) in
    Return [text_content (strftime_Ymd pads_year yesterday)]
  else if (name =? "get_tomorrow")%string then
    let* delta := timedelta_days 1 in
    let* tomorrow := add_days now delta in
    Return [text_content (strftime_Ymd pads_year tomorrow)]
  else if (name =? "get_date_info")%string then
    let date_string := dict_get arguments "date_string" (VStr "") in
    try_except
      (let* date_obj := strptime strptime_Ymd date_string in
       let day_of_week := strftime_A date_obj in
       let month_name := strftime_B date_obj in
       let day := day (dt_date date_obj) in
       let year := year (dt_date date_obj) in
       Return [text_content
                 ("Date: " +:+ str date_string +:+ ", Day: " +:+ day_of_week
                  +:+ ", Month: " +:+ month_name +:+ ", Day: " +:+ str_of_int day
                  +:+ ", Year: " +:+ str_of_int year)])
      ValueError
      (Return [text_content (invalid_date_format (str date_string))])
  else if (name =? "add_days_to_date")%string then
    let date_string := dict_get arguments "date_string" (VStr "") in
    let days := dict_get arguments "days" (VInt 0) in
    try_except
      (let* date_obj := strptime strptime_Ymd date_string in
       let* delta := timedelta days in
       let* new_date := add_days date_obj delta in
       Return [text_content (strftime_Ymd pads_year new_date)])
      ValueError
      (Return [text_content (invalid_date_format (str date_string))])
  else if (name =? "get_days_between_dates")%string then
    let start_date := dict_get arguments "start_date" (VStr "") in
    let end_date := dict_get arguments "end_date" (VStr "") in
    try_except
      (let* start_obj := strptime strptime_Ymd start_date in
       let* end_obj := strptime strptime_Ymd end_date in
       let diff := sub_days end_obj start_obj in
       Return [text_content
                 ("Days between " +:+ str start_date +:+ " and "
                  +:+ str end_date +:+ ": " +:+ str_of_int diff)])
      ValueError
      (Return [text_content invalid_both_dates])
  else if (name =? "schedule_reminder")%string then
    let title := dict_get arguments "title" (VStr "") in
    let date := dict_get arguments "date" (VStr "") in
    let time := dict_get arguments "time" (VStr "") in
    try_except
      (let* _d := strptime strptime_Ymd date in
       let* _t := strptime strptime_HM time in
       Return [text_content
                 ("Reminder scheduled: '" +:+ str title +:+ "' on "
                  +:+ str date +:+ " at " +:+ str time)])
      ValueError
      (Return [text_content invalid_date_or_time])
  else
    Return [text_content ("Unknown tool: " +:+ name)].

(** ** The tools of the FastMCP server

    Their arguments are typed: [date_string: str], [days: int]. *)

Definition get_date_info (date_string : string) : outcome string :=
  try_except
    (let* date_obj := strptime_Ymd date_string in
     let day_of_week := strftime_A date_obj in
     let month_name := strftime_B date_obj in
     let day := day (dt_date date_obj) in
     let year := year (dt_date date_obj) in
     Return ("Date: " +:+ date_string +:+ ", Day: " +:+ day_of_week
             +:+ ", Month: " +:+ month_name +:+ ", Day: " +:+ str_of_int day
             +:+ ", Year: " +:+ str_of_int year))
    ValueError
    (Return (invalid_date_format date_string)).

Definition add_days_to_date (pads_year : bool) (date_string : string) (days : Z)
  : outcome string :=
  try_except
    (let* date_obj := strptime_Ymd date_string in
     let* delta := timedelta_days days in
     let* new_date := add_days date_obj delta in
     Return (strftime_Ymd pads_year new_date))
    ValueError
    (Return (invalid_date_format date_string)).

Definition get_days_between_dates (start_date end_date : string)
  : outcome string :=
  try_except
    (let* start_obj := strptime_Ymd start_date in
     let* end_obj := strptime_Ymd end_date in
     let diff := sub_days end_obj start_obj in
     Return ("Days between " +:+ start_date +:+ " and " +:+ end_date
             +:+ ": " +:+ str_of_int diff))
    ValueError
    (Return invalid_both_dates).

(** [ctx_info msg] is what [await ctx.info(msg)] does in the call: it
    returns, or raises. *)
Definition schedule_reminder (title date time : string)
    (ctx_info : string -> outcome unit) : outcome string :=
  try_except
    (let* _d := strptime_Ymd date in
     let* _t := strptime_HM time in
     let* _ := ctx_info ("Scheduling reminder: " +:+ title +:+ " on " +:+ date
                         +:+ " at " +:+ time) in
     Return ("Reminder scheduled: '" +:+ title +:+ "' on " +:+ date
             +:+ " at " +:+ time))
    ValueError
    (Return invalid_date_or_time).


(** The tools without arguments; [now] is what [datetime.now()] returns. *)
Definition get_current_date (pads_year : bool) (now : datetime) : outcome string :=
  Return (strftime_YmdHMS pads_year now).

Definition get_today (pads_year : bool) (now : datetime) : outcome string :=
  Return (strftime_Ymd pads_year now).

Definition get_yesterday (pads_year : bool) (now : datetime) : outcome string :=
  let* delta := timedelta_days 1 in
  let* yesterday := add_days now (- delta) in
  Return (strftime_Ymd pads_year yesterday).

Definition get_tomorrow (pads_year : bool) (now : datetime) : outcome string :=
  let* delta := timedelta_days 1 in
  let* tomorrow := add_days now delta in
  Return (strftime_Ymd pads_year tomorrow).

End Calendar.

(* ===================================================================== *)
(** * Effects: the calls a handler makes, and exceptions *)
(* ===================================================================== *)

(** What a handler does to the outside, in the order in which it does it. *)
Inductive event :=
| Log (level msg : string)                        (* [await ctx.info/error(msg)] *)
| Sdk (method : string) (args : list Py.value)    (* a call of the Dropbox client *)
| HttpPost (url : string) (data : list (string * Py.json))
| HttpGet (url : string)
| TempFile (path : string)            (* [NamedTemporaryFile(delete=False)] *)
| PdfWrite (path : string) (pages : list string)   (* [pdf_writer.write(f)] *)
| Unlink (path : string).             (* [os.unlink(path)] *)

(** The reply to an HTTP request: [status_code], [content] and what
    [json()] does. *)
Record response := mk_response
  { status_code : Z; content : string; resp_json : Py.outcome Py.json }.

(** A computation threads a state (the trace of events, or the disk) and
    ends like a Python call: with a value or an exception. *)
Module Eff.
Import Py.

Section WithState.
Context {S : Type}.

Definition M (A : Type) : Type := S -> S * outcome A.

Definition ret {A} (a : A) : M A := fun s => (s, Return a).
Definition raise {A} (e : exn) : M A := fun s => (s, Raise e).
Definition lift {A} (o : outcome A) : M A := fun s => (s, o).

Definition bind {A B} (c : M A) (k : A -> M B) : M B := fun s =>
  match c s with
  | (s', Return a) => k a s'
  | (s', Raise e) => (s', Raise e)
  end.

(** [try: c  except Exception as e: h e] *)
Definition try_catch {A} (c : M A) (h : exn -> M A) : M A := fun s =>
  match c s with
  | (s', Return a) => (s', Return a)
  | (s', Raise e) => h e s'
  end.

(** [try: c  finally: f]: [f] runs on every way out of [c]; an exception
    of [f] replaces the outcome of [c]. *)
Definition try_finally {A} (c : M A) (f : M unit) : M A := fun s =>
  match c s with
  | (s', r) =>
      match f s' with
      | (s'', Return _) => (s'', r)
      | (s'', Raise e) => (s'', Raise e)
      end
  end.
End WithState.

(** An external call: it is recorded, and the world answers. *)
Definition perform {A} (e : event) (answer : outcome A) : M (S := list event) A :=
  fun t => ((t ++ [e])%list, answer).

End Eff.

Notation "'let!' x ':=' c 'in' k" := (Eff.bind c (fun x => k))
  (at level 10, x name, c at level 100, k at level 200).

Definition nl : string := String (ascii_of_nat 10) "".

(* ===================================================================== *)
(** * Dropbox MCP Server *)
(* ===================================================================== *)

Module Dropbox.
Import Py Eff.

(** What the client returns for an entry: [FileMetadata],
    [FolderMetadata], or something else ([str(type(metadata))] kept). *)
Inductive metadata :=
| FileMetadata (name path_display : string) (size : Z)
    (client_modified content_hash : string)
| FolderMetadata (name path_display : string)
| OtherMetadata (type_str : string).

Record account := mk_account
  { display_name : string; email : string; account_type_tag : string }.

(** The world of one call: the environment, the local files, the Dropbox
    service behind the client, and the [Context] of FastMCP. *)
Record world := mk_world
  { getenv : string -> option string;
    dropbox_importable : bool;
    read_file : value -> outcome string;            (* open(p,'rb').read() *)
    write_file : value -> string -> outcome unit;   (* open(p,'wb').write(b) *)
    files_upload : string -> value -> outcome unit;
    files_download : value -> outcome string;
    files_list_folder : value -> outcome (list metadata);
    files_create_folder_v2 : value -> outcome unit;
    files_delete_v2 : value -> outcome unit;
    files_get_metadata : value -> outcome metadata;
    sharing_list_shared_links : value -> outcome (list string);
    sharing_create_shared_link_with_settings : value -> outcome string;
    files_search_v2 : value -> outcome (list metadata);
    users_get_current_account : outcome account;
    (* [used], and [allocation.get_individual().allocated] *)
    users_get_space_usage : outcome (Z * outcome Z);
    ctx_info : string -> outcome unit;
    ctx_error : string -> outcome unit }.

Definition list_tools : list Tool :=
  [ mk_tool "upload_file"
      [("local_path", "string"); ("dropbox_path", "string")]
      ["local_path"; "dropbox_path"];
    mk_tool "download_file"
      [("dropbox_path", "string"); ("local_path", "string")]
      ["dropbox_path"; "local_path"];
    mk_tool "list_folder" [("folder_path", "string")] ["folder_path"];
    mk_tool "create_folder" [("folder_path", "string")] ["folder_path"];
    mk_tool "delete_file" [("dropbox_path", "string")] ["dropbox_path"];
    mk_tool "get_file_info" [("dropbox_path", "string")] ["dropbox_path"];
    mk_tool "create_shared_link" [("dropbox_path", "string")] ["dropbox_path"];
    mk_tool "search_files" [("query", "string")] ["query"];
    mk_tool "get_account_info" [] [] ].

(** [v.startswith("/")]: a method of [str] only. *)
Definition startswith_slash (v : value) : outcome bool :=
  match v with
  | VStr s => Return (startswith "/" s)
  | _ => Raise (mk_exn AttributeError
                  ("'" +:+ type_name v +:+ "' object has no attribute 'startswith'"))
  end.

(** ["/" + v] *)
Definition prepend_slash (v : value) : outcome value :=
  match v with
  | VStr s => Return (VStr ("/" +:+ s))
  | _ => Raise (mk_exn TypeError
                  ("can only concatenate str (not " +:+ dq +:+ type_name v
                   +:+ dq +:+ ") to str"))
  end.

(** [if not path.startswith("/"): path = "/" + path] *)
Definition ensure_leading_slash (path : value) : outcome value :=
  let* has := startswith_slash path in
  if negb has then prepend_slash path else Return path.

(** The normalisation of [list_folder]. *)
Definition normalize_folder_path (folder_path : value) : outcome value :=
  match folder_path with
  | VStr "/" | VStr "" => Return (VStr "")
  | _ => ensure_leading_slash folder_path
  end.

Definition join_lines (l : list string) : string := String.concat nl l.

(** The listing loop: files and folders apart, other entries dropped. *)
Definition file_lines (entries : list metadata) : list string :=
  omap (fun e => match e with
                 | FileMetadata name _ size _ _ =>
                     Some ("📄 " +:+ name +:+ " (" +:+ str_of_int size +:+ " bytes)")
                 | _ => None
                 end) entries.

Definition folder_lines (entries : list metadata) : list string :=
  omap (fun e => match e with
                 | FolderMetadata name _ => Some ("📁 " +:+ name +:+ "/")
                 | _ => None
                 end) entries.

Definition listing (folder_path : value) (entries : list metadata) : string :=
  let files := file_lines entries in
  let folders := folder_lines entries in
  "Contents of "
  +:+ (match folder_path with VStr "" => "/" | _ => str folder_path end)
  +:+ ":" +:+ nl
  +:+ (match folders with [] => "" | _ => nl +:+ "Folders:" +:+ nl +:+ join_lines folders end)
  +:+ (match files with [] => "" | _ => nl +:+ "Files:" +:+ nl +:+ join_lines files end).

Definition file_info (m : metadata) : string :=
  match m with
  | FileMetadata name path_display size client_modified content_hash =>
      "File Info:" +:+ nl +:+ "Name: " +:+ name +:+ nl
      +:+ "Path: " +:+ path_display +:+ nl
      +:+ "Size: " +:+ str_of_int size +:+ " bytes" +:+ nl
      +:+ "Modified: " +:+ client_modified +:+ nl
      +:+ "Content Hash: " +:+ content_hash
  | FolderMetadata name path_display =>
      "Folder Info:" +:+ nl +:+ "Name: " +:+ name +:+ nl
      +:+ "Path: " +:+ path_display +:+ nl +:+ "Type: Folder"
  | OtherMetadata type_str => "Unknown file type: " +:+ type_str
  end.

(** The search loop, over [result.matches[:10]]. *)
Definition match_lines (matches : list metadata) : list string :=
  omap (fun e => match e with
                 | FileMetadata _ path_display size _ _ =>
                     Some ("📄 " +:+ path_display +:+ " (" +:+ str_of_int size
                           +:+ " bytes)")
                 | FolderMetadata _ path_display =>
                     Some ("📁 " +:+ path_display +:+ "/")
                 | OtherMetadata _ => None
                 end) (take 10 matches).

Section Handlers.
(** [f"{x / (1024**3):.2f}"]: the formatting of a float, taken as given. *)
Variable format_gb : Z -> string.
Variable w : world.

Definition account_info (a : account) (used allocated : Z) : string :=
  "Dropbox Account Info:" +:+ nl
  +:+ "Name: " +:+ display_name a +:+ nl
  +:+ "Email: " +:+ email a +:+ nl
  +:+ "Account Type: " +:+ account_type_tag a +:+ nl
  +:+ "Storage Used: " +:+ format_gb used +:+ " GB" +:+ nl
  +:+ "Storage Total: " +:+ format_gb allocated +:+ " GB" +:+ nl
  +:+ "Storage Available: " +:+ format_gb (allocated - used) +:+ " GB".

(** [get_dropbox_client()]; [not_set] is the message of the file at hand. *)
Definition get_dropbox_client (not_set : string) : M (S := list event) unit :=
  match getenv w "DROPBOX_ACCESS_TOKEN" with
  | None | Some "" => raise (mk_exn ValueError not_set)
  | Some _ =>
      if dropbox_importable w then ret tt
      else raise (mk_exn ImportError
             "dropbox package not installed. Install with: pip install dropbox")
  end.

(** An SDK call is recorded with the arguments the client receives. *)
Definition sdk {A} (method : string) (path : value) (answer : outcome A)
  : M (S := list event) A :=
  perform (Sdk method [path]) answer.

(** The attempt to reuse a shared link: [try: ... except: pass].  [Some
    url] when the handler returns from inside the [try]. *)
Definition existing_shared_link (dropbox_path : value)
  : M (S := list event) (option string) :=
  try_catch
    (let! links := sdk "sharing_list_shared_links" dropbox_path
                     (sharing_list_shared_links w dropbox_path) in
     ret (head links))
    (fun _ => ret None).

Definition not_set_render : string :=
  "DROPBOX_ACCESS_TOKEN environment variable not set. Please set this in your Render environment variables.".

(** ** The dispatcher of the low-level server *)

(** The [try] block of [call_tool]: the chain of branches, each with the
    [try] of its own. *)
Definition call_tool_try (name : string) (arguments : gmap string value)
  : M (S := list event) (list TextContent) :=
    (if (name =? "upload_file")%string then
       let local_path := dict_get arguments "local_path" (VStr "") in
       let dropbox_path := dict_get arguments "dropbox_path" (VStr "") in
       try_catch
         (let! _ := get_dropbox_client not_set_render in
          let! file_content := lift (read_file w local_path) in
          let! _ := perform (Sdk "files_upload" [VStr file_content; dropbox_path])
                      (files_upload w file_content dropbox_path) in
          ret [text_content ("File uploaded successfully: " +:+ str dropbox_path)])
         (fun e =>
            if subclass (exn_cls e) FileNotFoundError
            then ret [text_content ("Local file not found: " +:+ str local_path)]
            else ret [text_content ("Upload failed: " +:+ exn_str e)])
     else if (name =? "download_file")%string then
       let dropbox_path := dict_get arguments "dropbox_path" (VStr "") in
       let local_path := dict_get arguments "local_path" (VStr "") in
       try_catch
         (let! _ := get_dropbox_client not_set_render in
          let! content := sdk "files_download" dropbox_path
                            (files_download w dropbox_path) in
          let! _ := lift (write_file w local_path content) in
          ret [text_content ("File downloaded successfully: " +:+ str local_path)])
         (fun e => ret [text_content ("Download failed: " +:+ exn_str e)])
     else if (name =? "list_folder")%string then
       let folder_path := dict_get arguments "folder_path" (VStr "") in
       try_catch
         (let! _ := get_dropbox_client not_set_render in
          let! folder_path := lift (normalize_folder_path folder_path) in
          let! entries := sdk "files_list_folder" folder_path
                            (files_list_folder w folder_path) in
          ret [text_content (listing folder_path entries)])
         (fun e => ret [text_content ("List folder failed: " +:+ exn_str e)])
     else if (name =? "create_folder")%string then
       let folder_path := dict_get arguments "folder_path" (VStr "") in
       try_catch
         (let! _ := get_dropbox_client not_set_render in
          let! folder_path := lift (ensure_leading_slash folder_path) in
          let! _ := sdk "files_create_folder_v2" folder_path
                      (files_create_folder_v2 w folder_path) in
          ret [text_content ("Folder created successfully: " +:+ str folder_path)])
         (fun e => ret [text_content ("Create folder failed: " +:+ exn_str e)])
     else if (name =? "delete_file")%string then
       let dropbox_path := dict_get arguments "dropbox_path" (VStr "") in
       try_catch
         (let! _ := get_dropbox_client not_set_render in
          let! dropbox_path := lift (ensure_leading_slash dropbox_path) in
          let! _ := sdk "files_delete_v2" dropbox_path
                      (files_delete_v2 w dropbox_path) in
          ret [text_content ("Deleted successfully: " +:+ str dropbox_path)])
         (fun e => ret [text_content ("Delete failed: " +:+ exn_str e)])
     else if (name =? "get_file_info")%string then
       let dropbox_path := dict_get arguments "dropbox_path" (VStr "") in
       try_catch
         (let! _ := get_dropbox_client not_set_render in
          let! dropbox_path := lift (ensure_leading_slash dropbox_path) in
          let! metadata := sdk "files_get_metadata" dropbox_path
                             (files_get_metadata w dropbox_path) in
          ret [text_content (file_info metadata)])
         (fun e => ret [text_content ("Get file info failed: " +:+ exn_str e)])
     else if (name =? "create_shared_link")%string then
       let dropbox_path := dict_get arguments "dropbox_path" (VStr "") in
       try_catch
         (let! _ := get_dropbox_client not_set_render in
          let! dropbox_path := lift (ensure_leading_slash dropbox_path) in
          let! existing := existing_shared_link dropbox_path in
          match existing with
          | Some link_url => ret [text_content ("Shared link: " +:+ link_url)]
          | None =>
              let! link_url :=
                sdk "sharing_create_shared_link_with_settings" dropbox_path
                  (sharing_create_shared_link_with_settings w dropbox_path) in
              ret [text_content ("Shared link created: " +:+ link_url)]
          end)
         (fun e => ret [text_content ("Create shared link failed: " +:+ exn_str e)])
     else if (name =? "search_files")%string then
       let query := dict_get arguments "query" (VStr "") in
       try_catch
         (let! _ := get_dropbox_client not_set_render in
          let! matches := sdk "files_search_v2" query (files_search_v2 w query) in
          match matches with
          | [] => ret [text_content ("No files found matching: " +:+ str query)]
          | _ => ret [text_content ("Search results for '" +:+ str query +:+ "':"
                                    +:+ nl +:+ join_lines (match_lines matches))]
          end)
         (fun e => ret [text_content ("Search failed: " +:+ exn_str e)])
     else if (name =? "get_account_info")%string then
       try_catch
         (let! _ := get_dropbox_client not_set_render in
          let! account := perform (Sdk "users_get_current_account" [])
                            (users_get_current_account w) in
          let! usage := perform (Sdk "users_get_space_usage" [])
                          (users_get_space_usage w) in
          let used := fst usage in
          let! allocated := lift (snd usage) in
          ret [text_content (account_info account used allocated)])
         (fun e => ret [text_content ("Get account info failed: " +:+ exn_str e)])
     else
       ret [text_content ("Unknown tool: " +:+ name)]).

Definition call_tool (name : string) (arguments : gmap string value)
  : M (S := list event) (list TextContent) :=
  try_catch (call_tool_try name arguments)
    (fun e => ret [text_content ("Tool execution failed: " +:+ exn_str e)]).

(** ** The tools of the FastMCP server: [str] arguments and a [Context] *)

Definition info (msg : string) : M (S := list event) unit :=
  perform (Log "info" msg) (ctx_info w msg).
Definition error (msg : string) : M (S := list event) unit :=
  perform (Log "error" msg) (ctx_error w msg).

Definition not_set : string := "DROPBOX_ACCESS_TOKEN environment variable not set".

(** [except Exception as e: await ctx.error(msg); return msg] *)
Definition report (failed : string) (e : exn) : M (S := list event) string :=
  let! _ := error (failed +:+ exn_str e) in
  ret (failed +:+ exn_str e).

Definition upload_file (local_path dropbox_path : string)
  : M (S := list event) string :=
  try_catch
    (let! _ := info ("Uploading " +:+ local_path +:+ " to " +:+ dropbox_path) in
     let! _ := get_dropbox_client not_set in
     let! file_content := lift (read_file w (VStr local_path)) in
     let! _ := perform (Sdk "files_upload" [VStr file_content; VStr dropbox_path])
                 (files_upload w file_content (VStr dropbox_path)) in
     let! _ := info ("Successfully uploaded " +:+ local_path +:+ " to "
                     +:+ dropbox_path) in
     ret ("File uploaded successfully: " +:+ dropbox_path))
    (fun e =>
       if subclass (exn_cls e) FileNotFoundError
       then ret ("Local file not found: " +:+ local_path)
       else report "Upload failed: " e).

Definition download_file (dropbox_path local_path : string)
  : M (S := list event) string :=
  try_catch
    (let! _ := info ("Downloading " +:+ dropbox_path +:+ " to " +:+ local_path) in
     let! _ := get_dropbox_client not_set in
     let! content := sdk "files_download" (VStr dropbox_path)
                       (files_download w (VStr dropbox_path)) in
     let! _ := lift (write_file w (VStr local_path) content) in
     let! _ := info ("Successfully downloaded " +:+ dropbox_path +:+ " to "
                     +:+ local_path) in
     ret ("File downloaded successfully: " +:+ local_path))
    (report "Download failed: ").

Definition list_folder (folder_path : string) : M (S := list event) string :=
  try_catch
    (let! _ := info ("Listing folder: " +:+ folder_path) in
     let! _ := get_dropbox_client not_set in
     let folder_path :=
       if (folder_path =? "/")%string || (folder_path =? "")%string then ""
       else if negb (startswith "/" folder_path) then "/" +:+ folder_path
       else folder_path in
     let! entries := sdk "files_list_folder" (VStr folder_path)
                       (files_list_folder w (VStr folder_path)) in
     ret (listing (VStr folder_path) entries))
    (report "List folder failed: ").

Definition create_folder (folder_path : string) : M (S := list event) string :=
  try_catch
    (let! _ := info ("Creating folder: " +:+ folder_path) in
     let! _ := get_dropbox_client not_set in
     let folder_path :=
       if negb (startswith "/" folder_path) then "/" +:+ folder_path
       else folder_path in
     let! _ := sdk "files_create_folder_v2" (VStr folder_path)
                 (files_create_folder_v2 w (VStr folder_path)) in
     let! _ := info ("Successfully created folder: " +:+ folder_path) in
     ret ("Folder created successfully: " +:+ folder_path))
    (report "Create folder failed: ").

Definition delete_file (dropbox_path : string) : M (S := list event) string :=
  try_catch
    (let! _ := info ("Deleting: " +:+ dropbox_path) in
     let! _ := get_dropbox_client not_set in
     let dropbox_path :=
       if negb (startswith "/" dropbox_path) then "/" +:+ dropbox_path
       else dropbox_path in
     let! _ := sdk "files_delete_v2" (VStr dropbox_path)
                 (files_delete_v2 w (VStr dropbox_path)) in
     let! _ := info ("Successfully deleted: " +:+ dropbox_path) in
     ret ("Deleted successfully: " +:+ dropbox_path))
    (report "Delete failed: ").

Definition get_file_info (dropbox_path : string) : M (S := list event) string :=
  try_catch
    (let! _ := info ("Getting info for: " +:+ dropbox_path) in
     let! _ := get_dropbox_client not_set in
     let dropbox_path :=
       if negb (startswith "/" dropbox_path) then "/" +:+ dropbox_path
       else dropbox_path in
     let! metadata := sdk "files_get_metadata" (VStr dropbox_path)
                        (files_get_metadata w (VStr dropbox_path)) in
     ret (file_info metadata))
    (report "Get file info failed: ").

Definition create_shared_link (dropbox_path : string)
  : M (S := list event) string :=
  try_catch
    (let! _ := info ("Creating shared link for: " +:+ dropbox_path) in
     let! _ := get_dropbox_client not_set in
     let dropbox_path :=
       if negb (startswith "/" dropbox_path) then "/" +:+ dropbox_path
       else dropbox_path in
     let! existing :=
       try_catch
         (let! links := sdk "sharing_list_shared_links" (VStr dropbox_path)
                          (sharing_list_shared_links w (VStr dropbox_path)) in
          match head links with
          | Some link_url =>
              let! _ := info ("Using existing shared link: " +:+ link_url) in
              ret (Some link_url)
          | None => ret None
          end)
         (fun _ => ret None) in
     match existing with
     | Some link_url => ret ("Shared link: " +:+ link_url)
     | None =>
         let! link_url :=
           sdk "sharing_create_shared_link_with_settings" (VStr dropbox_path)
             (sharing_create_shared_link_with_settings w (VStr dropbox_path)) in
         let! _ := info ("Created shared link: " +:+ link_url) in
         ret ("Shared link created: " +:+ link_url)
     end)
    (report "Create shared link failed: ").


Definition search_files (query : string) : M (S := list event) string :=
  try_catch
    (let! _ := info ("Searching for: " +:+ query) in
     let! _ := get_dropbox_client not_set in
     let! matches := sdk "files_search_v2" (VStr query)
                       (files_search_v2 w (VStr query)) in
     match matches with
     | [] => ret ("No files found matching: " +:+ query)
     | _ => ret ("Search results for '" +:+ query +:+ "':" +:+ nl
                 +:+ join_lines (match_lines matches))
     end)
    (report "Search failed: ").

Definition get_account_info : M (S := list event) string :=
  try_catch
    (let! _ := info "Getting account information" in
     let! _ := get_dropbox_client not_set in
     let! account := perform (Sdk "users_get_current_account" [])
                       (users_get_current_account w) in
     let! usage := perform (Sdk "users_get_space_usage" [])
                     (users_get_space_usage w) in
     let used := fst usage in
     let! allocated := lift (snd usage) in
     ret (account_info account used allocated))
    (report "Get account info failed: ").

End Handlers.

(** The paths that the Dropbox client received during a run. *)
Definition sdk_paths (t : list event) : list value :=
  omap (fun e => match e with
                 | Sdk "files_upload" [ _; p ] => Some p
                 | Sdk "users_get_current_account" _ => None
                 | Sdk "users_get_space_usage" _ => None
                 | Sdk "files_search_v2" _ => None
                 | Sdk _ [ p ] => Some p
                 | _ => None
                 end) t.

End Dropbox.

(* ===================================================================== *)
(** * Instagram MCP Server *)
(* ===================================================================== *)

Module Instagram.
Import Py Eff.

Record world := mk_world
  { getenv : string -> option string;
    requests_post : string -> list (string * json) -> outcome response;
    ctx_info : string -> outcome unit;
    ctx_error : string -> outcome unit }.

Section Handlers.
(** [repr] of a decoded list or dict, taken as given. *)
Variable repr : json -> string.
Variable w : world.

Definition info (msg : string) : M (S := list event) unit :=
  perform (Log "info" msg) (ctx_info w msg).
Definition error (msg : string) : M (S := list event) unit :=
  perform (Log "error" msg) (ctx_error w msg).

Definition get_instagram_config : outcome (string * string) :=
  let access_token := getenv w "IG_ACCESS_TOKEN" in
  let page_id := getenv w "IG_PAGE_ID" in
  match access_token with
  | None | Some "" =>
      Raise (mk_exn ValueError "IG_ACCESS_TOKEN environment variable not set")
  | Some access_token =>
      match page_id with
      | None | Some "" =>
          Raise (mk_exn ValueError "IG_PAGE_ID environment variable not set")
      | Some page_id => Return (access_token, page_id)
      end
  end.

Definition media_url (page_id : string) : string :=
  "https://graph.facebook.com/v17.0/" +:+ page_id +:+ "/media".
Definition publish_url (page_id : string) : string :=
  "https://graph.facebook.com/v17.0/" +:+ page_id +:+ "/media_publish".

(** [data.get('error', {}).get('message', 'Unknown error')] *)
Definition error_message (data : json) : outcome json :=
  let* err := json_get data "error" (JDict []) in
  json_get err "message" (JStr "Unknown error").

(** The [try] block of [post_photo]. *)
Definition post_photo_try (image_url caption : string)
  : M (S := list event) string :=
    (let! _ := info ("Posting photo with caption: " +:+ prefix 50 caption
                     +:+ "...") in
     let! config := lift get_instagram_config in
     let access_token := fst config in
     let page_id := snd config in
     (* Step 1: Create media object *)
     let media_params :=
       [ ("image_url", JStr image_url); ("caption", JStr caption);
         ("access_token", JStr access_token) ] in
     let! media_response :=
       perform (HttpPost (media_url page_id) media_params)
         (requests_post w (media_url page_id) media_params) in
     let! media_data := lift (resp_json media_response) in
     if negb (status_code media_response =? 200) then
       let! _ := error ("Failed to create media: " +:+ json_str repr media_data) in
       let! message := lift (error_message media_data) in
       ret ("Error creating media: " +:+ json_str repr message)
     else
       let! media_id := lift (json_item media_data "id") in
       (* Step 2: Publish media *)
       let publish_params :=
         [ ("creation_id", media_id); ("access_token", JStr access_token) ] in
       let! publish_response :=
         perform (HttpPost (publish_url page_id) publish_params)
           (requests_post w (publish_url page_id) publish_params) in
       let! publish_data := lift (resp_json publish_response) in
       if negb (status_code publish_response =? 200) then
         let! _ := error ("Failed to publish media: "
                          +:+ json_str repr publish_data) in
         let! message := lift (error_message publish_data) in
         ret ("Error publishing media: " +:+ json_str repr message)
       else
         let! post_id := lift (json_item publish_data "id") in
         let! _ := info ("Successfully posted photo with ID: "
                         +:+ json_str repr post_id) in
         ret ("Photo posted successfully! Post ID: " +:+ json_str repr post_id)).

Definition post_photo (image_url caption : string)
  : M (S := list event) string :=
  try_catch (post_photo_try image_url caption)
    (fun e =>
       let! _ := error ("Failed to post photo: " +:+ exn_str e) in
       ret ("Failed to post photo: " +:+ exn_str e)).

End Handlers.

(** The data of the publish requests issued during a run. *)
Definition publish_requests (page_id : string) (t : list event)
  : list (list (string * json)) :=
  omap (fun e => match e with
                 | HttpPost url data =>
                     if (url =? publish_url page_id)%string then Some data else None
                 | _ => None
                 end) t.

End Instagram.

(* ===================================================================== *)
(** * ElevenLabs MCP Server *)
(* ===================================================================== *)

Module ElevenLabs.
Import Py Eff.

Record world := mk_world
  { getenv : string -> option string;
    requests_post : string -> list (string * json) -> outcome response;
    ctx_info : string -> outcome unit;
    ctx_error : string -> outcome unit }.

Section Handlers.
(** [repr] of a decoded list or dict and [base64.b64encode], as given. *)
Variable repr : json -> string.
Variable b64encode : string -> string.
Variable w : world.

Definition info (msg : string) : M (S := list event) unit :=
  perform (Log "info" msg) (ctx_info w msg).
Definition error (msg : string) : M (S := list event) unit :=
  perform (Log "error" msg) (ctx_error w msg).

(** [get_elevenlabs_headers()], which needs the API key. *)
Definition get_elevenlabs_config : outcome string :=
  match getenv w "ELEVENLABS_API_KEY" with
  | None | Some "" =>
      Raise (mk_exn ValueError "ELEVENLABS_API_KEY environment variable not set")
  | Some api_key => Return api_key
  end.

Definition speech_result (text voice_id model_id audio_data : string) : string :=
  "Speech Generation Results:" +:+ nl
  +:+ "🎤 Text: " +:+ prefix 100 text
  +:+ (if Z.of_nat (String.length text) >? 100 then "..." else "") +:+ nl
  +:+ "🎭 Voice ID: " +:+ voice_id +:+ nl
  +:+ "🤖 Model: " +:+ model_id +:+ nl
  +:+ "📁 Audio Size: " +:+ str_of_int (Z.of_nat (String.length audio_data))
  +:+ " bytes" +:+ nl
  +:+ "🎵 Format: MP3" +:+ nl +:+ nl
  +:+ "📋 Base64 Audio Data (first 100 chars):" +:+ nl
  +:+ prefix 100 (b64encode audio_data) +:+ "..." +:+ nl +:+ nl
  +:+ "💡 Use this base64 data to save the audio file as MP3.".

(** The [try] block of [generate_speech]. *)
Definition generate_speech_try (text voice_id model_id : string)
  : M (S := list event) string :=
    (let! _ := info ("Generating speech for text: " +:+ prefix 50 text +:+ "...") in
     let! _api_key := lift get_elevenlabs_config in
     let url := "https://api.elevenlabs.io/v1/text-to-speech/" +:+ voice_id in
     let data :=
       [ ("text", JStr text); ("model_id", JStr model_id);
         ("voice_settings",
          JDict [ ("stability", JFloat "0.5"); ("similarity_boost", JFloat "0.5") ]) ] in
     let! response := perform (HttpPost url data) (requests_post w url data) in
     if status_code response =? 200 then
       let audio_data := content response in
       let! _ := info ("Successfully generated speech: "
                       +:+ str_of_int (Z.of_nat (String.length audio_data))
                       +:+ " bytes") in
       ret (speech_result text voice_id model_id audio_data)
     else
       let! error_data :=
         lift (match content response with
               | EmptyString => Return (JDict [])
               | String _ _ => resp_json response
               end) in
       let! _ := error ("Failed to generate speech: " +:+ json_str repr error_data) in
       let! detail := lift (json_get error_data "detail" (JDict [])) in
       let! message := lift (json_get detail "message" (JStr "Unknown error")) in
       ret ("Failed to generate speech: " +:+ json_str repr message)).

Definition generate_speech (text voice_id model_id : string)
  : M (S := list event) string :=
  try_catch (generate_speech_try text voice_id model_id)
    (fun e =>
       let! _ := error ("Failed to generate speech: " +:+ exn_str e) in
       ret ("Failed to generate speech: " +:+ exn_str e)).


(** The resource [elevenlabs://account]. *)
Definition get_elevenlabs_account : string :=
  match get_elevenlabs_config with
  | Return api_key =>
      "ElevenLabs API Key: " +:+ "**********" +:+ tail_chars 10 api_key
  | Raise e => "Error accessing ElevenLabs account: " +:+ exn_str e
  end.

End Handlers.
End ElevenLabs.

(* ===================================================================== *)
(** * PDF Tools MCP Server *)
(* ===================================================================== *)

Module Pdf.
Import Py Eff.

(** A page is kept as an opaque value. *)
Definition page := string.

(** The world of one call.  Temporary files are named by the system,
    which knows what happened before ([NamedTemporaryFile]);
    [read_pdf path] stands for [open(path, 'rb')], [PdfReader(file)] and
    the access to [pdf_reader.pages]: the pages, or the first exception of
    the three; [writer_write] is [pdf_writer.write(output_file)] for the
    pages added to the writer. *)
Record world := mk_world
  { pdf_libraries : outcome unit;
    requests_get : string -> outcome response;
    NamedTemporaryFile : string -> list event -> outcome string;
    temp_write : string -> string -> outcome unit;
    read_pdf : string -> outcome (list page);
    writer_write : string -> list page -> outcome unit;
    read_file : string -> outcome string;
    ctx_info : string -> outcome unit;
    ctx_error : string -> outcome unit }.

(** The temporary files on disk after a run. *)
Definition disk (t : list event) : gset string :=
  foldl (fun d e => match e with
                    | TempFile p => {[ p ]} ∪ d
                    | Unlink p => d ∖ {[ p ]}
                    | _ => d
                    end) ∅ t.

(** The pages handed to [pdf_writer.write]. *)
Definition written_pages (t : list event) : list (list page) :=
  omap (fun e => match e with PdfWrite _ pages => Some pages | _ => None end) t.

(** [for page_num in nums: pdf_writer.add_page(pdf_reader.pages[page_num])];
    the writer is the list of the pages added so far. *)
Fixpoint add_pages (writer pages : list page) (nums : list Z)
  : outcome (list page) :=
  match nums with
  | [] => Return writer
  | page_num :: rest =>
      let* p := list_item pages page_num in
      add_pages (writer ++ [p])%list pages rest
  end.

Section Handlers.
(** [base64.b64encode(data).decode('utf-8')], taken as given. *)
Variable b64encode : string -> string.
Variable w : world.

Definition info (msg : string) : M (S := list event) unit :=
  perform (Log "info" msg) (ctx_info w msg).
Definition error (msg : string) : M (S := list event) unit :=
  perform (Log "error" msg) (ctx_error w msg).

(** [with tempfile.NamedTemporaryFile(suffix=.., delete=False) as f: body]
    then [path = f.name].  The file is created under a name that is not
    taken ([tempfile] gives up with [FileExistsError] when the system offers
    none); once created it stays, whatever [body] does. *)
Definition with_temp_file (suffix : string)
    (body : string -> M (S := list event) unit) : M (S := list event) string :=
  fun t =>
    match NamedTemporaryFile w suffix t with
    | Raise e => (t, Raise e)
    | Return path =>
        if bool_decide (path ∈ disk t)
        then (t, Raise (mk_exn FileExistsError
                          "[Errno 17] No usable temporary file name found"))
        else (let! _ := body path in ret path) (t ++ [TempFile path])%list
    end.

(** [os.unlink(path)]: the file must be there. *)
Definition unlink (path : string) : M (S := list event) unit := fun t =>
  if bool_decide (path ∈ disk t)
  then ((t ++ [Unlink path])%list, Return tt)
  else (t, Raise (mk_exn FileNotFoundError
                    ("[Errno 2] No such file or directory: '" +:+ path +:+ "'"))).

Definition invalid_page_range (start_page end_page total_pages : Z) : string :=
  "Invalid page range: " +:+ str_of_int start_page +:+ "-" +:+ str_of_int end_page
  +:+ ". PDF has " +:+ str_of_int total_pages +:+ " pages.".

Definition split_result (pdf_url : string) (total_pages start_page end_page
    pages_extracted : Z) (split_pdf_data : string) : string :=
  "PDF Split Results:" +:+ nl
  +:+ "📄 Source: " +:+ pdf_url +:+ nl
  +:+ "📊 Original Pages: " +:+ str_of_int total_pages +:+ nl
  +:+ "✂️  Extracted Pages: " +:+ str_of_int start_page +:+ "-"
  +:+ str_of_int end_page +:+ " (" +:+ str_of_int pages_extracted +:+ " pages)" +:+ nl
  +:+ "📁 Output Size: " +:+ str_of_int (Z.of_nat (String.length split_pdf_data))
  +:+ " bytes" +:+ nl +:+ nl
  +:+ "📋 Base64 Data (first 100 chars):" +:+ nl
  +:+ prefix 100 (b64encode split_pdf_data) +:+ "..." +:+ nl +:+ nl
  +:+ "💡 Use this base64 data to save the split PDF file.".

(** The outer [try] block of [split_pdf_pages]. *)
Definition split_pdf_pages_try (pdf_url : string) (start_page end_page : Z)
  : M (S := list event) string :=
    (let! _ := info ("Splitting PDF pages " +:+ str_of_int start_page +:+ "-"
                     +:+ str_of_int end_page +:+ " from: " +:+ pdf_url) in
     let! _ := lift (pdf_libraries w) in
     (* Download PDF *)
     let! response := perform (HttpGet pdf_url) (requests_get w pdf_url) in
     if negb (status_code response =? 200) then
       ret ("Failed to download PDF from " +:+ pdf_url)
     else
       (* Save to temporary file *)
       let! temp_path :=
         with_temp_file ".pdf"
           (fun path => lift (temp_write w path (content response))) in
       try_finally
         (let! pages := lift (read_pdf w temp_path) in
          let total_pages := Z.of_nat (length pages) in
          (* Validate page range *)
          if (start_page <? 1) || (end_page >? total_pages)
             || (start_page >? end_page)
          then ret (invalid_page_range start_page end_page total_pages)
          else
            (* Add specified pages to writer *)
            let! writer := lift (add_pages [] pages (range (start_page - 1) end_page)) in
            (* Save split PDF to temporary file *)
            let! output_path :=
              with_temp_file "_split.pdf"
                (fun path => perform (PdfWrite path writer)
                               (writer_write w path writer)) in
            let! split_pdf_data := lift (read_file w output_path) in
            (* Clean up output file *)
            let! _ := unlink output_path in
            let pages_extracted := end_page - start_page + 1 in
            let! _ := info ("Successfully split PDF: extracted "
                            +:+ str_of_int pages_extracted +:+ " pages") in
            ret (split_result pdf_url total_pages start_page end_page
                   pages_extracted split_pdf_data))
         (* Clean up input file *)
         (unlink temp_path)).

Definition split_pdf_pages (pdf_url : string) (start_page end_page : Z)
  : M (S := list event) string :=
  try_catch (split_pdf_pages_try pdf_url start_page end_page)
    (fun e =>
       let! _ := error ("Failed to split PDF: " +:+ exn_str e) in
       ret ("Failed to split PDF: " +:+ exn_str e)).


(** ** [extract_text_from_pdf] *)

(** [page.extract_text()], taken as given. *)
Variable extract_text : page -> outcome string.

(** The loop over [range(total_pages)], with [extracted_text] so far. *)
Fixpoint extract_pages (pages : list page) (nums : list Z) (extracted_text : string)
  : outcome string :=
  match nums with
  | [] => Return extracted_text
  | page_num :: rest =>
      let* page := list_item pages page_num in
      let* page_text := extract_text page in
      extract_pages pages rest
        (extracted_text +:+ nl +:+ "--- Page " +:+ str_of_int (page_num + 1)
         +:+ " ---" +:+ nl +:+ page_text +:+ nl)
  end.

Definition extraction_result (pdf_url : string) (total_pages : Z)
    (extracted_text : string) : string :=
  let len := Z.of_nat (String.length extracted_text) in
  "PDF Text Extraction Results:" +:+ nl
  +:+ "Source: " +:+ pdf_url +:+ nl
  +:+ "Total Pages: " +:+ str_of_int total_pages +:+ nl
  +:+ "Content Length: " +:+ str_of_int len +:+ " characters" +:+ nl +:+ nl
  +:+ prefix 2000 extracted_text
  +:+ (if len >? 2000
       then nl +:+ nl +:+ "... (truncated, total length: " +:+ str_of_int len
            +:+ " characters)"
       else "").

(** The outer [try] block of [extract_text_from_pdf]. *)
Definition extract_text_from_pdf_try (pdf_url : string)
  : M (S := list event) string :=
    (let! _ := info ("Extracting text from PDF: " +:+ pdf_url) in
     let! _ := lift (pdf_libraries w) in
     (* Download PDF *)
     let! response := perform (HttpGet pdf_url) (requests_get w pdf_url) in
     if negb (status_code response =? 200) then
       ret ("Failed to download PDF from " +:+ pdf_url)
     else
       (* Save to temporary file *)
       let! temp_path :=
         with_temp_file ".pdf"
           (fun path => lift (temp_write w path (content response))) in
       try_finally
         (let! pages := lift (read_pdf w temp_path) in
          let total_pages := Z.of_nat (length pages) in
          let! extracted_text :=
            lift (extract_pages pages (range 0 total_pages) "") in
          let! _ := info ("Successfully extracted text from "
                          +:+ str_of_int total_pages +:+ " pages") in
          ret (extraction_result pdf_url total_pages extracted_text))
         (* Clean up temporary file *)
         (unlink temp_path)).

Definition extract_text_from_pdf (pdf_url : string) : M (S := list event) string :=
  try_catch (extract_text_from_pdf_try pdf_url)
    (fun e =>
       let! _ := error ("Failed to extract text from PDF: " +:+ exn_str e) in
       ret ("Failed to extract text from PDF: " +:+ exn_str e)).

(** ** [merge_pdfs]

    The names of the temporary files are kept in a list, [temp_files], that
    the [finally] clause reads: the state of the [try] block is the trace and
    that list. *)

(** A call that does not touch [temp_files]. *)
Definition local {A} (c : M (S := list event) A)
  : M (S := list event * list string) A :=
  fun s => match c s.1 with (t, r) => ((t, s.2), r) end.

(** [temp_files.append(path)] *)
Definition temp_files_append (path : string) : M (S := list event * list string) unit :=
  fun s => ((s.1, (s.2 ++ [path])%list), Return tt).

(** The loop over [enumerate(pdf_urls)], from index [i] on, with the pages
    added to the writer so far.  It ends with the writer, or with the text
    of the [return] inside it.  [temp_file.write] is the last call of the
    [with] block that can fail; the name is appended after it. *)
Fixpoint merge_loop (n i : Z) (pdf_urls : list string) (pdf_writer : list page)
  : M (S := list event * list string) (string + list page) :=
  match pdf_urls with
  | [] => ret (inr pdf_writer)
  | pdf_url :: rest =>
      let! _ := local (info ("Processing PDF " +:+ str_of_int (i + 1) +:+ "/"
                             +:+ str_of_int n +:+ ": " +:+ pdf_url)) in
      (* Download PDF *)
      let! response := local (perform (HttpGet pdf_url) (requests_get w pdf_url)) in
      if negb (status_code response =? 200) then
        ret (inl ("Failed to download PDF from " +:+ pdf_url))
      else
        (* Save to temporary file *)
        let! temp_path :=
          local (with_temp_file ("_" +:+ str_of_int i +:+ ".pdf")
                   (fun path => lift (temp_write w path (content response)))) in
        let! _ := temp_files_append temp_path in
        (* Add all pages to the writer *)
        let! pages := local (lift (read_pdf w temp_path)) in
        merge_loop n (i + 1) rest (pdf_writer ++ pages)%list
  end.

(** [for i, url in enumerate(pdf_urls, 1): result += f"{i}. {url}\n"] *)
Fixpoint source_urls (i : Z) (pdf_urls : list string) : string :=
  match pdf_urls with
  | [] => ""
  | url :: rest =>
      str_of_int i +:+ ". " +:+ url +:+ nl +:+ source_urls (i + 1) rest
  end.

Definition merge_result (pdf_urls : list string) (total_pages : Z)
    (merged_pdf_data : string) : string :=
  "PDF Merge Results:" +:+ nl
  +:+ "📄 Source PDFs: " +:+ str_of_int (Z.of_nat (length pdf_urls)) +:+ nl
  +:+ "📊 Total Pages: " +:+ str_of_int total_pages +:+ nl
  +:+ "📁 Output Size: " +:+ str_of_int (Z.of_nat (String.length merged_pdf_data))
  +:+ " bytes" +:+ nl +:+ nl
  +:+ "📋 Source URLs:" +:+ nl
  +:+ source_urls 1 pdf_urls
  +:+ nl +:+ "📋 Base64 Data (first 100 chars):" +:+ nl
  +:+ prefix 100 (b64encode merged_pdf_data) +:+ "..." +:+ nl +:+ nl
  +:+ "💡 Use this base64 data to save the merged PDF file.".

(** The inner [try] block. *)
Definition merge_pdfs_body (pdf_urls : list string)
  : M (S := list event * list string) string :=
    (let n := Z.of_nat (length pdf_urls) in
     (* Download and process each PDF *)
     let! looped := merge_loop n 0 pdf_urls [] in
     match looped with
     | inl result => ret result
     | inr pdf_writer =>
         (* Save merged PDF *)
         let! output_path :=
           local (with_temp_file "_merged.pdf"
                    (fun path => perform (PdfWrite path pdf_writer)
                                   (writer_write w path pdf_writer))) in
         let! merged_pdf_data := local (lift (read_file w output_path)) in
         (* Clean up output file *)
         let! _ := local (unlink output_path) in
         let total_pages := Z.of_nat (length pdf_writer) in
         let! _ := local (info ("Successfully merged " +:+ str_of_int n
                                +:+ " PDFs into " +:+ str_of_int total_pages
                                +:+ " pages")) in
         ret (merge_result pdf_urls total_pages merged_pdf_data)
     end).

(** [for temp_path in temp_files: if os.path.exists(temp_path):
    os.unlink(temp_path)] *)
Fixpoint remove_temp_files (temp_files : list string) : M (S := list event) unit :=
  match temp_files with
  | [] => ret tt
  | temp_path :: rest =>
      let! _ := (fun t => if bool_decide (temp_path ∈ disk t)
                          then unlink temp_path t
                          else (t, Return tt)) in
      remove_temp_files rest
  end.

(** The outer [try] block of [merge_pdfs]. *)
Definition merge_pdfs_try (pdf_urls : list string) : M (S := list event) string :=
    (let! _ := info ("Merging " +:+ str_of_int (Z.of_nat (length pdf_urls))
                     +:+ " PDF files") in
     let! _ := lift (pdf_libraries w) in
     fun t =>
       match try_finally (merge_pdfs_body pdf_urls)
               (* Clean up all temporary files *)
               (fun s => local (remove_temp_files s.2) s)
               (t, []) with
       | (s, r) => (s.1, r)
       end).

Definition merge_pdfs (pdf_urls : list string) : M (S := list event) string :=
  try_catch (merge_pdfs_try pdf_urls)
    (fun e =>
       let! _ := error ("Failed to merge PDFs: " +:+ exn_str e) in
       ret ("Failed to merge PDFs: " +:+ exn_str e)).

End Handlers.
End Pdf.

(* ===================================================================== *)
(** * Telegram MCP Server *)
(* ===================================================================== *)

Module Telegram.
Import Py Eff.

Record world := mk_world
  { getenv : string -> option string;
    requests_post : string -> list (string * json) -> outcome response;
    ctx_info : string -> outcome unit;
    ctx_error : string -> outcome unit }.

Section Handlers.
(** [repr] of a decoded list or dict, and whether a float literal denotes a
    number other than zero, taken as given. *)
Variable repr : json -> string.
Variable nonzero : string -> bool.
Variable w : world.

Definition info (msg : string) : M (S := list event) unit :=
  perform (Log "info" msg) (ctx_info w msg).
Definition error (msg : string) : M (S := list event) unit :=
  perform (Log "error" msg) (ctx_error w msg).

Definition get_telegram_config : outcome string :=
  match getenv w "TELEGRAM_BOT_TOKEN" with
  | None | Some "" =>
      Raise (mk_exn ValueError "TELEGRAM_BOT_TOKEN environment variable not set")
  | Some bot_token => Return bot_token
  end.

Definition get_telegram_api_url (bot_token method : string) : string :=
  "https://api.telegram.org/bot" +:+ bot_token +:+ "/" +:+ method.

(** [response.status_code == 200 and data.get("ok")] as a condition:
    [data.get] is called for the status 200 only. *)
Definition accepted (response : response) (data : json) : outcome bool :=
  if status_code response =? 200 then
    let* ok := json_get data "ok" JNull in
    Return (truthy nonzero ok)
  else Return false.

(** [data["result"]["message_id"]] *)
Definition result_message_id (data : json) : outcome json :=
  let* result := json_item data "result" in
  json_item result "message_id".

(** [except Exception as e: await ctx.error(msg); return msg] *)
Definition report (failed : string) (e : exn) : M (S := list event) string :=
  let! _ := error (failed +:+ exn_str e) in
  ret (failed +:+ exn_str e).

Definition send_message (chat_id text parse_mode : string)
  : M (S := list event) string :=
  try_catch
    (let! _ := info ("Sending message to chat " +:+ chat_id) in
     let! bot_token := lift get_telegram_config in
     let url := get_telegram_api_url bot_token "sendMessage" in
     let payload :=
       [ ("chat_id", JStr chat_id); ("text", JStr text);
         ("parse_mode", JStr parse_mode) ] in
     let! response := perform (HttpPost url payload) (requests_post w url payload) in
     let! data := lift (resp_json response) in
     let! ok := lift (accepted response data) in
     if ok then
       let! message_id := lift (result_message_id data) in
       let! _ := info ("Message sent successfully with ID: "
                       +:+ json_str repr message_id) in
       ret ("Message sent successfully! Message ID: " +:+ json_str repr message_id)
     else
       let! _ := error ("Failed to send message: " +:+ json_str repr data) in
       let! description := lift (json_get data "description" (JStr "Unknown error")) in
       ret ("Failed to send message: " +:+ json_str repr description))
    (report "Failed to send message: ").

Definition send_photo (chat_id photo_url caption : string)
  : M (S := list event) string :=
  try_catch
    (let! _ := info ("Sending photo to chat " +:+ chat_id) in
     let! bot_token := lift get_telegram_config in
     let url := get_telegram_api_url bot_token "sendPhoto" in
     let payload :=
       [ ("chat_id", JStr chat_id); ("photo", JStr photo_url);
         ("caption", JStr caption) ] in
     let! response := perform (HttpPost url payload) (requests_post w url payload) in
     let! data := lift (resp_json response) in
     let! ok := lift (accepted response data) in
     if ok then
       let! message_id := lift (result_message_id data) in
       let! _ := info ("Photo sent successfully with ID: "
                       +:+ json_str repr message_id) in
       ret ("Photo sent successfully! Message ID: " +:+ json_str repr message_id)
     else
       let! _ := error ("Failed to send photo: " +:+ json_str repr data) in
       let! description := lift (json_get data "description" (JStr "Unknown error")) in
       ret ("Failed to send photo: " +:+ json_str repr description))
    (report "Failed to send photo: ").

Definition send_document (chat_id document_url caption : string)
  : M (S := list event) string :=
  try_catch
    (let! _ := info ("Sending document to chat " +:+ chat_id) in
     let! bot_token := lift get_telegram_config in
     let url := get_telegram_api_url bot_token "sendDocument" in
     let payload :=
       [ ("chat_id", JStr chat_id); ("document", JStr document_url);
         ("caption", JStr caption) ] in
     let! response := perform (HttpPost url payload) (requests_post w url payload) in
     let! data := lift (resp_json response) in
     let! ok := lift (accepted response data) in
     if ok then
       let! message_id := lift (result_message_id data) in
       let! _ := info ("Document sent successfully with ID: "
                       +:+ json_str repr message_id) in
       ret ("Document sent successfully! Message ID: " +:+ json_str repr message_id)
     else
       let! _ := error ("Failed to send document: " +:+ json_str repr data) in
       let! description := lift (json_get data "description" (JStr "Unknown error")) in
       ret ("Failed to send document: " +:+ json_str repr description))
    (report "Failed to send document: ").

Definition set_webhook (webhook_url : string) : M (S := list event) string :=
  try_catch
    (let! _ := info ("Setting webhook to: " +:+ webhook_url) in
     let! bot_token := lift get_telegram_config in
     let url := get_telegram_api_url bot_token "setWebhook" in
     let payload := [ ("url", JStr webhook_url) ] in
     let! response := perform (HttpPost url payload) (requests_post w url payload) in
     let! data := lift (resp_json response) in
     let! ok := lift (accepted response data) in
     if ok then
       let! _ := info "Webhook set successfully" in
       ret ("Webhook set successfully to: " +:+ webhook_url)
     else
       let! _ := error ("Failed to set webhook: " +:+ json_str repr data) in
       let! description := lift (json_get data "description" (JStr "Unknown error")) in
       ret ("Failed to set webhook: " +:+ json_str repr description))
    (report "Failed to set webhook: ").

(** The resource [telegram://bot]. *)
Definition get_telegram_bot : string :=
  match get_telegram_config with
  | Return bot_token =>
      "Telegram Bot Token: " +:+ "**********" +:+ tail_chars 10 bot_token
  | Raise e => "Error accessing Telegram bot: " +:+ exn_str e
  end.

End Handlers.
End Telegram.

(* ===================================================================== *)
(** * TikTok MCP Server *)
(* ===================================================================== *)

Module TikTok.
Import Py.

Definition get_tiktok_config (getenv : string -> option string) : outcome string :=
  match getenv "TIKTOK_ACCESS_TOKEN" with
  | None | Some "" =>
      Raise (mk_exn ValueError "TIKTOK_ACCESS_TOKEN environment variable not set")
  | Some access_token => Return access_token
  end.

(** The resource [tiktok://account]. *)
Definition get_tiktok_account (getenv : string -> option string) : string :=
  match get_tiktok_config getenv with
  | Return access_token =>
      "TikTok Account Token: " +:+ "**********" +:+ tail_chars 10 access_token
  | Raise e => "Error accessing TikTok account: " +:+ exn_str e
  end.

End TikTok.

(* ===================================================================== *)
(** * Supabase MCP Server *)
(* ===================================================================== *)

Module Supabase.
Import Py Eff.

(** A call of the query builder, [supabase.table(t).select(..).eq(..)...]. *)
Inductive builder_call :=
| select (columns : string)
| insert (data : list (string * json))
| update (data : list (string * json))
| delete
| eq (column value : string)
| limit (count : Z).

(** What a handler does to the outside. *)
Inductive call :=
| Log (level msg : string)                             (* [await ctx.info/error(msg)] *)
| Execute (table_name : string) (query : list builder_call).  (* [query.execute()] *)

(** A row of [response.data]. *)
Definition record := list (string * json).

Record world := mk_world
  { getenv : string -> option string;
    supabase_importable : bool;
    create_client : string -> string -> outcome unit;
    execute : string -> list builder_call -> outcome (list record);
    ctx_info : string -> outcome unit;
    ctx_error : string -> outcome unit }.

Section Handlers.
(** [repr] of a decoded list or dict, taken as given. *)
Variable repr : json -> string.
Variable w : world.

Definition perform {A} (c : call) (answer : outcome A) : M (S := list call) A :=
  fun t => ((t ++ [c])%list, answer).

Definition info (msg : string) : M (S := list call) unit :=
  perform (Log "info" msg) (ctx_info w msg).
Definition error (msg : string) : M (S := list call) unit :=
  perform (Log "error" msg) (ctx_error w msg).

Definition get_supabase_client : outcome unit :=
  match getenv w "SUPABASE_URL" with
  | None | Some "" =>
      Raise (mk_exn ValueError "SUPABASE_URL environment variable not set")
  | Some supabase_url =>
      match getenv w "SUPABASE_ANON_KEY" with
      | None | Some "" =>
          Raise (mk_exn ValueError "SUPABASE_ANON_KEY environment variable not set")
      | Some supabase_key =>
          try_except
            (if supabase_importable w then create_client w supabase_url supabase_key
             else Raise (mk_exn ImportError "No module named 'supabase'"))
            ImportError
            (Raise (mk_exn ImportError
               "supabase package not installed. Install with: pip install supabase"))
      end
  end.

Definition run (table_name : string) (query : list builder_call)
  : M (S := list call) (list record) :=
  perform (Execute table_name query) (execute w table_name query).

(** [for key, value in record.items(): result += f"  {key}: {value}\n"] *)
Fixpoint items_text (items : record) : string :=
  match items with
  | [] => ""
  | (key, value) :: rest =>
      "  " +:+ key +:+ ": " +:+ json_str repr value +:+ nl +:+ items_text rest
  end.

(** [for i, record in enumerate(response.data, 1): ...] *)
Fixpoint records_text (i : Z) (data : list record) : string :=
  match data with
  | [] => ""
  | record :: rest =>
      "Record " +:+ str_of_int i +:+ ":" +:+ nl +:+ items_text record +:+ nl
      +:+ records_text (i + 1) rest
  end.

(** [except Exception as e: await ctx.error(msg); return msg] *)
Definition report (failed : string) (e : exn) : M (S := list call) string :=
  let! _ := error (failed +:+ exn_str e) in
  ret (failed +:+ exn_str e).

Definition query_table (table_name columns : string) (limit_ : Z)
  : M (S := list call) string :=
  try_catch
    (let! _ := info ("Querying table " +:+ table_name) in
     let! _ := lift get_supabase_client in
     (* Build query *)
     let query := [select columns] in
     let query := if limit_ =? 0 then query else (query ++ [limit limit_])%list in
     let! data := run table_name query in
     match data with
     | _ :: _ =>
         let n := str_of_int (Z.of_nat (length data)) in
         let! _ := info ("Retrieved " +:+ n +:+ " records from " +:+ table_name) in
         ret ("Query Results from " +:+ table_name +:+ " (" +:+ n +:+ " records):"
              +:+ nl +:+ nl +:+ records_text 1 data)
     | [] => ret ("No data found in table " +:+ table_name)
     end)
    (report "Failed to query table: ").

Definition search_records (table_name column value : string) (limit_ : Z)
  : M (S := list call) string :=
  try_catch
    (let! _ := info ("Searching " +:+ table_name +:+ " where " +:+ column
                     +:+ " = " +:+ value) in
     let! _ := lift get_supabase_client in
     let! data := run table_name [select "*"; eq column value; limit limit_] in
     match data with
     | _ :: _ =>
         let n := str_of_int (Z.of_nat (length data)) in
         let! _ := info ("Found " +:+ n +:+ " matching records") in
         ret ("Search Results from " +:+ table_name +:+ " (" +:+ n +:+ " records):"
              +:+ nl +:+ "Condition: " +:+ column +:+ " = " +:+ value +:+ nl +:+ nl
              +:+ records_text 1 data)
     | [] => ret ("No records found in " +:+ table_name +:+ " where " +:+ column
                  +:+ " = " +:+ value)
     end)
    (report "Failed to search records: ").

Definition update_record (table_name record_id : string) (data : list (string * json))
  : M (S := list call) string :=
  try_catch
    (let! _ := info ("Updating record " +:+ record_id +:+ " in " +:+ table_name) in
     let! _ := lift get_supabase_client in
     let! rows := run table_name [update data; eq "id" record_id] in
     match rows with
     | updated_record :: _ =>
         let! _ := info ("Successfully updated record " +:+ record_id) in
         ret ("Record updated successfully in " +:+ table_name +:+ "!" +:+ nl
              +:+ "Record ID: " +:+ record_id +:+ nl +:+ nl
              +:+ "Updated data:" +:+ nl +:+ items_text updated_record)
     | [] => ret ("No record found with ID " +:+ record_id +:+ " in " +:+ table_name)
     end)
    (report "Failed to update record: ").

Definition delete_record (table_name record_id : string)
  : M (S := list call) string :=
  try_catch
    (let! _ := info ("Deleting record " +:+ record_id +:+ " from " +:+ table_name) in
     let! _ := lift get_supabase_client in
     let! rows := run table_name [delete; eq "id" record_id] in
     match rows with
     | deleted_record :: _ =>
         let! _ := info ("Successfully deleted record " +:+ record_id) in
         ret ("Record deleted successfully from " +:+ table_name +:+ "!" +:+ nl
              +:+ "Deleted record ID: " +:+ record_id +:+ nl +:+ nl
              +:+ "Deleted data:" +:+ nl +:+ items_text deleted_record)
     | [] => ret ("No record found with ID " +:+ record_id +:+ " in " +:+ table_name)
     end)
    (report "Failed to delete record: ").

End Handlers.
End Supabase.

(* ===================================================================== *)
(** * Auxiliary definitions for the proofs *)
(* ===================================================================== *)

Import Py Datetime.

(** The month and day part of [_ord2ymd], after the year is known. *)
Definition ord2ymd_tail (leapyear : bool) (year n : Z) : date :=
  let month := Z.shiftr (n + 50) 5 in
  let preceding :=
    _DAYS_BEFORE_MONTH month + (if (month >? 2) && leapyear then 1 else 0) in
  let '(month, preceding) :=
    if preceding >? n
    then (month - 1,
          preceding - (_DAYS_IN_MONTH (month - 1)
                       + (if (month - 1 =? 2) && leapyear then 1 else 0)))
    else (month, preceding) in
  mk_date year month (n - preceding + 1).

(** What [ord2ymd_tail] must satisfy on day [n] of a year (from 0). *)
Definition tail_ok (leap : bool) (n : Z) : bool :=
  let d := ord2ymd_tail leap 0 n in
  (1 <=? month d) && (month d <=? 12) && (1 <=? day d)
  && (day d <=? (if (month d =? 2) && leap then 29 else _DAYS_IN_MONTH (month d)))
  && (_DAYS_BEFORE_MONTH (month d)
      + (if (month d >? 2) && leap then 1 else 0) + day d =? n + 1).

(** The dates that [check_date_fields] accepts. *)
Definition valid_date (d : date) : Prop :=
  1 <= year d <= 9999 /\ 1 <= month d <= 12
  /\ 1 <= day d <= _days_in_month (year d) (month d).

(** The empty value of a declared JSON type: zero for ["integer"], the empty
    string otherwise. *)
Definition empty_default (json_type : string) : value :=
  if (json_type =? "integer")%string then VInt 0 else VStr "".

(** A world for the Dropbox handlers in which every call succeeds: the
    token is set, the SDK is there, local files hold ["data"]. *)
Definition dropbox_world_ok : Dropbox.world :=
  Dropbox.mk_world
    (fun k => if (k =? "DROPBOX_ACCESS_TOKEN")%string then Some "token" else None)
    true
    (fun _ => Return "data") (fun _ _ => Return tt) (fun _ _ => Return tt)
    (fun _ => Return "data") (fun _ => Return []) (fun _ => Return tt)
    (fun _ => Return tt) (fun _ => Return (Dropbox.FolderMetadata "docs" "/docs"))
    (fun _ => Return []) (fun _ => Return "https://www.dropbox.com/s/x")
    (fun _ => Return [])
    (Return (Dropbox.mk_account "A" "a@example.org" "basic"))
    (Return (0, Return 0))
    (fun _ => Return tt) (fun _ => Return tt).

(** A storage path as the Dropbox API wants it: a string with a leading
    slash. *)
Definition leads_with_slash (v : value) : Prop :=
  exists s : string, v = VStr s /\ startswith "/" s = true.

(** Worlds for [post_photo].  The account is configured and logging works;
    the vendor is down for the create request, or only for the publish
    request, or refuses the create request with an error document. *)
Definition instagram_env (k : string) : option string :=
  if (k =? "IG_ACCESS_TOKEN")%string then Some "token"
  else if (k =? "IG_PAGE_ID")%string then Some "1789"
  else None.

Definition timed_out {A} : outcome A := Raise (mk_exn RequestException "timed out").

Definition instagram_create_down : Instagram.world :=
  Instagram.mk_world instagram_env (fun _ _ => timed_out)
    (fun _ => Return tt) (fun _ => Return tt).

Definition instagram_publish_down : Instagram.world :=
  Instagram.mk_world instagram_env
    (fun url _ =>
       if (url =? Instagram.media_url "1789")%string
       then Return (mk_response 200 "" (Return (JDict [("id", JStr "4242")])))
       else timed_out)
    (fun _ => Return tt) (fun _ => Return tt).

Definition instagram_create_refused : Instagram.world :=
  Instagram.mk_world instagram_env
    (fun url _ =>
       Return (mk_response 400 ""
                 (Return (JDict [("error", JDict [("message", JStr "Invalid image")])]))))
    (fun _ => Return tt) (fun _ => Return tt).

(** [repr] for the examples: they print no list and no dict. *)
Definition no_repr (j : json) : string := "".


(** A world in which the Dropbox service refuses the upload. *)
Definition dropbox_upload_refused : Dropbox.world :=
  Dropbox.mk_world
    (fun k => if (k =? "DROPBOX_ACCESS_TOKEN")%string then Some "token" else None)
    true
    (fun _ => Return "data") (fun _ _ => Return tt)
    (fun _ _ => Raise (mk_exn ApiError "path/conflict"))
    (fun _ => Return "data") (fun _ => Return []) (fun _ => Return tt)
    (fun _ => Return tt) (fun _ => Return (Dropbox.FolderMetadata "docs" "/docs"))
    (fun _ => Return []) (fun _ => Return "https://www.dropbox.com/s/x")
    (fun _ => Return [])
    (Return (Dropbox.mk_account "A" "a@example.org" "basic"))
    (Return (0, Return 0))
    (fun _ => Return tt) (fun _ => Return tt).






(** Worlds in which the create request of [post_photo] comes back with
    status 200 and an ['id'] that identifies nothing ([null], or the empty
    string).  The publish request is refused. *)
Definition instagram_id (media_id : json) : Instagram.world :=
  Instagram.mk_world instagram_env
    (fun url _ =>
       if (url =? Instagram.media_url "1789")%string
       then Return (mk_response 200 "" (Return (JDict [("id", media_id)])))
       else Return (mk_response 400 ""
                      (Return (JDict [("error",
                                       JDict [("message", JStr "Invalid parameter")])]))))
    (fun _ => Return tt) (fun _ => Return tt).

(** The create step of [post_photo] fails by the exception [e]: the request
    raises it, or the reply is no JSON, or (status 200) the document has no
    ['id'], or (another status) the error document is no dict. *)
Definition create_step_raises (w : Instagram.world) (image_url caption token
    page_id : string) (e : exn) : Prop :=
  let media_params :=
    [ ("image_url", JStr image_url); ("caption", JStr caption);
      ("access_token", JStr token) ] in
  let request := Instagram.requests_post w (Instagram.media_url page_id) media_params in
  request = Raise e
  \/ (exists media_response : response,
        request = Return media_response
        /\ (resp_json media_response = Raise e
            \/ exists media_data : json,
                 resp_json media_response = Return media_data
                 /\ (if status_code media_response =? 200
                     then json_item media_data "id" = Raise e
                     else Instagram.error_message media_data = Raise e))).

(** Worlds for [split_pdf_pages]: a three-page document arrives; the disk
    is full when the split document is written, or already when the
    download is saved. *)
Definition pdf_world (temp_write : string -> string -> outcome unit)
    (writer_write : string -> list Pdf.page -> outcome unit) : Pdf.world :=
  Pdf.mk_world (Return tt)
    (fun _ => Return (mk_response 200 "%PDF-1.4" (Return JNull)))
    (fun suffix _ => Return ("/tmp/tmpk3x" +:+ suffix))
    temp_write
    (fun _ => Return ["page 1"; "page 2"; "page 3"])
    writer_write
    (fun _ => Return "%PDF-1.4 split")
    (fun _ => Return tt) (fun _ => Return tt).

Definition disk_full {A} : outcome A :=
  Raise (mk_exn OSError "[Errno 28] No space left on device").

Definition pdf_world_ok : Pdf.world :=
  pdf_world (fun _ _ => Return tt) (fun _ _ => Return tt).

Definition pdf_world_disk_full : Pdf.world :=
  pdf_world (fun _ _ => Return tt) (fun _ _ => disk_full).

Definition pdf_world_disk_full_early : Pdf.world :=
  pdf_world (fun _ _ => disk_full) (fun _ _ => Return tt).

(** [base64] for the examples. *)
Definition no_b64 (data : string) : string := "".

(** [pages[start_page - 1 : end_page]] *)
Definition page_slice (pages : list Pdf.page) (start_page end_page : Z)
  : list Pdf.page :=
  take (Z.to_nat (end_page - start_page + 1)) (drop (Z.to_nat (start_page - 1)) pages).

(** The source document of a call arrives: logging works, the libraries
    are there, the download answers 200, the temporary file [temp_path] is
    created and written, and the reader finds [pages] in it. *)
Definition pdf_arrives (w : Pdf.world) (pdf_url temp_path : string)
    (pages : list Pdf.page) : Prop :=
  (forall msg, Pdf.ctx_info w msg = Return tt)
  /\ Pdf.pdf_libraries w = Return tt
  /\ (exists resp : response,
        Pdf.requests_get w pdf_url = Return resp
        /\ status_code resp = 200
        /\ Pdf.temp_write w temp_path (content resp) = Return tt)
  /\ (forall t, Pdf.NamedTemporaryFile w ".pdf" t = Return temp_path)
  /\ Pdf.read_pdf w temp_path = Return pages.







(** The text of [get_date_info] for a string that reads as [dt]. *)
Definition date_info_text (date_string : string) (dt : datetime) : string :=
  "Date: " +:+ date_string +:+ ", Day: " +:+ strftime_A dt
  +:+ ", Month: " +:+ strftime_B dt +:+ ", Day: " +:+ str_of_int (day (dt_date dt))
  +:+ ", Year: " +:+ str_of_int (year (dt_date dt)).

(** The answer of a FastMCP tool, as the low-level server wraps it. *)
Definition as_text_content (r : outcome string) : outcome (list TextContent) :=
  let* s := r in Return [text_content s].

(** What [strptime_HM] does with the time [hh:mm] of two two-digit fields. *)
Definition reads_time (h m : Z) : bool :=
  match strptime_HM (pad2 h +:+ ":" +:+ pad2 m) with
  | Return dt =>
      (h <=? 23) && (m <=? 59) && (dt_secs dt =? h * 3600 + m * 60)
  | Raise _ => negb ((h <=? 23) && (m <=? 59))
  end.

(** The calls of the Dropbox client in a trace. *)
Definition sdk_calls (t : list event) : list (string * list value) :=
  omap (fun e => match e with Sdk method args => Some (method, args) | _ => None end) t.

(** The Dropbox client cannot be made: the token is missing or empty. *)
Definition no_dropbox_token (w : Dropbox.world) : Prop :=
  Dropbox.getenv w "DROPBOX_ACCESS_TOKEN" = None
  \/ Dropbox.getenv w "DROPBOX_ACCESS_TOKEN" = Some "".

(** A world without the Dropbox token, in which everything else works. *)
Definition dropbox_world_no_token : Dropbox.world :=
  Dropbox.mk_world (fun _ => None) true
    (fun _ => Return "data") (fun _ _ => Return tt) (fun _ _ => Return tt)
    (fun _ => Return "data") (fun _ => Return []) (fun _ => Return tt)
    (fun _ => Return tt) (fun _ => Return (Dropbox.FolderMetadata "docs" "/docs"))
    (fun _ => Return []) (fun _ => Return "https://www.dropbox.com/s/x")
    (fun _ => Return [])
    (Return (Dropbox.mk_account "A" "a@example.org" "basic"))
    (Return (0, Return 0))
    (fun _ => Return tt) (fun _ => Return tt).

(** A world in which the file has a shared link already. *)
Definition dropbox_world_linked : Dropbox.world :=
  Dropbox.mk_world
    (fun k => if (k =? "DROPBOX_ACCESS_TOKEN")%string then Some "token" else None)
    true
    (fun _ => Return "data") (fun _ _ => Return tt) (fun _ _ => Return tt)
    (fun _ => Return "data") (fun _ => Return []) (fun _ => Return tt)
    (fun _ => Return tt) (fun _ => Return (Dropbox.FolderMetadata "docs" "/docs"))
    (fun _ => Return ["https://www.dropbox.com/s/old"])
    (fun _ => Return "https://www.dropbox.com/s/new")
    (fun _ => Return [])
    (Return (Dropbox.mk_account "A" "a@example.org" "basic"))
    (Return (0, Return 0))
    (fun _ => Return tt) (fun _ => Return tt).

(** The URLs of the HTTP requests in a trace. *)
Definition http_requests (t : list event) : list string :=
  omap (fun e => match e with
                 | HttpPost url _ => Some url
                 | HttpGet url => Some url
                 | _ => None
                 end) t.

(** An environment variable is missing: unset, or set to the empty string. *)
Definition unset (getenv : string -> option string) (key : string) : Prop :=
  getenv key = None \/ getenv key = Some "".

(** Worlds for the examples: no credentials at all; the speech vendor
    answers 422 with a [detail] that is a string; a key of eight characters. *)
Definition instagram_no_credentials : Instagram.world :=
  Instagram.mk_world (fun _ => None) (fun _ _ => timed_out)
    (fun _ => Return tt) (fun _ => Return tt).

Definition elevenlabs_refuses : ElevenLabs.world :=
  ElevenLabs.mk_world
    (fun k => if (k =? "ELEVENLABS_API_KEY")%string then Some "key" else None)
    (fun _ _ => Return (mk_response 422 "{...}"
                          (Return (JDict [("detail", JStr "Invalid voice")]))))
    (fun _ => Return tt) (fun _ => Return tt).

Definition telegram_world (reply : response) : Telegram.world :=
  Telegram.mk_world
    (fun k => if (k =? "TELEGRAM_BOT_TOKEN")%string then Some "12345:abcde" else None)
    (fun _ _ => Return reply) (fun _ => Return tt) (fun _ => Return tt).

(** The first character of a string, if any. *)
Definition first_char (s : string) : option ascii :=
  match s with String c _ => Some c | EmptyString => None end.

(** Writing to the temporary files and reading them back works in a world:
    [temp_file.write], [pdf_writer.write] and the [read] of the output file
    never raise. *)
Definition file_writes_succeed (w : Pdf.world) : Prop :=
  (forall path data e, Pdf.temp_write w path data <> Raise e)
  /\ (forall path pages e, Pdf.writer_write w path pages <> Raise e)
  /\ (forall path e, Pdf.read_file w path <> Raise e).

(** The document that [merge_pdfs] reads for a URL: the download answers
    200, is saved in a temporary file, and the reader finds [doc] there. *)
Definition downloaded (w : Pdf.world) (pdf_url : string) (doc : list Pdf.page) : Prop :=
  exists (reply : response) (temp_path : string),
    Pdf.requests_get w pdf_url = Return reply
    /\ status_code reply = 200
    /\ Pdf.temp_write w temp_path (content reply) = Return tt
    /\ Pdf.read_pdf w temp_path = Return doc.

(** [page.extract_text()] for the examples: the page itself. *)
Definition page_text (p : Pdf.page) : outcome string := Return p.

(** A world in which the reader refuses the document. *)
Definition pdf_world_unreadable : Pdf.world :=
  Pdf.mk_world (Return tt)
    (fun _ => Return (mk_response 200 "not a PDF" (Return JNull)))
    (fun suffix _ => Return ("/tmp/tmpk3x" +:+ suffix))
    (fun _ _ => Return tt)
    (fun _ => Raise (mk_exn PdfReadError "EOF marker not found"))
    (fun _ _ => Return tt)
    (fun _ => Return "%PDF-1.4 split")
    (fun _ => Return tt) (fun _ => Return tt).

(** A world for [merge_pdfs]: temporary files are numbered in the order of
    their creation, every download answers 200, and the document behind
    every URL has the pages ["page 1"] and ["page 2"]. *)
Definition pdf_world_merge : Pdf.world :=
  Pdf.mk_world (Return tt)
    (fun _ => Return (mk_response 200 "%PDF-1.4" (Return JNull)))
    (fun suffix t => Return ("/tmp/tmp" +:+ str_of_int (Z.of_nat (length t)) +:+ suffix))
    (fun _ _ => Return tt)
    (fun _ => Return ["page 1"; "page 2"])
    (fun _ _ => Return tt)
    (fun _ => Return "%PDF-1.4 merged")
    (fun _ => Return tt) (fun _ => Return tt).

(** A Supabase project that answers every statement with one row. *)
Definition supabase_world_ok : Supabase.world :=
  Supabase.mk_world
    (fun k => if (k =? "SUPABASE_URL")%string then Some "https://x.supabase.co"
              else if (k =? "SUPABASE_ANON_KEY")%string then Some "anon"
              else None)
    true (fun _ _ => Return tt)
    (fun _ _ => Return [[("id", JInt 7); ("name", JStr "Ada")]])
    (fun _ => Return tt) (fun _ => Return tt).

(** The statements executed in a trace. *)
Definition executed (t : list Supabase.call)
  : list (string * list Supabase.builder_call) :=
  omap (fun c => match c with
                 | Supabase.Execute table_name query => Some (table_name, query)
                 | Supabase.Log _ _ => None
                 end) t.

(** The arguments of a call have the types that the tools declare: the
    dates, the time and the title are strings, [days] is an integer. *)
Definition is_str (v : value) : bool :=
  match v with VStr _ => true | _ => false end.

Definition is_int (v : value) : bool :=
  match v with VInt _ => true | _ => false end.

Definition declared_types (arguments : gmap string value) : Prop :=
  (forall key v,
     key ∈ ["date_string"; "start_date"; "end_date"; "title"; "date"; "time"] ->
     arguments !! key = Some v -> is_str v = true)
  /\ (forall v, arguments !! "days" = Some v -> is_int v = true).

(** The run of a FastMCP tool and the run of the low-level dispatcher give
    the same answer and make the same calls of the client. *)
Definition same_run (low : list event * outcome (list TextContent))
    (high : list event * outcome string) : Prop :=
  low.2 = as_text_content high.2 /\ sdk_calls low.1 = sdk_calls high.1.

(** A world in which Instagram accepts both requests of [post_photo]. *)
Definition instagram_accepts : Instagram.world :=
  Instagram.mk_world instagram_env
    (fun url _ =>
       if (url =? Instagram.media_url "1789")%string
       then Return (mk_response 200 "" (Return (JDict [("id", JStr "4242")])))
       else Return (mk_response 200 "" (Return (JDict [("id", JStr "9000")]))))
    (fun _ => Return tt) (fun _ => Return tt).

(* ===================================================================== *)
(** * Facts about the calendar arithmetic *)
(* ===================================================================== *)

Lemma forallb_seqZ (P : Z -> bool) (lo len : Z) :
  forallb P (seqZ lo len) = true -> forall x, lo <= x < lo + len -> P x = true.
Proof.
  intros H x Hx. rewrite forallb_forall in H. apply H.
  apply list_elem_of_In, elem_of_seqZ. lia.
Qed.

Lemma days_before_year_decomp (a b c d : Z) :
  0 <= b <= 3 -> 0 <= c <= 24 -> 0 <= d <= 3 ->
  _days_before_year (400 * a + 100 * b + 4 * c + d + 1)
  = 146097 * a + 36524 * b + 1461 * c + 365 * d.
Proof.
  intros Hb Hc Hd. unfold _days_before_year.
  Z.to_euclidean_division_equations. lia.
Qed.

Lemma is_leap_decomp (a b c d : Z) :
  0 <= b <= 3 -> 0 <= c <= 24 -> 0 <= d <= 3 ->
  _is_leap (400 * a + 100 * b + 4 * c + d + 1)
  = (d =? 3) && (negb (c =? 24) || (b =? 3)).
Proof.
  intros Hb Hc Hd. unfold _is_leap.
  repeat match goal with |- context [ (?x =? ?y) ] => destruct (Z.eqb_spec x y) end;
    simpl; try reflexivity; exfalso;
    Z.to_euclidean_division_equations; lia.
Qed.

Lemma tail_ok_all :
  forallb (tail_ok false) (seqZ 0 365) && forallb (tail_ok true) (seqZ 0 366) = true.
Proof. vm_compute. reflexivity. Qed.

Lemma tail_ok_at (leap : bool) (n : Z) :
  0 <= n < 365 -> tail_ok leap n = true.
Proof.
  intros Hn. pose proof tail_ok_all as H. apply andb_prop in H as [H0 H1].
  destruct leap.
  - apply (forallb_seqZ _ _ _ H1). lia.
  - apply (forallb_seqZ _ _ _ H0). lia.
Qed.

Lemma ord2ymd_tail_year leap y n :
  ord2ymd_tail leap y n
  = mk_date y (month (ord2ymd_tail leap 0 n)) (day (ord2ymd_tail leap 0 n)).
Proof. unfold ord2ymd_tail. destruct (_ >? n); reflexivity. Qed.

Lemma ord2ymd_unfold (o : Z) :
  _ord2ymd o =
  let n0 := o - 1 in
  let n400 := n0 / 146097 in
  let r1 := n0 mod 146097 in
  let n100 := r1 / 36524 in
  let r2 := r1 mod 36524 in
  let n4 := r2 / 1461 in
  let r3 := r2 mod 1461 in
  let n1 := r3 / 365 in
  let n := r3 mod 365 in
  let year := n400 * 400 + 1 + (n100 * 100 + n4 * 4 + n1) in
  if (n1 =? 4) || (n100 =? 4) then mk_date (year - 1) 12 31
  else ord2ymd_tail ((n1 =? 3) && (negb (n4 =? 24) || (n100 =? 3))) year n.
Proof. reflexivity. Qed.

Lemma ord2ymd_spec (o : Z) :
  1 <= o <= _MAXORDINAL ->
  valid_date (_ord2ymd o) /\ toordinal (_ord2ymd o) = o.
Proof.
  unfold _MAXORDINAL. intros Ho. rewrite ord2ymd_unfold. cbv zeta.
  set (n0 := o - 1).
  set (n400 := n0 / 146097). set (r1 := n0 mod 146097).
  set (n100 := r1 / 36524). set (r2 := r1 mod 36524).
  set (n4 := r2 / 1461). set (r3 := r2 mod 1461).
  set (n1 := r3 / 365). set (n := r3 mod 365).
  assert (E0 : n0 = 146097 * n400 + r1 /\ 0 <= r1 < 146097)
    by (subst n400 r1; Z.to_euclidean_division_equations; lia).
  assert (E1 : r1 = 36524 * n100 + r2 /\ 0 <= r2 < 36524)
    by (subst n100 r2; Z.to_euclidean_division_equations; lia).
  assert (E2 : r2 = 1461 * n4 + r3 /\ 0 <= r3 < 1461)
    by (subst n4 r3; Z.to_euclidean_division_equations; lia).
  assert (E3 : r3 = 365 * n1 + n /\ 0 <= n < 365)
    by (subst n1 n; Z.to_euclidean_division_equations; lia).
  clearbody n400 r1 n100 r2 n4 r3 n1 n. subst n0.
  destruct ((n1 =? 4) || (n100 =? 4)) eqn:Hedge.
  - (* the last day of a leap year *)
    assert (Hy : n400 * 400 + 1 + (n100 * 100 + n4 * 4 + n1) - 1
                 = 400 * n400 + 100 * (if n100 =? 4 then 3 else n100)
                   + 4 * (if n100 =? 4 then 24 else n4) + 3 + 1).
    { destruct (Z.eqb_spec n100 4); destruct (Z.eqb_spec n1 4);
        simpl in Hedge; try discriminate; lia. }
    assert (Hb : 0 <= (if n100 =? 4 then 3 else n100) <= 3)
      by (destruct (Z.eqb_spec n100 4); lia).
    assert (Hc : 0 <= (if n100 =? 4 then 24 else n4) <= 24)
      by (destruct (Z.eqb_spec n100 4); lia).
    unfold valid_date, toordinal, _ymd2ord, _days_in_month, _days_before_month.
    cbn [year month day]. rewrite Hy.
    rewrite is_leap_decomp, days_before_year_decomp by lia.
    destruct (Z.eqb_spec n100 4); destruct (Z.eqb_spec n1 4);
      simpl in Hedge; try discriminate;
      repeat match goal with
             | |- context [ (?x =? ?y) ] => destruct (Z.eqb_spec x y)
             end; cbn; lia.
  - apply orb_false_elim in Hedge as [H1 H100].
    apply Z.eqb_neq in H1, H100.
    set (leap := (n1 =? 3) && (negb (n4 =? 24) || (n100 =? 3))).
    rewrite ord2ymd_tail_year.
    pose proof (tail_ok_at leap n ltac:(lia)) as Hok. unfold tail_ok in Hok.
    set (m := month (ord2ymd_tail leap 0 n)) in *.
    set (d := day (ord2ymd_tail leap 0 n)) in *.
    clearbody m d.
    repeat (apply andb_prop in Hok as [Hok ?]).
    assert (Hy : n400 * 400 + 1 + (n100 * 100 + n4 * 4 + n1)
                 = 400 * n400 + 100 * n100 + 4 * n4 + n1 + 1) by lia.
    unfold valid_date, toordinal, _ymd2ord, _days_in_month, _days_before_month.
    cbn [year month day]. rewrite Hy.
    rewrite is_leap_decomp, days_before_year_decomp by lia.
    fold leap. lia.
Qed.

Lemma days_before_year_succ (y : Z) :
  _days_before_year (y + 1)
  = _days_before_year y + 365 + (if _is_leap y then 1 else 0).
Proof.
  unfold _days_before_year, _is_leap.
  repeat match goal with |- context [ (?x =? ?y) ] => destruct (Z.eqb_spec x y) end;
    cbn [negb andb orb]; Z.to_euclidean_division_equations; lia.
Qed.

Lemma days_before_year_mono (y1 y2 : Z) :
  y1 <= y2 -> _days_before_year y1 + 365 * (y2 - y1) <= _days_before_year y2.
Proof.
  intros H. pattern y2. apply (Zlt_lower_bound_ind _ y1); [| exact H].
  intros y IH Hy. destruct (Z.eq_dec y y1) as [-> | Hne]; [lia |].
  specialize (IH (y - 1) ltac:(lia)).
  replace y with (y - 1 + 1) at 2 by lia. rewrite days_before_year_succ.
  destruct (_is_leap (y - 1)); lia.
Qed.

(** The day of the year of a valid date lies within the year. *)
Lemma day_of_year_bounds (d : date) :
  valid_date d ->
  1 <= _days_before_month (year d) (month d) + day d
    <= 365 + (if _is_leap (year d) then 1 else 0).
Proof.
  destruct d as [y m dd]. unfold valid_date, _days_before_month, _days_in_month.
  cbn [year month day]. intros (Hy & Hm & Hd).
  assert (Hcases : m = 1 \/ m = 2 \/ m = 3 \/ m = 4 \/ m = 5 \/ m = 6 \/ m = 7
                   \/ m = 8 \/ m = 9 \/ m = 10 \/ m = 11 \/ m = 12) by lia.
  destruct (_is_leap y);
    repeat (destruct Hcases as [-> | Hcases]); try subst m; cbn in *; lia.
Qed.

Lemma toordinal_bounds (d : date) :
  valid_date d -> 1 <= toordinal d <= _MAXORDINAL.
Proof.
  intros Hv. pose proof (day_of_year_bounds d Hv) as Hb.
  destruct Hv as (Hy & _). unfold toordinal, _ymd2ord.
  pose proof (days_before_year_mono 1 (year d) ltac:(lia)) as Hlo.
  pose proof (days_before_year_mono (year d + 1) 10000 ltac:(lia)) as Hhi.
  rewrite days_before_year_succ in Hhi.
  change (_days_before_year 1) with 0 in Hlo.
  change (_days_before_year 10000) with 3652059 in Hhi.
  unfold _MAXORDINAL. lia.
Qed.

Lemma toordinal_lt (a b : date) :
  valid_date a -> valid_date b -> date_ltb a b = true ->
  toordinal a < toordinal b.
Proof.
  intros Ha Hb Hlt.
  pose proof (day_of_year_bounds a Ha) as Ba.
  pose proof (day_of_year_bounds b Hb) as Bb.
  unfold date_ltb in Hlt. unfold toordinal, _ymd2ord.
  destruct (Z.ltb_spec (year a) (year b)) as [Hy | Hy].
  - pose proof (days_before_year_mono (year a + 1) (year b) ltac:(lia)) as Hm.
    rewrite days_before_year_succ in Hm. lia.
  - cbn [orb] in Hlt. apply andb_prop in Hlt as [Hy' Hlt].
    apply Z.eqb_eq in Hy'.
    destruct a as [ya ma da], b as [yb mb db]. cbn [year month day] in *.
    subst yb. clear Ba Bb Hy.
    destruct Ha as (_ & Hma & Hda), Hb as (_ & Hmb & Hdb).
    unfold _days_before_month, _days_in_month in *. cbn [year month day] in *.
    assert (Ca : ma = 1 \/ ma = 2 \/ ma = 3 \/ ma = 4 \/ ma = 5 \/ ma = 6 \/ ma = 7
                   \/ ma = 8 \/ ma = 9 \/ ma = 10 \/ ma = 11 \/ ma = 12) by lia.
    assert (Cb : mb = 1 \/ mb = 2 \/ mb = 3 \/ mb = 4 \/ mb = 5 \/ mb = 6 \/ mb = 7
                   \/ mb = 8 \/ mb = 9 \/ mb = 10 \/ mb = 11 \/ mb = 12) by lia.
    destruct (_is_leap ya);
      repeat (destruct Ca as [-> | Ca]); try subst ma;
      repeat (destruct Cb as [-> | Cb]); try subst mb;
      cbn in *; lia.
Qed.

Lemma date_trichotomy (a b : date) :
  a = b \/ date_ltb a b = true \/ date_ltb b a = true.
Proof.
  destruct a as [ya ma da], b as [yb mb db]. unfold date_ltb. cbn [year month day].
  destruct (Z.lt_trichotomy ya yb) as [H | [H | H]];
  destruct (Z.lt_trichotomy ma mb) as [H' | [H' | H']];
  destruct (Z.lt_trichotomy da db) as [H'' | [H'' | H'']];
    subst; try (left; reflexivity); right; lia.
Qed.

Lemma toordinal_inj (a b : date) :
  valid_date a -> valid_date b -> toordinal a = toordinal b -> a = b.
Proof.
  intros Ha Hb E. destruct (date_trichotomy a b) as [H | [H | H]]; [exact H | |].
  - pose proof (toordinal_lt a b Ha Hb H). lia.
  - pose proof (toordinal_lt b a Hb Ha H). lia.
Qed.

Lemma ord2ymd_toordinal (d : date) :
  valid_date d -> _ord2ymd (toordinal d) = d.
Proof.
  intros Hv. pose proof (toordinal_bounds d Hv) as Hb.
  destruct (ord2ymd_spec (toordinal d) Hb) as [Hv' E].
  apply toordinal_inj; assumption.
Qed.

Lemma digit_val_char (v : Z) :
  0 <= v <= 9 -> digit_val (digit_char v) = Some v.
Proof.
  intros H.
  assert (C : v = 0 \/ v = 1 \/ v = 2 \/ v = 3 \/ v = 4 \/ v = 5 \/ v = 6
              \/ v = 7 \/ v = 8 \/ v = 9) by lia.
  repeat (destruct C as [-> | C]); try subst v; reflexivity.
Qed.

Lemma cls_digit (v : Z) (rest : string) :
  0 <= v <= 9 -> cls 0 9 (String (digit_char v) rest) = [(v, rest)].
Proof.
  intros H. unfold cls. rewrite digit_val_char by exact H.
  destruct (Z.leb_spec 0 v); destruct (Z.leb_spec v 9); try lia. reflexivity.
Qed.

Lemma re_Y_pad4 (y : Z) (rest : string) :
  0 <= y <= 9999 -> re_Y (pad4 y +:+ rest) = [(y, rest)].
Proof.
  intros H. unfold re_Y, cls2, pad4, pad2. cbv [String.append].
  assert (0 <= y / 1000 <= 9) by (Z.to_euclidean_division_equations; lia).
  assert (0 <= y / 100 mod 10 <= 9) by (Z.to_euclidean_division_equations; lia).
  assert (0 <= y mod 100 / 10 <= 9) by (Z.to_euclidean_division_equations; lia).
  assert (0 <= y mod 100 mod 10 <= 9) by (Z.to_euclidean_division_equations; lia).
  rewrite cls_digit by assumption. cbn [mbind list_bind app].
  rewrite cls_digit by assumption. cbn [mbind list_bind app].
  rewrite cls_digit by assumption. cbn [mbind list_bind app].
  rewrite cls_digit by assumption. cbn [mbind list_bind app].
  do 2 f_equal. Z.to_euclidean_division_equations; lia.
Qed.

Lemma check_date_fields_valid (d : date) :
  valid_date d -> check_date_fields (year d) (month d) (day d) = Return d.
Proof.
  destruct d as [y m dd]. unfold valid_date, check_date_fields, MINYEAR, MAXYEAR.
  cbn [year month day]. intros (Hy & Hm & Hd).
  repeat match goal with
         | |- context [ (?a <=? ?b) ] => destruct (Z.leb_spec a b); try lia
         end.
  reflexivity.
Qed.

Lemma check_date_fields_inv (y m dd : Z) (d : date) :
  check_date_fields y m dd = Return d -> d = mk_date y m dd /\ valid_date d.
Proof.
  unfold check_date_fields, valid_date, MINYEAR, MAXYEAR.
  repeat match goal with
         | |- context [ (?a <=? ?b) ] => destruct (Z.leb_spec a b)
         end; cbn [negb andb]; intros E; try discriminate.
  injection E as <-. cbn [year month day]. split; [reflexivity | lia].
Qed.

Lemma str_of_int_four_digits (y : Z) :
  1000 <= y <= 9999 -> str_of_int y = pad4 y.
Proof.
  intros H.
  assert (Hall : forallb (fun y => (str_of_int y =? pad4 y)%string) (seqZ 1000 9000)
                 = true) by (vm_compute; reflexivity).
  apply String.eqb_eq. apply (forallb_seqZ _ _ _ Hall). lia.
Qed.

Lemma strftime_Y_four_digits (pads_year : bool) (y : Z) :
  pads_year = true \/ 1000 <= y -> y <= 9999 -> strftime_Y pads_year y = pad4 y.
Proof.
  intros [-> | Hy] Hmax; [reflexivity |]. unfold strftime_Y.
  destruct pads_year; [reflexivity |]. apply str_of_int_four_digits. lia.
Qed.

(** What [strftime] prints, [strptime] reads back, when the year is printed
    with four digits. *)
Lemma strptime_strftime (pads_year : bool) (d : date) :
  valid_date d -> pads_year = true \/ 1000 <= year d ->
  strptime_Ymd (strftime_Ymd pads_year (mk_datetime d 0)) = Return (mk_datetime d 0).
Proof.
  intros Hv Hpad. pose proof (check_date_fields_valid d Hv) as Hc.
  destruct d as [y m dd]. destruct Hv as (Hy & Hm & Hd). cbn [year month day] in *.
  assert (Hd' : 1 <= dd <= 31).
  { unfold _days_in_month, _DAYS_IN_MONTH in Hd.
    destruct ((m =? 2) && _is_leap y); [lia |].
    assert (C : m = 1 \/ m = 2 \/ m = 3 \/ m = 4 \/ m = 5 \/ m = 6 \/ m = 7
                \/ m = 8 \/ m = 9 \/ m = 10 \/ m = 11 \/ m = 12) by lia.
    repeat (destruct C as [-> | C]); try subst m; lia. }
  clear Hd.
  unfold strptime_Ymd, match_Ymd, strftime_Ymd. cbn [dt_date year month day].
  rewrite (strftime_Y_four_digits pads_year y Hpad) by lia.
  rewrite re_Y_pad4 by lia. cbn [mbind list_bind].
  assert (Cm : m = 1 \/ m = 2 \/ m = 3 \/ m = 4 \/ m = 5 \/ m = 6 \/ m = 7
               \/ m = 8 \/ m = 9 \/ m = 10 \/ m = 11 \/ m = 12) by lia.
  assert (Cd : dd = 1 \/ dd = 2 \/ dd = 3 \/ dd = 4 \/ dd = 5 \/ dd = 6 \/ dd = 7
               \/ dd = 8 \/ dd = 9 \/ dd = 10 \/ dd = 11 \/ dd = 12 \/ dd = 13
               \/ dd = 14 \/ dd = 15 \/ dd = 16 \/ dd = 17 \/ dd = 18 \/ dd = 19
               \/ dd = 20 \/ dd = 21 \/ dd = 22 \/ dd = 23 \/ dd = 24 \/ dd = 25
               \/ dd = 26 \/ dd = 27 \/ dd = 28 \/ dd = 29 \/ dd = 30 \/ dd = 31)
    by lia.
  clear Hm Hd' Hpad.
  repeat (destruct Cm as [-> | Cm]); try subst m;
    repeat (destruct Cd as [-> | Cd]); try subst dd;
    cbv -[check_date_fields]; rewrite Hc; reflexivity.
Qed.

Lemma strptime_Ymd_inv (s : string) (dt : datetime) :
  strptime_Ymd s = Return dt -> dt_secs dt = 0 /\ valid_date (dt_date dt).
Proof.
  unfold strptime_Ymd.
  destruct (match_Ymd s) as [[[[y m] d] rest] |]; [| discriminate].
  destruct rest; [| discriminate].
  destruct (check_date_fields y m d) as [dd | e] eqn:E; cbn; [| discriminate].
  intros [= <-]. cbn. split; [reflexivity |].
  apply check_date_fields_inv in E. apply E.
Qed.

Lemma check_date_fields_raises (y m d : Z) (e : exn) :
  check_date_fields y m d = Raise e -> exn_cls e = ValueError.
Proof.
  unfold check_date_fields.
  repeat match goal with |- context [ if ?b then _ else _ ] => destruct b end;
    intros [= <-]; reflexivity.
Qed.

Lemma strptime_Ymd_raises (s : string) (e : exn) :
  strptime_Ymd s = Raise e -> exn_cls e = ValueError.
Proof.
  unfold strptime_Ymd.
  destruct (match_Ymd s) as [[[[y m] d] rest] |]; [| intros [= <-]; reflexivity].
  destruct rest; [| intros [= <-]; reflexivity].
  destruct (check_date_fields y m d) as [dd | e'] eqn:E; cbn; [discriminate |].
  intros [= <-]. exact (check_date_fields_raises _ _ _ _ E).
Qed.

Lemma strptime_HM_raises (s : string) (e : exn) :
  strptime_HM s = Raise e -> exn_cls e = ValueError.
Proof.
  unfold strptime_HM.
  destruct (match_HM s) as [[[h m] rest] |]; [| intros [= <-]; reflexivity].
  destruct rest; [discriminate | intros [= <-]; reflexivity].
Qed.

(** Adding days and taking the difference are inverse to each other. *)
Lemma sub_days_add_days (dt dt' : datetime) (n : Z) :
  valid_date (dt_date dt) -> add_days dt n = Return dt' ->
  valid_date (dt_date dt') /\ dt_secs dt' = dt_secs dt /\ sub_days dt' dt = n.
Proof.
  intros Hv. unfold add_days, sub_days.
  destruct (Z.ltb_spec 0 (toordinal (dt_date dt) + n)); cbn [andb]; [| discriminate].
  destruct (Z.leb_spec (toordinal (dt_date dt) + n) _MAXORDINAL); [| discriminate].
  intros [= <-]. cbn [dt_date dt_secs].
  assert (Hr : 1 <= toordinal (dt_date dt) + n <= _MAXORDINAL) by lia.
  destruct (ord2ymd_spec _ Hr) as [Hv' E].
  split; [exact Hv' |]. split; [reflexivity |].
  rewrite E, Z.sub_diag. change (0 / 86400) with 0. lia.
Qed.

Lemma add_days_sub_days (a b : datetime) :
  valid_date (dt_date a) -> valid_date (dt_date b) ->
  dt_secs a = 0 -> dt_secs b = 0 ->
  add_days a (sub_days b a) = Return b.
Proof.
  intros Ha Hb Sa Sb. unfold add_days, sub_days. rewrite Sa, Sb.
  change ((0 - 0) / 86400) with 0. rewrite Z.add_0_r.
  replace (toordinal (dt_date a) + (toordinal (dt_date b) - toordinal (dt_date a)))
    with (toordinal (dt_date b)) by lia.
  pose proof (toordinal_bounds _ Hb) as B.
  destruct (Z.ltb_spec 0 (toordinal (dt_date b))); [| lia].
  destruct (Z.leb_spec (toordinal (dt_date b)) _MAXORDINAL); [| lia].
  cbn [andb]. rewrite ord2ymd_toordinal by exact Hb.
  destruct b as [db sb]; cbn [dt_secs dt_date] in *; subst sb; reflexivity.
Qed.

Lemma bind_Return {A B} (a : A) (k : A -> outcome B) : bind (Return a) k = k a.
Proof. reflexivity. Qed.

Lemma timedelta_days_small (n : Z) :
  Z.abs n <= 999999999 -> timedelta_days n = Return n.
Proof.
  intros H. unfold timedelta_days.
  destruct (Z.gtb_spec (Z.abs n) 999999999); [lia | reflexivity].
Qed.

Lemma add_days_in_range (dt : datetime) (n : Z) :
  1 <= toordinal (dt_date dt) + n <= _MAXORDINAL ->
  exists dd : date,
    _ord2ymd (toordinal (dt_date dt) + n) = dd
    /\ add_days dt n = Return (mk_datetime dd (dt_secs dt)).
Proof.
  intros H. exists (_ord2ymd (toordinal (dt_date dt) + n)).
  split; [reflexivity |]. unfold add_days.
  destruct (Z.ltb_spec 0 (toordinal (dt_date dt) + n)); [| lia].
  destruct (Z.leb_spec (toordinal (dt_date dt) + n) _MAXORDINAL); [| lia].
  reflexivity.
Qed.

(** C2, as the code has it: while the result stays a date of [datetime]
    and its year is printed with four digits, adding [n] days and then
    counting the days between the original and the result gives [n] back. *)
Theorem add_days_roundtrip_in_range (pads_year : bool) (d : string)
    (dt : datetime) (n : Z) :
  strptime_Ymd d = Return dt ->
  1 <= toordinal (dt_date dt) + n <= _MAXORDINAL ->
  pads_year = true \/ 1000 <= year (_ord2ymd (toordinal (dt_date dt) + n)) ->
  exists d' : string,
    Calendar.add_days_to_date pads_year d n = Return d'
    /\ Calendar.get_days_between_dates d d'
       = Return ("Days between " +:+ d +:+ " and " +:+ d' +:+ ": " +:+ str_of_int n).
Proof.
  intros Hd Hr Hpad. destruct (strptime_Ymd_inv d dt Hd) as [Hs Hv].
  pose proof (toordinal_bounds _ Hv) as Hb.
  destruct (add_days_in_range dt n Hr) as (dd & Edd & Ha).
  rewrite Edd in Hpad. clear Edd. rewrite Hs in Ha.
  destruct (sub_days_add_days dt (mk_datetime dd 0) n Hv Ha) as (Hv' & _ & Hsub).
  cbn [dt_date] in Hv'.
  exists (strftime_Ymd pads_year (mk_datetime dd 0)).
  unfold Calendar.add_days_to_date, Calendar.get_days_between_dates.
  rewrite Hd, !bind_Return, timedelta_days_small, bind_Return, Ha, bind_Return
    by (unfold _MAXORDINAL in *; lia).
  rewrite (strptime_strftime pads_year dd Hv' Hpad), bind_Return, Hsub.
  split; reflexivity.
Qed.

Lemma add_days_roundtrip_in_range_witness :
  exists d' : string,
    Calendar.add_days_to_date false "2024-02-28" 2 = Return d'
    /\ Calendar.get_days_between_dates "2024-02-28" d'
       = Return ("Days between " +:+ "2024-02-28" +:+ " and " +:+ d' +:+ ": "
                 +:+ str_of_int 2).
Proof.
  apply (add_days_roundtrip_in_range false "2024-02-28"
           (mk_datetime (mk_date 2024 2 28) 0) 2).
  - vm_compute. reflexivity.
  - vm_compute. split; discriminate.
  - right. vm_compute. discriminate.
Defined.

(** C2 as stated fails at the end of the range: one day after 9999-12-31
    is no [datetime], the addition raises [OverflowError], and the tool,
    which handles [ValueError] only, returns no date string, however the
    platform prints years.  (Where years are printed without padding, the
    day before 1000-01-01 comes back as ["999-12-31"], which the tool does
    not read.) *)
Lemma add_days_roundtrip_overflow :
  strptime_Ymd "9999-12-31" = Return (mk_datetime (mk_date 9999 12 31) 0)
  /\ (forall pads_year : bool,
        Calendar.add_days_to_date pads_year "9999-12-31" 1
        = Raise (mk_exn OverflowError "date value out of range")
        /\ ~ (exists d' : string,
                Calendar.add_days_to_date pads_year "9999-12-31" 1 = Return d'
                /\ Calendar.get_days_between_dates "9999-12-31" d'
                   = Return ("Days between " +:+ "9999-12-31" +:+ " and " +:+ d'
                             +:+ ": " +:+ str_of_int 1)))
  /\ Calendar.add_days_to_date false "1000-01-01" (-1) = Return "999-12-31"
  /\ Calendar.get_days_between_dates "1000-01-01" "999-12-31"
     = Return Calendar.invalid_both_dates.
Proof.
  split; [vm_compute; reflexivity |]. split.
  - intros pads_year.
    assert (H : Calendar.add_days_to_date pads_year "9999-12-31" 1
                = Raise (mk_exn OverflowError "date value out of range"))
      by (destruct pads_year; vm_compute; reflexivity).
    split; [exact H |]. intros (d' & H' & _). rewrite H in H'. discriminate H'.
  - split; vm_compute; reflexivity.
Qed.

Lemma sub_days_midnight (a b : datetime) :
  dt_secs a = 0 -> dt_secs b = 0 ->
  sub_days b a = toordinal (dt_date b) - toordinal (dt_date a).
Proof.
  intros Ha Hb. unfold sub_days. rewrite Ha, Hb.
  change ((0 - 0) / 86400) with 0. lia.
Qed.

(** C10: the tool reports the signed difference [end_date - start_date]. *)
Theorem days_between_is_signed_difference (a b : string) (da db : datetime) :
  strptime_Ymd a = Return da ->
  strptime_Ymd b = Return db ->
  exists k : Z,
    Calendar.get_days_between_dates a b
    = Return ("Days between " +:+ a +:+ " and " +:+ b +:+ ": " +:+ str_of_int k)
    /\ Calendar.get_days_between_dates b a
       = Return ("Days between " +:+ b +:+ " and " +:+ a +:+ ": " +:+ str_of_int (- k))
    /\ k = toordinal (dt_date db) - toordinal (dt_date da)
    /\ add_days da k = Return db
    /\ (k < 0 <-> date_ltb (dt_date db) (dt_date da) = true).
Proof.
  intros Ha Hb.
  destruct (strptime_Ymd_inv a da Ha) as [Sa Va].
  destruct (strptime_Ymd_inv b db Hb) as [Sb Vb].
  exists (sub_days db da).
  unfold Calendar.get_days_between_dates.
  rewrite Ha, Hb, !bind_Return.
  assert (Hneg : sub_days da db = - sub_days db da)
    by (rewrite !sub_days_midnight by assumption; lia).
  rewrite Hneg. split; [reflexivity |]. split; [reflexivity |].
  split; [apply sub_days_midnight; assumption |].
  split; [apply add_days_sub_days; assumption |].
  rewrite sub_days_midnight by assumption. split.
  - intros Hlt.
    destruct (date_trichotomy (dt_date db) (dt_date da)) as [E | [H | H]].
    + rewrite E in Hlt. lia.
    + exact H.
    + pose proof (toordinal_lt _ _ Va Vb H). lia.
  - intros H. pose proof (toordinal_lt _ _ Vb Va H). lia.
Qed.

Lemma days_between_is_signed_difference_witness :
  exists k : Z,
    Calendar.get_days_between_dates "2024-03-01" "2024-02-28"
    = Return ("Days between " +:+ "2024-03-01" +:+ " and " +:+ "2024-02-28" +:+ ": "
              +:+ str_of_int k)
    /\ Calendar.get_days_between_dates "2024-02-28" "2024-03-01"
       = Return ("Days between " +:+ "2024-02-28" +:+ " and " +:+ "2024-03-01" +:+ ": "
                 +:+ str_of_int (- k))
    /\ k = toordinal (mk_date 2024 2 28) - toordinal (mk_date 2024 3 1)
    /\ add_days (mk_datetime (mk_date 2024 3 1) 0) k
       = Return (mk_datetime (mk_date 2024 2 28) 0)
    /\ (k < 0 <-> date_ltb (mk_date 2024 2 28) (mk_date 2024 3 1) = true).
Proof.
  apply (days_between_is_signed_difference "2024-03-01" "2024-02-28"
           (mk_datetime (mk_date 2024 3 1) 0) (mk_datetime (mk_date 2024 2 28) 0)).
  - vm_compute. reflexivity.
  - vm_compute. reflexivity.
Defined.

(** ** What [strptime] accepts has the shape of the pattern *)











(** ** The dispatchers *)

Lemma eqb_of_not_elem (name x : string) (l : list string) :
  name ∉ x :: l -> (name =? x)%string = false /\ name ∉ l.
Proof.
  intros H. apply not_elem_of_cons in H as [H1 H2].
  split; [apply String.eqb_neq; exact H1 | exact H2].
Qed.

Ltac unknown_name H :=
  repeat (apply eqb_of_not_elem in H as [-> H]); clear H.

(** C1: a name that no tool carries is answered with the "Unknown tool"
    text, by the calendar dispatcher and by the Dropbox dispatcher. *)
Theorem unknown_tool_is_reported (name : string) (arguments : gmap string value) :
  (name ∉ tool_names Calendar.list_tools ->
   forall (pads_year : bool) (now : datetime),
     Calendar.call_tool pads_year now name arguments
     = Return [text_content ("Unknown tool: " +:+ name)])
  /\ (name ∉ tool_names Dropbox.list_tools ->
      forall (format_gb : Z -> string) (w : Dropbox.world) (t : list event),
        Dropbox.call_tool format_gb w name arguments t
        = (t, Return [text_content ("Unknown tool: " +:+ name)])).
Proof.
  split; intros H; simpl in H.
  - intros pads_year now. unfold Calendar.call_tool. unknown_name H. reflexivity.
  - intros format_gb w t. unfold Dropbox.call_tool, Dropbox.call_tool_try, Eff.try_catch.
    unknown_name H. reflexivity.
Qed.

Lemma unknown_tool_is_reported_witness :
  Calendar.call_tool false (mk_datetime (mk_date 2026 11 3) 0) "get_weather" ∅
  = Return [text_content "Unknown tool: get_weather"]
  /\ Dropbox.call_tool (fun _ => "0.00")
       (Dropbox.mk_world (fun _ => None) true
          (fun _ => Return "") (fun _ _ => Return tt) (fun _ _ => Return tt)
          (fun _ => Return "") (fun _ => Return []) (fun _ => Return tt)
          (fun _ => Return tt) (fun _ => Return (Dropbox.OtherMetadata ""))
          (fun _ => Return []) (fun _ => Return "") (fun _ => Return [])
          (Return (Dropbox.mk_account "" "" "")) (Return (0, Return 0))
          (fun _ => Return tt) (fun _ => Return tt))
       "get_weather" ∅ []
     = ([], Return [text_content "Unknown tool: get_weather"]).
Proof.
  destruct (unknown_tool_is_reported "get_weather" ∅) as [Hc Hd].
  split.
  - apply Hc. compute_done.
  - apply Hd. compute_done.
Defined.

Lemma dict_get_None (arguments : gmap string value) (key : string) (d : value) :
  arguments !! key = None -> dict_get arguments key d = d.
Proof. intros H. unfold dict_get. rewrite H. reflexivity. Qed.

Lemma dict_get_insert_eq (arguments : gmap string value) (key : string) (v d : value) :
  dict_get (<[key := v]> arguments) key d = v.
Proof. unfold dict_get. rewrite lookup_insert_eq. reflexivity. Qed.

Lemma dict_get_insert_ne (arguments : gmap string value) (key key' : string)
    (v d : value) :
  key <> key' -> dict_get (<[key := v]> arguments) key' d = dict_get arguments key' d.
Proof. intros H. unfold dict_get. rewrite lookup_insert_ne by exact H. reflexivity. Qed.

Ltac elem_cases H :=
  repeat (apply elem_of_cons in H as [H | H]);
  try (apply elem_of_nil in H; exfalso; exact H).

Ltac same_with_default Hnone :=
  rewrite ?dict_get_insert_eq, ?dict_get_insert_ne by discriminate;
  rewrite ?(dict_get_None _ _ _ Hnone); reflexivity.

(** Adding no days gives the date back. *)
Lemma add_days_zero (d : string) (dt : datetime) :
  strptime_Ymd d = Return dt -> add_days dt 0 = Return dt.
Proof.
  intros Hd. destruct (strptime_Ymd_inv d dt Hd) as [Hs Hv].
  pose proof (toordinal_bounds _ Hv) as Hb.
  destruct (add_days_in_range dt 0 ltac:(lia)) as (dd & Edd & Ha).
  rewrite Ha. rewrite Z.add_0_r, ord2ymd_toordinal in Edd by exact Hv.
  subst dd. destruct dt; reflexivity.
Qed.

(** C8: the calendar dispatcher runs the handler whether or not a required
    argument is there.  A missing argument reads as the empty value of its
    type, and the answer is the one the handler computes from it: with no
    [days] the date itself comes back, with no [title] the reminder is
    scheduled under the empty title, and with no date (or time) the handler
    reports the format error of its own in the text. *)
Theorem missing_argument_takes_empty_default (pads_year : bool) (now : datetime)
    (arguments : gmap string value) :
  let call (name : string) := Calendar.call_tool pads_year now name arguments in
  (forall (tool : Tool) (key json_type : string),
     tool ∈ Calendar.list_tools ->
     key ∈ required tool ->
     (key, json_type) ∈ properties tool ->
     arguments !! key = None ->
     call (name tool)
     = Calendar.call_tool pads_year now (name tool)
         (<[key := empty_default json_type]> arguments))
  /\ (arguments !! "date_string" = None ->
      call "get_date_info"
      = Return [text_content "Invalid date format: . Please use YYYY-MM-DD format."]
      /\ call "add_days_to_date"
         = Return [text_content "Invalid date format: . Please use YYYY-MM-DD format."])
  /\ (arguments !! "days" = None ->
      forall (d : string) (dt : datetime),
        arguments !! "date_string" = Some (VStr d) ->
        strptime_Ymd d = Return dt ->
        call "add_days_to_date" = Return [text_content (strftime_Ymd pads_year dt)])
  /\ (arguments !! "start_date" = None
      \/ (arguments !! "end_date" = None
          /\ is_str (dict_get arguments "start_date" (VStr "")) = true) ->
      call "get_days_between_dates"
      = Return [text_content
                  "Invalid date format. Please use YYYY-MM-DD format for both dates."])
  /\ (arguments !! "title" = None ->
      forall (d tm : string) (dt tmt : datetime),
        arguments !! "date" = Some (VStr d) ->
        arguments !! "time" = Some (VStr tm) ->
        strptime_Ymd d = Return dt ->
        strptime_HM tm = Return tmt ->
        call "schedule_reminder"
        = Return [text_content ("Reminder scheduled: '' on " +:+ d +:+ " at " +:+ tm)])
  /\ (arguments !! "date" = None
      \/ (arguments !! "time" = None
          /\ is_str (dict_get arguments "date" (VStr "")) = true) ->
      call "schedule_reminder"
      = Return [text_content
                  "Invalid date or time format. Use YYYY-MM-DD for date and HH:MM for time."]).
Proof.
  intros call. subst call. cbv beta.
  assert (Hempty : exists e, strptime_Ymd "" = Raise e
                             /\ subclass (exn_cls e) ValueError = true).
  { eexists. split; vm_compute; reflexivity. }
  destruct Hempty as (e0 & He0 & Hc0).
  assert (Hempty' : exists e, strptime_HM "" = Raise e
                              /\ subclass (exn_cls e) ValueError = true).
  { eexists. split; vm_compute; reflexivity. }
  destruct Hempty' as (e1 & He1 & Hc1).
  repeat match goal with |- _ /\ _ => split end.
  - intros tool key json_type Htool Hreq Hprop Hnone.
    unfold Calendar.list_tools in Htool.
    elem_cases Htool; subst tool; cbn [required properties name] in *;
      elem_cases Hreq; subst key; elem_cases Hprop; try discriminate;
      injection Hprop as ->.
    all: unfold Calendar.call_tool; simpl (String.eqb _ _); cbv iota.
    all: unfold empty_default; simpl (String.eqb _ _); cbv iota;
      same_with_default Hnone.
  - intros Hnone. unfold Calendar.call_tool; simpl (String.eqb _ _); cbv iota.
    rewrite (dict_get_None _ _ _ Hnone). split; reflexivity.
  - intros Hnone d dt Hd Hdt. unfold Calendar.call_tool; simpl (String.eqb _ _); cbv iota.
    rewrite (dict_get_None _ _ _ Hnone). unfold dict_get at 1. rewrite Hd.
    cbn [strptime timedelta]. rewrite Hdt, !bind_Return.
    rewrite timedelta_days_small by lia. rewrite bind_Return.
    rewrite (add_days_zero d dt Hdt). reflexivity.
  - intros Hnone. unfold Calendar.call_tool; simpl (String.eqb _ _); cbv iota.
    destruct Hnone as [Hnone | [Hnone Hs]]; rewrite (dict_get_None _ _ _ Hnone).
    + cbn [strptime]. rewrite He0. cbn [bind try_except]. rewrite Hc0. reflexivity.
    + destruct (dict_get arguments "start_date" (VStr "")) as [s | |];
        try discriminate Hs. cbn [strptime].
      destruct (strptime_Ymd s) as [dt | e] eqn:Es.
      * rewrite bind_Return, He0. cbn [bind try_except]. rewrite Hc0. reflexivity.
      * cbn [bind try_except]. rewrite (strptime_Ymd_raises s e Es). reflexivity.
  - intros Hnone d tm dt tmt Hd Htm Hdt Htmt.
    unfold Calendar.call_tool; simpl (String.eqb _ _); cbv iota.
    rewrite (dict_get_None _ _ _ Hnone). unfold dict_get. rewrite Hd, Htm.
    cbn [strptime]. rewrite Hdt, Htmt. reflexivity.
  - intros Hnone. unfold Calendar.call_tool; simpl (String.eqb _ _); cbv iota.
    destruct Hnone as [Hnone | [Hnone Hs]]; rewrite (dict_get_None _ _ _ Hnone).
    + cbn [strptime]. rewrite He0. cbn [bind try_except]. rewrite Hc0. reflexivity.
    + destruct (dict_get arguments "date" (VStr "")) as [s | |];
        try discriminate Hs. cbn [strptime].
      destruct (strptime_Ymd s) as [dt | e] eqn:Es.
      * rewrite bind_Return, He1. cbn [bind try_except]. rewrite Hc1. reflexivity.
      * cbn [bind try_except]. rewrite (strptime_Ymd_raises s e Es). reflexivity.
Qed.

Lemma missing_argument_takes_empty_default_witness :
  Calendar.call_tool false (mk_datetime (mk_date 2026 11 3) 0) "add_days_to_date"
    {[ "date_string" := VStr "2024-02-28" ]}
  = Return [text_content "2024-02-28"]
  /\ Calendar.call_tool false (mk_datetime (mk_date 2026 11 3) 0) "add_days_to_date"
       {[ "date_string" := VStr "2024-02-28" ]}
     = Calendar.call_tool false (mk_datetime (mk_date 2026 11 3) 0) "add_days_to_date"
         (<["days" := VInt 0]> {[ "date_string" := VStr "2024-02-28" ]})
  /\ Calendar.call_tool false (mk_datetime (mk_date 2026 11 3) 0) "get_days_between_dates"
       {[ "date_string" := VStr "2024-02-28" ]}
     = Return [text_content
                 "Invalid date format. Please use YYYY-MM-DD format for both dates."].
Proof.
  destruct (missing_argument_takes_empty_default false
              (mk_datetime (mk_date 2026 11 3) 0)
              {[ "date_string" := VStr "2024-02-28" ]})
    as (Hsame & _ & Hdays & Hbetween & _).
  split; [| split].
  - apply (Hdays ltac:(reflexivity) "2024-02-28" (mk_datetime (mk_date 2024 2 28) 0));
      reflexivity.
  - apply (Hsame (mk_tool "add_days_to_date"
                    [("date_string", "string"); ("days", "integer")]
                    ["date_string"; "days"]) "days" "integer").
    + unfold Calendar.list_tools. repeat constructor.
    + cbn. repeat constructor.
    + cbn. repeat constructor.
    + reflexivity.
  - apply Hbetween. left. reflexivity.
Defined.

(** The Dropbox dispatcher reads its arguments the same way. *)
Lemma dropbox_missing_argument_takes_empty_default (format_gb : Z -> string)
    (w : Dropbox.world) (tool : Tool) (key : string)
    (arguments : gmap string value) (t : list event) :
  tool ∈ Dropbox.list_tools ->
  key ∈ required tool ->
  arguments !! key = None ->
  Dropbox.call_tool format_gb w (name tool) arguments t
  = Dropbox.call_tool format_gb w (name tool) (<[key := VStr ""]> arguments) t.
Proof.
  intros Htool Hreq Hnone. unfold Dropbox.list_tools in Htool.
  elem_cases Htool; subst tool; cbn [required properties name] in *;
    elem_cases Hreq; subst key.
  all: unfold Dropbox.call_tool, Dropbox.call_tool_try; simpl (String.eqb _ _); cbv iota.
  all: same_with_default Hnone.
Qed.

(** ** Dropbox: the path handed to the client *)

(** Unfold a handler down to the answers of the world, and split on them. *)
Ltac run_handler :=
  cbv [Eff.try_catch Eff.bind Eff.ret Eff.raise Eff.lift Eff.perform
       Dropbox.info Dropbox.error Dropbox.report Dropbox.sdk
       Dropbox.get_dropbox_client];
  repeat match goal with
         | |- context [ match ?x with _ => _ end ] =>
             lazymatch x with
             | context [ match _ with _ => _ end ] => fail
             | _ => destruct x eqn:?
             end
         end.

Lemma normalized_path_leads_with_slash (p : string) :
  leads_with_slash (VStr (if negb (startswith "/" p) then "/" +:+ p else p)).
Proof.
  destruct (startswith "/" p) eqn:E; cbn [negb]; (eexists; split; [reflexivity |]).
  - exact E.
  - reflexivity.
Qed.

(** The handlers that normalise: whatever the world answers, a path they
    hand to the client leads with a slash. *)
Lemma create_folder_path (w : Dropbox.world) (folder_path : string) (v : value) :
  v ∈ Dropbox.sdk_paths (Dropbox.create_folder w folder_path []).1 ->
  leads_with_slash v.
Proof.
  pose proof (normalized_path_leads_with_slash folder_path) as Hn.
  unfold Dropbox.create_folder.
  set (p := if negb (startswith "/" folder_path) then _ else _) in *. clearbody p.
  run_handler; cbn; intros H;
    repeat (apply elem_of_cons in H as [-> | H]); try (apply elem_of_nil in H; destruct H);
    exact Hn.
Qed.

Lemma delete_file_path (w : Dropbox.world) (dropbox_path : string) (v : value) :
  v ∈ Dropbox.sdk_paths (Dropbox.delete_file w dropbox_path []).1 ->
  leads_with_slash v.
Proof.
  pose proof (normalized_path_leads_with_slash dropbox_path) as Hn.
  unfold Dropbox.delete_file.
  set (p := if negb (startswith "/" dropbox_path) then _ else _) in *. clearbody p.
  run_handler; cbn; intros H;
    repeat (apply elem_of_cons in H as [-> | H]); try (apply elem_of_nil in H; destruct H);
    exact Hn.
Qed.

Lemma get_file_info_path (w : Dropbox.world) (dropbox_path : string) (v : value) :
  v ∈ Dropbox.sdk_paths (Dropbox.get_file_info w dropbox_path []).1 ->
  leads_with_slash v.
Proof.
  pose proof (normalized_path_leads_with_slash dropbox_path) as Hn.
  unfold Dropbox.get_file_info.
  set (p := if negb (startswith "/" dropbox_path) then _ else _) in *. clearbody p.
  run_handler; cbn; intros H;
    repeat (apply elem_of_cons in H as [-> | H]); try (apply elem_of_nil in H; destruct H);
    exact Hn.
Qed.

Lemma create_shared_link_path (w : Dropbox.world) (dropbox_path : string) (v : value) :
  v ∈ Dropbox.sdk_paths (Dropbox.create_shared_link w dropbox_path []).1 ->
  leads_with_slash v.
Proof.
  pose proof (normalized_path_leads_with_slash dropbox_path) as Hn.
  unfold Dropbox.create_shared_link.
  set (p := if negb (startswith "/" dropbox_path) then _ else _) in *. clearbody p.
  run_handler; cbn; intros H;
    repeat (apply elem_of_cons in H as [-> | H]); try (apply elem_of_nil in H; destruct H);
    exact Hn.
Qed.

(** [list_folder] sends the root as the empty string, and any other path
    with a leading slash. *)
Lemma list_folder_path (w : Dropbox.world) (folder_path : string) (v : value) :
  v ∈ Dropbox.sdk_paths (Dropbox.list_folder w folder_path []).1 ->
  if (folder_path =? "/")%string || (folder_path =? "")%string
  then v = VStr "" else leads_with_slash v.
Proof.
  pose proof (normalized_path_leads_with_slash folder_path) as Hn.
  unfold Dropbox.list_folder.
  destruct ((folder_path =? "/")%string || (folder_path =? "")%string).
  - run_handler; cbn; intros H;
      repeat (apply elem_of_cons in H as [-> | H]);
      try (apply elem_of_nil in H; destruct H); reflexivity.
  - set (p := if negb (startswith "/" folder_path) then _ else _) in *. clearbody p.
    run_handler; cbn; intros H;
      repeat (apply elem_of_cons in H as [-> | H]);
      try (apply elem_of_nil in H; destruct H); exact Hn.
Qed.

(** [upload_file] and [download_file] hand the path over as they got it. *)
Lemma upload_file_path (w : Dropbox.world) (local_path dropbox_path : string)
    (v : value) :
  v ∈ Dropbox.sdk_paths (Dropbox.upload_file w local_path dropbox_path []).1 ->
  v = VStr dropbox_path.
Proof.
  unfold Dropbox.upload_file.
  run_handler; cbn; intros H;
    repeat (apply elem_of_cons in H as [-> | H]); try (apply elem_of_nil in H; destruct H);
    reflexivity.
Qed.

Lemma download_file_path (w : Dropbox.world) (dropbox_path local_path : string)
    (v : value) :
  v ∈ Dropbox.sdk_paths (Dropbox.download_file w dropbox_path local_path []).1 ->
  v = VStr dropbox_path.
Proof.
  unfold Dropbox.download_file.
  run_handler; cbn; intros H;
    repeat (apply elem_of_cons in H as [-> | H]); try (apply elem_of_nil in H; destruct H);
    reflexivity.
Qed.

(** C9 at a failing input: a path without the leading slash reaches
    [files_upload] and [files_download] as it is, while [create_folder]
    repairs the same path. *)
Theorem upload_file_hands_path_unchanged :
  Dropbox.upload_file dropbox_world_ok "report.pdf" "docs/report.pdf" []
  = ([ Log "info" "Uploading report.pdf to docs/report.pdf";
       Sdk "files_upload" [VStr "data"; VStr "docs/report.pdf"];
       Log "info" "Successfully uploaded report.pdf to docs/report.pdf" ],
     Return "File uploaded successfully: docs/report.pdf")
  /\ Dropbox.sdk_paths
       (Dropbox.download_file dropbox_world_ok "docs/report.pdf" "report.pdf" []).1
     = [VStr "docs/report.pdf"]
  /\ startswith "/" "docs/report.pdf" = false
  /\ Dropbox.sdk_paths (Dropbox.create_folder dropbox_world_ok "docs/2024" []).1
     = [VStr "/docs/2024"].
Proof. repeat split; vm_compute; reflexivity. Qed.

(** ** Instagram: create, then publish *)

Lemma media_url_not_publish_url (page_id : string) :
  (Instagram.media_url page_id =? Instagram.publish_url page_id)%string = false.
Proof.
  apply String.eqb_neq. unfold Instagram.media_url, Instagram.publish_url. intros H.
  apply (inj (String.append _)) in H. apply (inj (String.append _)) in H.
  discriminate.
Qed.

Ltac run_eff :=
  cbv [Eff.try_catch Eff.try_finally Eff.bind Eff.ret Eff.raise Eff.lift Eff.perform];
  repeat match goal with
         | |- context [ match ?x with _ => _ end ] =>
             lazymatch x with
             | context [ match _ with _ => _ end ] => fail
             | _ => destruct x eqn:?
             end
         end.

Ltac publish_requests_simpl :=
  cbn [Instagram.publish_requests omap list_omap app];
  rewrite ?media_url_not_publish_url, ?String.eqb_refl;
  cbn [Instagram.publish_requests omap list_omap app].

(** C3, as the code has it.  A publish request goes out only after the
    create request came back with status 200 and a document with an ['id'],
    and it carries that value as [creation_id], whatever it is.  A create
    request answered with another status gives the "Error creating media"
    text and no publish request.  A create step that fails by an exception
    gives the catch-all text "Failed to post photo: " followed by [str(e)]
    and no publish request; a publish request that raises gives a text of
    the same form. *)
Theorem publish_only_after_created_id (repr : json -> string) (w : Instagram.world)
    (image_url caption token page_id : string) (t : list event) (r : outcome string) :
  Instagram.get_instagram_config w = Return (token, page_id) ->
  Instagram.post_photo repr w image_url caption [] = (t, r) ->
  let media_params :=
    [ ("image_url", JStr image_url); ("caption", JStr caption);
      ("access_token", JStr token) ] in
  (Instagram.publish_requests page_id t <> [] ->
   exists (media_response : response) (media_data media_id : json),
     Instagram.requests_post w (Instagram.media_url page_id) media_params
     = Return media_response
     /\ status_code media_response = 200
     /\ resp_json media_response = Return media_data
     /\ json_item media_data "id" = Return media_id
     /\ Instagram.publish_requests page_id t
        = [[ ("creation_id", media_id); ("access_token", JStr token) ]])
  /\ ((forall msg, Instagram.ctx_info w msg = Return tt) ->
      (forall msg, Instagram.ctx_error w msg = Return tt) ->
      (forall (media_response : response) (media_data message : json),
         Instagram.requests_post w (Instagram.media_url page_id) media_params
         = Return media_response ->
         status_code media_response <> 200 ->
         resp_json media_response = Return media_data ->
         Instagram.error_message media_data = Return message ->
         r = Return ("Error creating media: " +:+ json_str repr message)
         /\ Instagram.publish_requests page_id t = []
         /\ forall publish_message : string,
              r <> Return ("Error publishing media: " +:+ publish_message))
      /\ (forall e : exn,
            create_step_raises w image_url caption token page_id e ->
            r = Return ("Failed to post photo: " +:+ exn_str e)
            /\ Instagram.publish_requests page_id t = [])
      /\ (forall (media_response : response) (media_data media_id : json) (e : exn),
            Instagram.requests_post w (Instagram.media_url page_id) media_params
            = Return media_response ->
            status_code media_response = 200 ->
            resp_json media_response = Return media_data ->
            json_item media_data "id" = Return media_id ->
            Instagram.requests_post w (Instagram.publish_url page_id)
              [ ("creation_id", media_id); ("access_token", JStr token) ] = Raise e ->
            r = Return ("Failed to post photo: " +:+ exn_str e)
            /\ Instagram.publish_requests page_id t
               = [[ ("creation_id", media_id); ("access_token", JStr token) ]])).
Proof.
  intros Hcfg Hrun media_params. subst media_params.
  unfold Instagram.post_photo, Instagram.post_photo_try in Hrun.
  unfold Instagram.info, Instagram.error in Hrun. rewrite Hcfg in Hrun.
  cbn [fst snd] in Hrun. split.
  - revert Hrun. run_eff; intros [= <- <-]; publish_requests_simpl;
      intros Hp; try (exfalso; apply Hp; reflexivity).
    all: do 3 eexists; repeat split; try eassumption; try reflexivity.
    all: match goal with H : negb (_ =? 200) = false |- _ =>
           apply negb_false_iff, Z.eqb_eq in H; exact H end.
  - intros Hinfo Herr.
    revert Hrun. cbv [Eff.try_catch Eff.bind Eff.ret Eff.raise Eff.lift Eff.perform].
    rewrite Hinfo. cbn [fst snd]. intros Hrun.
    split; [| split].
    + intros media_response media_data message Hpost Hstatus Hjson Hmsg.
      revert Hrun. rewrite Hpost, Hjson.
      destruct (Z.eqb_spec (status_code media_response) 200) as [E | _];
        [contradiction |].
      cbn [negb]. rewrite Herr, Hmsg. intros [= <- <-].
      split; [reflexivity |]. split; [publish_requests_simpl; reflexivity |].
      intros publish_message H. cbv [String.append] in H. discriminate H.
    + intros e Hcreate. unfold create_step_raises in Hcreate. cbv zeta in Hcreate.
      revert Hrun.
      destruct Hcreate as [Hpost | (media_response & Hpost & Hrest)]; rewrite Hpost.
      * rewrite Herr. intros [= <- <-].
        split; [reflexivity | publish_requests_simpl; reflexivity].
      * destruct Hrest as [Hjson | (media_data & Hjson & Hrest)]; rewrite Hjson.
        -- rewrite Herr. intros [= <- <-].
           split; [reflexivity | publish_requests_simpl; reflexivity].
        -- destruct (status_code media_response =? 200); cbn [negb].
           ++ rewrite Hrest, Herr. intros [= <- <-].
              split; [reflexivity | publish_requests_simpl; reflexivity].
           ++ rewrite Herr, Hrest, Herr. intros [= <- <-].
              split; [reflexivity | publish_requests_simpl; reflexivity].
    + intros media_response media_data media_id e Hpost Hstatus Hjson Hid Hpublish.
      revert Hrun. rewrite Hpost, Hjson, Hstatus. cbn [Z.eqb Pos.eqb negb].
      rewrite Hid, Hpublish, Herr. intros [= <- <-].
      split; [reflexivity | publish_requests_simpl; reflexivity].
Qed.

Lemma publish_only_after_created_id_witness :
  (exists (media_response : response) (media_data media_id : json),
     Instagram.requests_post instagram_publish_down (Instagram.media_url "1789")
       [ ("image_url", JStr "https://example.org/a.jpg"); ("caption", JStr "hello");
         ("access_token", JStr "token") ] = Return media_response
     /\ status_code media_response = 200
     /\ resp_json media_response = Return media_data
     /\ json_item media_data "id" = Return media_id
     /\ Instagram.publish_requests "1789"
          (Instagram.post_photo no_repr instagram_publish_down
             "https://example.org/a.jpg" "hello" []).1
        = [[ ("creation_id", media_id); ("access_token", JStr "token") ]])
  /\ ((Instagram.post_photo no_repr instagram_publish_down
         "https://example.org/a.jpg" "hello" []).2
      = Return "Failed to post photo: timed out"
      /\ Instagram.publish_requests "1789"
           (Instagram.post_photo no_repr instagram_publish_down
              "https://example.org/a.jpg" "hello" []).1
         = [[ ("creation_id", JStr "4242"); ("access_token", JStr "token") ]])
  /\ ((Instagram.post_photo no_repr instagram_create_refused
         "https://example.org/a.jpg" "hello" []).2
      = Return "Error creating media: Invalid image"
      /\ Instagram.publish_requests "1789"
           (Instagram.post_photo no_repr instagram_create_refused
              "https://example.org/a.jpg" "hello" []).1 = [])
  /\ ((Instagram.post_photo no_repr instagram_create_down
         "https://example.org/a.jpg" "hello" []).2
      = Return "Failed to post photo: timed out"
      /\ Instagram.publish_requests "1789"
           (Instagram.post_photo no_repr instagram_create_down
              "https://example.org/a.jpg" "hello" []).1 = []).
Proof.
  split; [| split; [| split]].
  - destruct (publish_only_after_created_id no_repr instagram_publish_down
                "https://example.org/a.jpg" "hello" "token" "1789"
                (Instagram.post_photo no_repr instagram_publish_down
                   "https://example.org/a.jpg" "hello" []).1
                (Instagram.post_photo no_repr instagram_publish_down
                   "https://example.org/a.jpg" "hello" []).2) as [H _].
    + vm_compute. reflexivity.
    + reflexivity.
    + apply H. vm_compute. discriminate.
  - destruct (publish_only_after_created_id no_repr instagram_publish_down
                "https://example.org/a.jpg" "hello" "token" "1789"
                (Instagram.post_photo no_repr instagram_publish_down
                   "https://example.org/a.jpg" "hello" []).1
                (Instagram.post_photo no_repr instagram_publish_down
                   "https://example.org/a.jpg" "hello" []).2) as [_ H].
    + vm_compute. reflexivity.
    + reflexivity.
    + destruct H as (_ & _ & H); [reflexivity | reflexivity |].
      apply (H (mk_response 200 "" (Return (JDict [("id", JStr "4242")])))
               (JDict [("id", JStr "4242")]) (JStr "4242")
               (mk_exn RequestException "timed out")); reflexivity.
  - destruct (publish_only_after_created_id no_repr instagram_create_refused
                "https://example.org/a.jpg" "hello" "token" "1789"
                (Instagram.post_photo no_repr instagram_create_refused
                   "https://example.org/a.jpg" "hello" []).1
                (Instagram.post_photo no_repr instagram_create_refused
                   "https://example.org/a.jpg" "hello" []).2) as [_ H].
    + vm_compute. reflexivity.
    + reflexivity.
    + destruct H as (H & _); [reflexivity | reflexivity |].
      destruct (H (mk_response 400 ""
                     (Return (JDict [("error",
                                      JDict [("message", JStr "Invalid image")])])))
                  (JDict [("error", JDict [("message", JStr "Invalid image")])])
                  (JStr "Invalid image")) as (Hr & Hp & _);
        [reflexivity | discriminate | reflexivity | reflexivity |].
      split; [exact Hr | exact Hp].
  - destruct (publish_only_after_created_id no_repr instagram_create_down
                "https://example.org/a.jpg" "hello" "token" "1789"
                (Instagram.post_photo no_repr instagram_create_down
                   "https://example.org/a.jpg" "hello" []).1
                (Instagram.post_photo no_repr instagram_create_down
                   "https://example.org/a.jpg" "hello" []).2) as [_ H].
    + vm_compute. reflexivity.
    + reflexivity.
    + destruct H as (_ & H & _); [reflexivity | reflexivity |].
      apply (H (mk_exn RequestException "timed out")). left. reflexivity.
Defined.


(** C3 as stated fails twice.  An identifier that identifies nothing is
    published all the same: when the create reply has status 200 and an
    ['id'] that is [null], or the empty string, the publish request goes out
    and carries it.  And when the create step fails by an exception, the
    text is the catch-all one, the same that a failure of the publish step
    gives: the vendor is down for the first request in one run, and only for
    the second request in the other. *)
Lemma unusable_id_is_published_and_stage_is_not_told :
  Instagram.post_photo no_repr (instagram_id JNull) "https://example.org/a.jpg" "hello" []
  = ([ Log "info" "Posting photo with caption: hello...";
       HttpPost "https://graph.facebook.com/v17.0/1789/media"
         [ ("image_url", JStr "https://example.org/a.jpg"); ("caption", JStr "hello");
           ("access_token", JStr "token") ];
       HttpPost "https://graph.facebook.com/v17.0/1789/media_publish"
         [ ("creation_id", JNull); ("access_token", JStr "token") ];
       Log "error" "Failed to publish media: " ],
     Return "Error publishing media: Invalid parameter")
  /\ Instagram.publish_requests "1789"
       (Instagram.post_photo no_repr (instagram_id (JStr ""))
          "https://example.org/a.jpg" "hello" []).1
     = [[ ("creation_id", JStr ""); ("access_token", JStr "token") ]]
  /\ Instagram.post_photo no_repr instagram_create_down
       "https://example.org/a.jpg" "hello" []
     = ([ Log "info" "Posting photo with caption: hello...";
          HttpPost "https://graph.facebook.com/v17.0/1789/media"
            [ ("image_url", JStr "https://example.org/a.jpg"); ("caption", JStr "hello");
              ("access_token", JStr "token") ];
          Log "error" "Failed to post photo: timed out" ],
        Return "Failed to post photo: timed out")
  /\ Instagram.post_photo no_repr instagram_publish_down
       "https://example.org/a.jpg" "hello" []
     = ([ Log "info" "Posting photo with caption: hello...";
          HttpPost "https://graph.facebook.com/v17.0/1789/media"
            [ ("image_url", JStr "https://example.org/a.jpg"); ("caption", JStr "hello");
              ("access_token", JStr "token") ];
          HttpPost "https://graph.facebook.com/v17.0/1789/media_publish"
            [ ("creation_id", JStr "4242"); ("access_token", JStr "token") ];
          Log "error" "Failed to post photo: timed out" ],
        Return "Failed to post photo: timed out")
  /\ (Instagram.post_photo no_repr instagram_create_down
        "https://example.org/a.jpg" "hello" []).2
     = (Instagram.post_photo no_repr instagram_publish_down
          "https://example.org/a.jpg" "hello" []).2.
Proof. repeat split; vm_compute; reflexivity. Qed.

(** ** Exceptions at the handler boundary *)












(** ** PDF: page ranges and temporary files *)

Lemma add_pages_slice (pages writer : list Pdf.page) (n k : nat) :
  (k + n <= length pages)%nat ->
  Pdf.add_pages writer pages (seqZ (Z.of_nat k) (Z.of_nat n))
  = Return (writer ++ take n (drop k pages))%list.
Proof.
  revert writer k. induction n as [| n IH]; intros writer k Hk.
  - cbn. rewrite app_nil_r. reflexivity.
  - rewrite seqZ_cons by lia.
    replace (Z.succ (Z.of_nat k)) with (Z.of_nat (S k)) by lia.
    replace (Z.pred (Z.of_nat (S n))) with (Z.of_nat n) by lia.
    destruct (lookup_lt_is_Some_2 pages k ltac:(lia)) as [x Hx].
    assert (Hi : list_item pages (Z.of_nat k) = Return x).
    { unfold list_item. cbv zeta.
      destruct (Z.ltb_spec (Z.of_nat k) 0) as [? | _]; [lia |].
      destruct (Z.ltb_spec (Z.of_nat k) 0) as [? | _]; [lia |].
      rewrite Nat2Z.id, Hx. reflexivity. }
    change (Pdf.add_pages writer pages (Z.of_nat k :: seqZ (Z.of_nat (S k)) (Z.of_nat n)))
      with (let* p := list_item pages (Z.of_nat k) in
            Pdf.add_pages (writer ++ [p]) pages (seqZ (Z.of_nat (S k)) (Z.of_nat n))).
    rewrite Hi. cbn [bind].
    rewrite IH by lia. rewrite (drop_S _ _ _ Hx). cbn [take].
    rewrite <- app_assoc. reflexivity.
Qed.

Lemma add_pages_in_range (pages : list Pdf.page) (start_page end_page : Z) :
  1 <= start_page <= end_page ->
  end_page <= Z.of_nat (length pages) ->
  Pdf.add_pages [] pages (range (start_page - 1) end_page)
  = Return (page_slice pages start_page end_page)
  /\ Z.of_nat (length (page_slice pages start_page end_page))
     = end_page - start_page + 1.
Proof.
  intros Hs He. unfold range, page_slice. split.
  - replace (end_page - (start_page - 1)) with
      (Z.of_nat (Z.to_nat (end_page - start_page + 1))) by lia.
    replace (start_page - 1) with (Z.of_nat (Z.to_nat (start_page - 1))) at 1 by lia.
    rewrite add_pages_slice by lia. reflexivity.
  - rewrite length_take, length_drop. lia.
Qed.

Ltac disk_simpl := cbn [app]; unfold Pdf.disk; cbn [foldl].

(** Settle the test [path ∈ disk t] that the goal waits for. *)
Ltac on_disk :=
  match goal with
  | |- context [ bool_decide (?p ∈ ?d) ] =>
      rewrite (bool_decide_eq_true_2 (p ∈ d)) by (disk_simpl; set_solver)
  end.

Ltac not_on_disk :=
  match goal with
  | |- context [ bool_decide (?p ∈ ?d) ] =>
      rewrite (bool_decide_eq_false_2 (p ∈ d)) by (disk_simpl; set_solver)
  end.

(** C5: a range outside the document is refused with the text "Invalid
    page range: <start>-<end>. PDF has <total> pages.", nothing is handed to
    the writer and nothing stays on disk; a range inside selects
    [end_page - start_page + 1] pages, those and no others are written, and
    the answer says so. *)
Theorem split_pdf_pages_checks_range (b64encode : string -> string) (w : Pdf.world)
    (pdf_url temp_path : string) (pages : list Pdf.page) (start_page end_page : Z) :
  pdf_arrives w pdf_url temp_path pages ->
  let total_pages := Z.of_nat (length pages) in
  let t0 := [ Log "info" ("Splitting PDF pages " +:+ str_of_int start_page +:+ "-"
                          +:+ str_of_int end_page +:+ " from: " +:+ pdf_url);
              HttpGet pdf_url; TempFile temp_path ] in
  (start_page < 1 \/ end_page > total_pages \/ start_page > end_page ->
   Pdf.split_pdf_pages b64encode w pdf_url start_page end_page []
   = ((t0 ++ [Unlink temp_path])%list,
      Return ("Invalid page range: " +:+ str_of_int start_page +:+ "-"
              +:+ str_of_int end_page +:+ ". PDF has " +:+ str_of_int total_pages
              +:+ " pages."))
   /\ Pdf.written_pages (t0 ++ [Unlink temp_path]) = []
   /\ Pdf.disk (t0 ++ [Unlink temp_path]) = ∅)
  /\ (1 <= start_page <= end_page /\ end_page <= total_pages ->
      Pdf.add_pages [] pages (range (start_page - 1) end_page)
      = Return (page_slice pages start_page end_page)
      /\ Z.of_nat (length (page_slice pages start_page end_page))
         = end_page - start_page + 1
      /\ (forall (t : list event) (r : outcome string),
            Pdf.split_pdf_pages b64encode w pdf_url start_page end_page [] = (t, r) ->
            forall ps, ps ∈ Pdf.written_pages t ->
                       ps = page_slice pages start_page end_page)
      /\ (forall output_path data : string,
            (forall t, Pdf.NamedTemporaryFile w "_split.pdf" t = Return output_path) ->
            output_path <> temp_path ->
            Pdf.writer_write w output_path (page_slice pages start_page end_page)
            = Return tt ->
            Pdf.read_file w output_path = Return data ->
            Pdf.split_pdf_pages b64encode w pdf_url start_page end_page []
            = ((t0 ++ [ TempFile output_path;
                        PdfWrite output_path (page_slice pages start_page end_page);
                        Unlink output_path;
                        Log "info" ("Successfully split PDF: extracted "
                                    +:+ str_of_int (end_page - start_page + 1)
                                    +:+ " pages");
                        Unlink temp_path ])%list,
               Return ("PDF Split Results:" +:+ nl
                       +:+ "📄 Source: " +:+ pdf_url +:+ nl
                       +:+ "📊 Original Pages: " +:+ str_of_int total_pages +:+ nl
                       +:+ "✂️  Extracted Pages: " +:+ str_of_int start_page +:+ "-"
                       +:+ str_of_int end_page +:+ " ("
                       +:+ str_of_int (end_page - start_page + 1) +:+ " pages)" +:+ nl
                       +:+ "📁 Output Size: "
                       +:+ str_of_int (Z.of_nat (String.length data))
                       +:+ " bytes" +:+ nl +:+ nl
                       +:+ "📋 Base64 Data (first 100 chars):" +:+ nl
                       +:+ prefix 100 (b64encode data) +:+ "..." +:+ nl +:+ nl
                       +:+ "💡 Use this base64 data to save the split PDF file.")))).
Proof.
  intros (Hinfo & Hlibs & (resp & Hget & Hstatus & Hwrite) & Htmp & Hread).
  intros total_pages t0.
  unfold Pdf.split_pdf_pages, Pdf.split_pdf_pages_try, Pdf.info, Pdf.with_temp_file.
  cbv [Eff.try_catch Eff.try_finally Eff.bind Eff.ret Eff.raise Eff.lift Eff.perform].
  rewrite Hinfo; cbv beta iota. rewrite Hlibs; cbv beta iota.
  rewrite Hget; cbv beta iota. rewrite Hstatus; cbn [Z.eqb Pos.eqb negb app].
  rewrite Htmp. not_on_disk. rewrite Hwrite; cbv beta iota.
  rewrite Hread; cbv beta iota. fold total_pages.
  split.
  - intros Hbad.
    assert (Hc : (start_page <? 1) || (end_page >? total_pages)
                 || (start_page >? end_page) = true) by lia.
    rewrite Hc. cbv beta iota. unfold Pdf.unlink. on_disk.
    split; [reflexivity |]. split; [reflexivity |].
    subst t0. disk_simpl. set_solver.
  - intros (Hs & He).
    assert (Hc : (start_page <? 1) || (end_page >? total_pages)
                 || (start_page >? end_page) = false) by lia.
    rewrite Hc. cbv beta iota.
    destruct (add_pages_in_range pages start_page end_page Hs He) as [Hadd Hlen].
    rewrite Hadd. split; [reflexivity |]. split; [exact Hlen |]. split.
    + intros t r. unfold Pdf.unlink, Pdf.written_pages, Pdf.error.
      run_eff; intros [= <- <-]; cbn [app omap list_omap]; intros ps Hps;
        repeat (apply elem_of_cons in Hps as [-> | Hps]);
        try (apply elem_of_nil in Hps; destruct Hps); reflexivity.
    + intros output_path data Hout Hne Hww Hrf.
      rewrite Hout. not_on_disk. rewrite Hww, Hrf.
      unfold Pdf.unlink. on_disk. rewrite Hinfo. on_disk.
      reflexivity.
Qed.

Lemma split_pdf_pages_checks_range_witness :
  Pdf.split_pdf_pages no_b64 pdf_world_ok "https://example.org/doc.pdf" 5 10 []
  = ([ Log "info" "Splitting PDF pages 5-10 from: https://example.org/doc.pdf";
       HttpGet "https://example.org/doc.pdf"; TempFile "/tmp/tmpk3x.pdf";
       Unlink "/tmp/tmpk3x.pdf" ],
     Return "Invalid page range: 5-10. PDF has 3 pages.")
  /\ Pdf.split_pdf_pages no_b64 pdf_world_ok "https://example.org/doc.pdf" 0 2 []
     = ([ Log "info" "Splitting PDF pages 0-2 from: https://example.org/doc.pdf";
          HttpGet "https://example.org/doc.pdf"; TempFile "/tmp/tmpk3x.pdf";
          Unlink "/tmp/tmpk3x.pdf" ],
        Return "Invalid page range: 0-2. PDF has 3 pages.")
  /\ Pdf.add_pages [] ["page 1"; "page 2"; "page 3"] (range (2 - 1) 3)
     = Return ["page 2"; "page 3"].
Proof.
  assert (Harrives : pdf_arrives pdf_world_ok "https://example.org/doc.pdf"
                       "/tmp/tmpk3x.pdf" ["page 1"; "page 2"; "page 3"]).
  { repeat split. exists (mk_response 200 "%PDF-1.4" (Return JNull)).
    repeat split. }
  split; [| split].
  - destruct (split_pdf_pages_checks_range no_b64 pdf_world_ok
                "https://example.org/doc.pdf" "/tmp/tmpk3x.pdf"
                ["page 1"; "page 2"; "page 3"] 5 10 Harrives) as [Hbad _].
    destruct Hbad as [Hrun _]; [right; left; reflexivity |].
    exact Hrun.
  - destruct (split_pdf_pages_checks_range no_b64 pdf_world_ok
                "https://example.org/doc.pdf" "/tmp/tmpk3x.pdf"
                ["page 1"; "page 2"; "page 3"] 0 2 Harrives) as [Hbad _].
    destruct Hbad as [Hrun _]; [left; reflexivity |].
    exact Hrun.
  - destruct (split_pdf_pages_checks_range no_b64 pdf_world_ok
                "https://example.org/doc.pdf" "/tmp/tmpk3x.pdf"
                ["page 1"; "page 2"; "page 3"] 2 3 Harrives) as [_ Hgood].
    destruct Hgood as [Hadd _]; [vm_compute; repeat split; discriminate |].
    exact Hadd.
Defined.

(** C6 at two failing inputs.  The disk is full when the split document
    is written: the handler answers with its failure text, the input file
    is removed by the [finally] clause, and the output file, whose removal
    is not under a [finally], is still there.  The disk is full when the
    download is saved: the [try] with the [finally] clause is not reached,
    and the input file is still there. *)
Theorem split_pdf_pages_leaves_output_file :
  Pdf.split_pdf_pages no_b64 pdf_world_disk_full "https://example.org/doc.pdf" 1 2 []
  = ([ Log "info" "Splitting PDF pages 1-2 from: https://example.org/doc.pdf";
       HttpGet "https://example.org/doc.pdf"; TempFile "/tmp/tmpk3x.pdf";
       TempFile "/tmp/tmpk3x_split.pdf";
       PdfWrite "/tmp/tmpk3x_split.pdf" ["page 1"; "page 2"];
       Unlink "/tmp/tmpk3x.pdf";
       Log "error" "Failed to split PDF: [Errno 28] No space left on device" ],
     Return "Failed to split PDF: [Errno 28] No space left on device")
  /\ Pdf.disk
       (Pdf.split_pdf_pages no_b64 pdf_world_disk_full
          "https://example.org/doc.pdf" 1 2 []).1
     = {[ "/tmp/tmpk3x_split.pdf" ]}
  /\ Pdf.split_pdf_pages no_b64 pdf_world_disk_full_early
       "https://example.org/doc.pdf" 1 2 []
     = ([ Log "info" "Splitting PDF pages 1-2 from: https://example.org/doc.pdf";
          HttpGet "https://example.org/doc.pdf"; TempFile "/tmp/tmpk3x.pdf";
          Log "error" "Failed to split PDF: [Errno 28] No space left on device" ],
        Return "Failed to split PDF: [Errno 28] No space left on device")
  /\ Pdf.disk
       (Pdf.split_pdf_pages no_b64 pdf_world_disk_full_early
          "https://example.org/doc.pdf" 1 2 []).1
     = {[ "/tmp/tmpk3x.pdf" ]}.
Proof.
  assert (Hrun :
    Pdf.split_pdf_pages no_b64 pdf_world_disk_full "https://example.org/doc.pdf" 1 2 []
    = ([ Log "info" "Splitting PDF pages 1-2 from: https://example.org/doc.pdf";
         HttpGet "https://example.org/doc.pdf"; TempFile "/tmp/tmpk3x.pdf";
         TempFile "/tmp/tmpk3x_split.pdf";
         PdfWrite "/tmp/tmpk3x_split.pdf" ["page 1"; "page 2"];
         Unlink "/tmp/tmpk3x.pdf";
         Log "error" "Failed to split PDF: [Errno 28] No space left on device" ],
       Return "Failed to split PDF: [Errno 28] No space left on device"))
    by (vm_compute; reflexivity).
  assert (Hearly :
    Pdf.split_pdf_pages no_b64 pdf_world_disk_full_early
      "https://example.org/doc.pdf" 1 2 []
    = ([ Log "info" "Splitting PDF pages 1-2 from: https://example.org/doc.pdf";
         HttpGet "https://example.org/doc.pdf"; TempFile "/tmp/tmpk3x.pdf";
         Log "error" "Failed to split PDF: [Errno 28] No space left on device" ],
       Return "Failed to split PDF: [Errno 28] No space left on device"))
    by (vm_compute; reflexivity).
  split; [exact Hrun |]. split.
  - rewrite Hrun. cbn [fst]. unfold Pdf.disk. cbn [foldl].
    apply set_eq. intros x. set_solver.
  - split; [exact Hearly |].
    rewrite Hearly. cbn [fst]. unfold Pdf.disk. cbn [foldl].
    apply set_eq. intros x. set_solver.
Qed.

(* ===================================================================== *)
(** * Beyond the claims: further properties of the handlers *)
(* ===================================================================== *)

(** Split on every answer of the world that the goal still depends on. *)
Ltac split_on_answers :=
  repeat match goal with
         | |- context [ match ?x with _ => _ end ] =>
             lazymatch x with
             | context [ match _ with _ => _ end ] => fail
             | _ => destruct x eqn:?
             end
         end.


(* ===================================================================== *)
(** * Further properties of the calendar tools *)
(* ===================================================================== *)

Lemma year_mono (a b : date) :
  valid_date a -> valid_date b -> toordinal a <= toordinal b -> year a <= year b.
Proof.
  intros Ha Hb Hle. destruct (Z.le_gt_cases (year a) (year b)) as [H | H]; [exact H |].
  assert (L : date_ltb b a = true).
  { unfold date_ltb. destruct (Z.ltb_spec (year b) (year a)); [reflexivity | lia]. }
  pose proof (toordinal_lt b a Hb Ha L). lia.
Qed.

Lemma toordinal_first_day (y : Z) :
  toordinal (mk_date y 1 1) = _days_before_year y + 1.
Proof. unfold toordinal, _ymd2ord, _days_before_month. cbn. lia. Qed.

(** The day before or after a date lies in the same year or in the next
    one. *)
Lemma year_of_neighbour (d : date) (n : Z) :
  valid_date d -> -1 <= n -> 1 <= toordinal d + n <= _MAXORDINAL ->
  year d - 1 <= year (_ord2ymd (toordinal d + n)).
Proof.
  intros Hv Hn Hr. destruct (ord2ymd_spec _ Hr) as [Hv' E].
  destruct (Z.le_gt_cases (year d) 1) as [H1 | H1].
  { destruct Hv' as [Hy _]. lia. }
  assert (Hf : valid_date (mk_date (year d - 1) 1 1)).
  { destruct Hv as [Hy _]. repeat split; cbn; lia. }
  apply (year_mono (mk_date (year d - 1) 1 1) _ Hf Hv').
  rewrite E, toordinal_first_day.
  pose proof (day_of_year_bounds d Hv) as B.
  pose proof (days_before_year_mono (year d - 1) (year d) ltac:(lia)) as M.
  unfold toordinal, _ymd2ord. lia.
Qed.

Lemma first_date_valid : valid_date (mk_date 1 1 1).
Proof. repeat split; vm_compute; discriminate. Qed.

Lemma last_date_valid : valid_date (mk_date 9999 12 31).
Proof. repeat split; vm_compute; discriminate. Qed.

Lemma toordinal_is_first (d : date) :
  valid_date d -> toordinal d = 1 -> d = mk_date 1 1 1.
Proof.
  intros Hv H. apply toordinal_inj; [exact Hv | exact first_date_valid |].
  rewrite H. reflexivity.
Qed.

Lemma toordinal_is_last (d : date) :
  valid_date d -> toordinal d = _MAXORDINAL -> d = mk_date 9999 12 31.
Proof.
  intros Hv H. apply toordinal_inj; [exact Hv | exact last_date_valid |].
  rewrite H. reflexivity.
Qed.

Lemma str_of_int_1 : str_of_int 1 = "1".
Proof. reflexivity. Qed.

(** What the day tools print for a day [n] days from [now], read back. *)
Lemma neighbour_day (pads_year : bool) (now : datetime) (n : Z) :
  valid_date (dt_date now) ->
  1 <= toordinal (dt_date now) + n <= _MAXORDINAL ->
  pads_year = true \/ 1000 <= year (_ord2ymd (toordinal (dt_date now) + n)) ->
  exists dd : date,
    add_days now n = Return (mk_datetime dd (dt_secs now))
    /\ valid_date dd /\ toordinal dd = toordinal (dt_date now) + n
    /\ strptime_Ymd (strftime_Ymd pads_year (mk_datetime dd (dt_secs now)))
       = Return (mk_datetime dd 0).
Proof.
  intros Hv Hr Hpad.
  destruct (add_days_in_range now n Hr) as (dd & Edd & Ha).
  destruct (ord2ymd_spec _ Hr) as [Hv' E]. rewrite Edd in Hpad, Hv', E.
  exists dd. split; [exact Ha |]. split; [exact Hv' |]. split; [exact E |].
  exact (strptime_strftime pads_year dd Hv' Hpad).
Qed.

Lemma call_tool_get_yesterday (pads_year : bool) (now : datetime)
    (arguments : gmap string value) :
  Calendar.call_tool pads_year now "get_yesterday" arguments
  = let* yesterday := add_days now (-1) in
    Return [text_content (strftime_Ymd pads_year yesterday)].
Proof. reflexivity. Qed.

Lemma call_tool_get_tomorrow (pads_year : bool) (now : datetime)
    (arguments : gmap string value) :
  Calendar.call_tool pads_year now "get_tomorrow" arguments
  = let* tomorrow := add_days now 1 in
    Return [text_content (strftime_Ymd pads_year tomorrow)].
Proof. reflexivity. Qed.

(** X1: on every day but the first and the last that [datetime] holds,
    [get_yesterday], [get_today] and [get_tomorrow] (of either server) name
    three consecutive days: [get_days_between_dates] counts one day from
    each to the next.  The years must be printed with four digits. *)
Theorem yesterday_today_tomorrow (pads_year : bool) (now : datetime)
    (arguments : gmap string value) :
  valid_date (dt_date now) ->
  dt_date now <> mk_date 1 1 1 ->
  dt_date now <> mk_date 9999 12 31 ->
  pads_year = true \/ 1000 < year (dt_date now) ->
  exists yesterday today tomorrow : string,
    Calendar.call_tool pads_year now "get_yesterday" arguments
    = Return [text_content yesterday]
    /\ Calendar.call_tool pads_year now "get_today" arguments
       = Return [text_content today]
    /\ Calendar.call_tool pads_year now "get_tomorrow" arguments
       = Return [text_content tomorrow]
    /\ Calendar.get_yesterday pads_year now = Return yesterday
    /\ Calendar.get_today pads_year now = Return today
    /\ Calendar.get_tomorrow pads_year now = Return tomorrow
    /\ Calendar.get_days_between_dates yesterday today
       = Return ("Days between " +:+ yesterday +:+ " and " +:+ today +:+ ": 1")
    /\ Calendar.get_days_between_dates today tomorrow
       = Return ("Days between " +:+ today +:+ " and " +:+ tomorrow +:+ ": 1").
Proof.
  intros Hv Hfirst Hlast Hpad.
  pose proof (toordinal_bounds _ Hv) as Hb.
  assert (Ho : 1 < toordinal (dt_date now) < _MAXORDINAL).
  { split.
    - destruct (Z.eq_dec (toordinal (dt_date now)) 1) as [E | E]; [| lia].
      exfalso. exact (Hfirst (toordinal_is_first _ Hv E)).
    - destruct (Z.eq_dec (toordinal (dt_date now)) _MAXORDINAL) as [E | E]; [| lia].
      exfalso. exact (Hlast (toordinal_is_last _ Hv E)). }
  assert (Hry : 1 <= toordinal (dt_date now) + -1 <= _MAXORDINAL)
    by (unfold _MAXORDINAL in *; lia).
  assert (Hr0 : 1 <= toordinal (dt_date now) + 0 <= _MAXORDINAL)
    by (unfold _MAXORDINAL in *; lia).
  assert (Hrt : 1 <= toordinal (dt_date now) + 1 <= _MAXORDINAL)
    by (unfold _MAXORDINAL in *; lia).
  assert (Hp : forall n, -1 <= n -> 1 <= toordinal (dt_date now) + n <= _MAXORDINAL ->
                 pads_year = true \/ 1000 <= year (_ord2ymd (toordinal (dt_date now) + n))).
  { intros n Hn Hr. destruct Hpad as [-> | Hy]; [left; reflexivity | right].
    pose proof (year_of_neighbour _ n Hv Hn Hr). lia. }
  destruct (neighbour_day pads_year now (-1) Hv Hry (Hp (-1) ltac:(lia) Hry))
    as (dy & Ay & Vy & Oy & Py).
  destruct (neighbour_day pads_year now 0 Hv Hr0 (Hp 0 ltac:(lia) Hr0))
    as (d0 & A0 & V0 & O0 & P0).
  destruct (neighbour_day pads_year now 1 Hv Hrt (Hp 1 ltac:(lia) Hrt))
    as (dt & At & Vt & Ot & Pt).
  assert (E0 : d0 = dt_date now) by (apply toordinal_inj; [assumption .. | lia]).
  subst d0.
  exists (strftime_Ymd pads_year (mk_datetime dy (dt_secs now))),
         (strftime_Ymd pads_year now),
         (strftime_Ymd pads_year (mk_datetime dt (dt_secs now))).
  assert (Fy : Calendar.get_yesterday pads_year now
               = Return (strftime_Ymd pads_year (mk_datetime dy (dt_secs now)))).
  { unfold Calendar.get_yesterday. rewrite timedelta_days_small by (cbn; lia).
    rewrite !bind_Return. change (- (1)) with (-1). rewrite Ay. reflexivity. }
  assert (Ft : Calendar.get_tomorrow pads_year now
               = Return (strftime_Ymd pads_year (mk_datetime dt (dt_secs now)))).
  { unfold Calendar.get_tomorrow. rewrite timedelta_days_small by (cbn; lia).
    rewrite !bind_Return, At. reflexivity. }
  assert (Pn : strptime_Ymd (strftime_Ymd pads_year now)
               = Return (mk_datetime (dt_date now) 0)).
  { destruct now as [dn sn]. exact P0. }
  split.
  { rewrite call_tool_get_yesterday, Ay. reflexivity. }
  split; [reflexivity |]. split.
  { rewrite call_tool_get_tomorrow, At. reflexivity. }
  split; [exact Fy |]. split; [reflexivity |]. split; [exact Ft |].
  unfold Calendar.get_days_between_dates.
  rewrite Py, Pn, Pt, !bind_Return.
  rewrite !sub_days_midnight by reflexivity. cbn [dt_date].
  replace (toordinal (dt_date now) - toordinal dy) with 1 by lia.
  replace (toordinal dt - toordinal (dt_date now)) with 1 by lia.
  split; reflexivity.
Qed.

Lemma yesterday_today_tomorrow_witness :
  exists yesterday today tomorrow : string,
    Calendar.call_tool false (mk_datetime (mk_date 2024 3 1) 43200) "get_yesterday" ∅
    = Return [text_content yesterday]
    /\ Calendar.call_tool false (mk_datetime (mk_date 2024 3 1) 43200) "get_today" ∅
       = Return [text_content today]
    /\ Calendar.call_tool false (mk_datetime (mk_date 2024 3 1) 43200) "get_tomorrow" ∅
       = Return [text_content tomorrow]
    /\ Calendar.get_yesterday false (mk_datetime (mk_date 2024 3 1) 43200)
       = Return yesterday
    /\ Calendar.get_today false (mk_datetime (mk_date 2024 3 1) 43200) = Return today
    /\ Calendar.get_tomorrow false (mk_datetime (mk_date 2024 3 1) 43200)
       = Return tomorrow
    /\ Calendar.get_days_between_dates yesterday today
       = Return ("Days between " +:+ yesterday +:+ " and " +:+ today +:+ ": 1")
    /\ Calendar.get_days_between_dates today tomorrow
       = Return ("Days between " +:+ today +:+ " and " +:+ tomorrow +:+ ": 1").
Proof.
  apply (yesterday_today_tomorrow false (mk_datetime (mk_date 2024 3 1) 43200) ∅).
  - repeat split; vm_compute; discriminate.
  - discriminate.
  - discriminate.
  - right. vm_compute. reflexivity.
Defined.

(** X2: [datetime] ends on 9999-12-31 and starts on 0001-01-01.  On the
    last day [get_tomorrow] raises [OverflowError], which no handler catches,
    at every time of the day; on every other day it returns a date.
    [get_yesterday] does the same at the first day. *)
Theorem tomorrow_and_yesterday_at_the_ends (pads_year : bool) (now : datetime)
    (arguments : gmap string value) :
  valid_date (dt_date now) ->
  (dt_date now = mk_date 9999 12 31 ->
   Calendar.call_tool pads_year now "get_tomorrow" arguments
   = Raise (mk_exn OverflowError "date value out of range")
   /\ Calendar.get_tomorrow pads_year now
      = Raise (mk_exn OverflowError "date value out of range"))
  /\ (dt_date now <> mk_date 9999 12 31 ->
      exists tomorrow : string,
        Calendar.call_tool pads_year now "get_tomorrow" arguments
        = Return [text_content tomorrow]
        /\ Calendar.get_tomorrow pads_year now = Return tomorrow)
  /\ (dt_date now = mk_date 1 1 1 ->
      Calendar.call_tool pads_year now "get_yesterday" arguments
      = Raise (mk_exn OverflowError "date value out of range")
      /\ Calendar.get_yesterday pads_year now
         = Raise (mk_exn OverflowError "date value out of range"))
  /\ (dt_date now <> mk_date 1 1 1 ->
      exists yesterday : string,
        Calendar.call_tool pads_year now "get_yesterday" arguments
        = Return [text_content yesterday]
        /\ Calendar.get_yesterday pads_year now = Return yesterday).
Proof.
  intros Hv. pose proof (toordinal_bounds _ Hv) as Hb.
  rewrite call_tool_get_tomorrow, call_tool_get_yesterday.
  unfold Calendar.get_tomorrow, Calendar.get_yesterday.
  rewrite timedelta_days_small by (cbn; lia). rewrite !bind_Return.
  change (- (1)) with (-1). repeat split.
  - unfold add_days. rewrite H. reflexivity.
  - unfold add_days. rewrite H. reflexivity.
  - intros E.
    assert (Hr : 1 <= toordinal (dt_date now) + 1 <= _MAXORDINAL).
    { destruct (Z.eq_dec (toordinal (dt_date now)) _MAXORDINAL) as [E' | E'].
      - exfalso. exact (E (toordinal_is_last _ Hv E')).
      - unfold _MAXORDINAL in *. lia. }
    destruct (add_days_in_range now 1 Hr) as (dd & _ & ->).
    eexists. split; reflexivity.
  - unfold add_days. rewrite H. reflexivity.
  - unfold add_days. rewrite H. reflexivity.
  - intros E.
    assert (Hr : 1 <= toordinal (dt_date now) + -1 <= _MAXORDINAL).
    { destruct (Z.eq_dec (toordinal (dt_date now)) 1) as [E' | E'].
      - exfalso. exact (E (toordinal_is_first _ Hv E')).
      - unfold _MAXORDINAL in *. lia. }
    destruct (add_days_in_range now (-1) Hr) as (dd & _ & ->).
    eexists. split; reflexivity.
Qed.

Lemma tomorrow_and_yesterday_at_the_ends_witness :
  Calendar.call_tool true (mk_datetime (mk_date 9999 12 31) 86399) "get_tomorrow" ∅
  = Raise (mk_exn OverflowError "date value out of range")
  /\ Calendar.get_tomorrow true (mk_datetime (mk_date 9999 12 31) 86399)
     = Raise (mk_exn OverflowError "date value out of range").
Proof.
  apply (tomorrow_and_yesterday_at_the_ends true
           (mk_datetime (mk_date 9999 12 31) 86399) ∅).
  - repeat split; vm_compute; discriminate.
  - reflexivity.
Defined.

(** X3: adding days composes.  Adding [n] days and then [m] days to the
    result gives what adding [n + m] days gives, as long as both results are
    dates and the intermediate one is printed with a four-digit year. *)
Theorem add_days_to_date_composes (pads_year : bool) (d : string) (dt : datetime)
    (n m : Z) :
  strptime_Ymd d = Return dt ->
  1 <= toordinal (dt_date dt) + n <= _MAXORDINAL ->
  pads_year = true \/ 1000 <= year (_ord2ymd (toordinal (dt_date dt) + n)) ->
  1 <= toordinal (dt_date dt) + n + m <= _MAXORDINAL ->
  exists d' d'' : string,
    Calendar.add_days_to_date pads_year d n = Return d'
    /\ Calendar.add_days_to_date pads_year d' m = Return d''
    /\ Calendar.add_days_to_date pads_year d (n + m) = Return d''.
Proof.
  intros Hd Hr Hpad Hr2. destruct (strptime_Ymd_inv d dt Hd) as [Hs Hv].
  pose proof (toordinal_bounds _ Hv) as Hb.
  destruct (neighbour_day pads_year dt n Hv Hr Hpad) as (dd & Ha & Vd & Od & Pd).
  rewrite Hs in Ha, Pd.
  assert (Hr2' : 1 <= toordinal (dt_date dt) + (n + m) <= _MAXORDINAL) by lia.
  destruct (add_days_in_range dt (n + m) Hr2') as (d2 & E2 & Ha2).
  assert (Hr3 : 1 <= toordinal (dt_date (mk_datetime dd 0)) + m <= _MAXORDINAL)
    by (cbn [dt_date]; lia).
  destruct (add_days_in_range (mk_datetime dd 0) m Hr3) as (d3 & E3 & Ha3).
  cbn [dt_date dt_secs] in E3, Ha3.
  assert (E : d3 = d2).
  { rewrite <- E3, <- E2. f_equal. lia. }
  rewrite E in Ha3. clear E E3 E2. rewrite Hs in Ha2.
  exists (strftime_Ymd pads_year (mk_datetime dd 0)),
         (strftime_Ymd pads_year (mk_datetime d2 0)).
  unfold Calendar.add_days_to_date.
  rewrite Hd, Pd, !bind_Return.
  rewrite !timedelta_days_small by (unfold _MAXORDINAL in *; lia).
  rewrite !bind_Return, Ha, Ha2, Ha3.
  repeat split; reflexivity.
Qed.

Lemma add_days_to_date_composes_witness :
  exists d' d'' : string,
    Calendar.add_days_to_date false "2024-02-28" 2 = Return d'
    /\ Calendar.add_days_to_date false d' (-30) = Return d''
    /\ Calendar.add_days_to_date false "2024-02-28" (2 + -30) = Return d''.
Proof.
  apply (add_days_to_date_composes false "2024-02-28"
           (mk_datetime (mk_date 2024 2 28) 0) 2 (-30)).
  - vm_compute. reflexivity.
  - vm_compute. split; discriminate.
  - right. vm_compute. discriminate.
  - vm_compute. split; discriminate.
Defined.

Lemma strftime_A_eq (a b : datetime) :
  strftime_A a = strftime_A b <-> weekday (dt_date a) = weekday (dt_date b).
Proof.
  unfold strftime_A.
  assert (Ha : 0 <= weekday (dt_date a) < 7)
    by (unfold weekday; apply Z.mod_pos_bound; lia).
  assert (Hb : 0 <= weekday (dt_date b) < 7)
    by (unfold weekday; apply Z.mod_pos_bound; lia).
  split; [| intros ->; reflexivity].
  assert (Ca : weekday (dt_date a) = 0 \/ weekday (dt_date a) = 1
               \/ weekday (dt_date a) = 2 \/ weekday (dt_date a) = 3
               \/ weekday (dt_date a) = 4 \/ weekday (dt_date a) = 5
               \/ weekday (dt_date a) = 6) by lia.
  assert (Cb : weekday (dt_date b) = 0 \/ weekday (dt_date b) = 1
               \/ weekday (dt_date b) = 2 \/ weekday (dt_date b) = 3
               \/ weekday (dt_date b) = 4 \/ weekday (dt_date b) = 5
               \/ weekday (dt_date b) = 6) by lia.
  clear Ha Hb.
  repeat (destruct Ca as [-> | Ca]); try rewrite Ca;
    repeat (destruct Cb as [-> | Cb]); try rewrite Cb;
    first [reflexivity | discriminate].
Qed.

Lemma get_date_info_reads (d : string) (dt : datetime) :
  strptime_Ymd d = Return dt ->
  Calendar.get_date_info d = Return (date_info_text d dt).
Proof.
  intros H. unfold Calendar.get_date_info. rewrite H. reflexivity.
Qed.

(** X4: the day of the week that [get_date_info] prints repeats every seven
    days and not before: for a date and the date [add_days_to_date] gives
    [n] days from it, the names are the same exactly when 7 divides [n]. *)
Theorem day_of_week_repeats_every_seven_days (pads_year : bool) (d : string)
    (dt : datetime) (n : Z) :
  strptime_Ymd d = Return dt ->
  1 <= toordinal (dt_date dt) + n <= _MAXORDINAL ->
  pads_year = true \/ 1000 <= year (_ord2ymd (toordinal (dt_date dt) + n)) ->
  exists (d' : string) (dt' : datetime),
    Calendar.add_days_to_date pads_year d n = Return d'
    /\ Calendar.get_date_info d = Return (date_info_text d dt)
    /\ Calendar.get_date_info d' = Return (date_info_text d' dt')
    /\ (strftime_A dt' = strftime_A dt <-> n mod 7 = 0).
Proof.
  intros Hd Hr Hpad. destruct (strptime_Ymd_inv d dt Hd) as [Hs Hv].
  destruct (neighbour_day pads_year dt n Hv Hr Hpad) as (dd & Ha & Vd & Od & Pd).
  rewrite Hs in Ha, Pd.
  exists (strftime_Ymd pads_year (mk_datetime dd 0)), (mk_datetime dd 0).
  split.
  { unfold Calendar.add_days_to_date.
    pose proof (toordinal_bounds _ Hv) as Hb.
    rewrite Hd, !bind_Return, timedelta_days_small by (unfold _MAXORDINAL in *; lia).
    rewrite bind_Return, Ha. reflexivity. }
  split; [exact (get_date_info_reads d dt Hd) |].
  split; [exact (get_date_info_reads _ _ Pd) |].
  rewrite strftime_A_eq. unfold weekday. cbn [dt_date]. rewrite Od.
  split; intros H; Z.to_euclidean_division_equations; lia.
Qed.

Lemma day_of_week_repeats_every_seven_days_witness :
  exists (d' : string) (dt' : datetime),
    Calendar.add_days_to_date false "2024-02-28" 14 = Return d'
    /\ Calendar.get_date_info "2024-02-28"
       = Return (date_info_text "2024-02-28" (mk_datetime (mk_date 2024 2 28) 0))
    /\ Calendar.get_date_info d' = Return (date_info_text d' dt')
    /\ (strftime_A dt' = strftime_A (mk_datetime (mk_date 2024 2 28) 0)
        <-> 14 mod 7 = 0).
Proof.
  apply (day_of_week_repeats_every_seven_days false "2024-02-28"
           (mk_datetime (mk_date 2024 2 28) 0) 14).
  - vm_compute. reflexivity.
  - vm_compute. split; discriminate.
  - right. vm_compute. discriminate.
Defined.

Lemma reads_time_all :
  forallb (fun h => forallb (reads_time h) (seqZ 0 100)) (seqZ 0 100) = true.
Proof. vm_compute. reflexivity. Qed.

Lemma reads_time_at (h m : Z) :
  0 <= h <= 99 -> 0 <= m <= 99 -> reads_time h m = true.
Proof.
  intros Hh Hm.
  pose proof (forallb_seqZ _ 0 100 reads_time_all h ltac:(lia)) as H.
  cbv beta in H. exact (forallb_seqZ _ 0 100 H m ltac:(lia)).
Qed.

(** X5: [schedule_reminder] checks the time as well as the date.  For a
    date that reads and a time written [hh:mm] with two digits each, the
    reminder is accepted exactly when the hour is at most 23 and the minute
    at most 59; otherwise the answer is the format-error text.  Both servers
    do the same. *)
Theorem schedule_reminder_checks_the_time (pads_year : bool) (now : datetime)
    (title date : string) (dt : datetime) (h m : Z)
    (ctx_info : string -> outcome unit) (arguments : gmap string value) :
  strptime_Ymd date = Return dt ->
  0 <= h <= 99 -> 0 <= m <= 99 ->
  (forall msg, ctx_info msg = Return tt) ->
  arguments !! "title" = Some (VStr title) ->
  arguments !! "date" = Some (VStr date) ->
  arguments !! "time" = Some (VStr (pad2 h +:+ ":" +:+ pad2 m)) ->
  let time := pad2 h +:+ ":" +:+ pad2 m in
  let answer :=
    if (h <=? 23) && (m <=? 59)
    then "Reminder scheduled: '" +:+ title +:+ "' on " +:+ date +:+ " at " +:+ time
    else Calendar.invalid_date_or_time in
  Calendar.schedule_reminder title date time ctx_info = Return answer
  /\ Calendar.call_tool pads_year now "schedule_reminder" arguments
     = Return [text_content answer].
Proof.
  intros Hd Hh Hm Hctx At Ad Atime time answer.
  pose proof (reads_time_at h m Hh Hm) as R. unfold reads_time in R.
  fold time in R.
  assert (Hcall : Calendar.call_tool pads_year now "schedule_reminder" arguments
                  = try_except
                      (let* _d := strptime_Ymd date in
                       let* _t := strptime_HM time in
                       Return [text_content
                                 ("Reminder scheduled: '" +:+ title +:+ "' on "
                                  +:+ date +:+ " at " +:+ time)])
                      ValueError
                      (Return [text_content Calendar.invalid_date_or_time])).
  { unfold Calendar.call_tool, dict_get. cbn [String.eqb Ascii.eqb Bool.eqb andb].
    rewrite At, Ad, Atime. reflexivity. }
  rewrite Hcall. unfold Calendar.schedule_reminder. rewrite Hd, !bind_Return.
  subst answer.
  destruct (strptime_HM time) as [t | e] eqn:E.
  - apply andb_prop in R as [R _]. rewrite R, !bind_Return, Hctx.
    split; reflexivity.
  - apply negb_true_iff in R. rewrite R.
    pose proof (strptime_HM_raises _ _ E) as C.
    unfold try_except, bind. rewrite C. split; reflexivity.
Qed.

Lemma schedule_reminder_checks_the_time_witness :
  let time := pad2 24 +:+ ":" +:+ pad2 0 in
  let answer :=
    if (24 <=? 23) && (0 <=? 59)
    then "Reminder scheduled: '" +:+ "Dentist" +:+ "' on " +:+ "2024-03-01"
         +:+ " at " +:+ time
    else Calendar.invalid_date_or_time in
  Calendar.schedule_reminder "Dentist" "2024-03-01" time (fun _ => Return tt)
  = Return answer
  /\ Calendar.call_tool false (mk_datetime (mk_date 2024 3 1) 0) "schedule_reminder"
       {[ "title" := VStr "Dentist"; "date" := VStr "2024-03-01";
          "time" := VStr "24:00" ]}
     = Return [text_content answer].
Proof.
  apply (schedule_reminder_checks_the_time false (mk_datetime (mk_date 2024 3 1) 0)
           "Dentist" "2024-03-01" (mk_datetime (mk_date 2024 3 1) 0) 24 0
           (fun _ => Return tt)
           {[ "title" := VStr "Dentist"; "date" := VStr "2024-03-01";
              "time" := VStr "24:00" ]}).
  - vm_compute. reflexivity.
  - lia.
  - lia.
  - reflexivity.
  - vm_compute. reflexivity.
  - vm_compute. reflexivity.
  - vm_compute. reflexivity.
Defined.

(** X6: the two calendar servers answer alike.  For arguments of the
    declared types the dispatcher of the low-level server returns, wrapped in
    one [TextContent], what the tool of the FastMCP server returns, and
    raises what it raises. *)
Theorem calendar_servers_agree (pads_year : bool) (now : datetime)
    (arguments : gmap string value) :
  (forall date_string : string,
     arguments !! "date_string" = Some (VStr date_string) ->
     Calendar.call_tool pads_year now "get_date_info" arguments
     = as_text_content (Calendar.get_date_info date_string))
  /\ (forall (date_string : string) (days : Z),
        arguments !! "date_string" = Some (VStr date_string) ->
        arguments !! "days" = Some (VInt days) ->
        Calendar.call_tool pads_year now "add_days_to_date" arguments
        = as_text_content (Calendar.add_days_to_date pads_year date_string days))
  /\ (forall start_date end_date : string,
        arguments !! "start_date" = Some (VStr start_date) ->
        arguments !! "end_date" = Some (VStr end_date) ->
        Calendar.call_tool pads_year now "get_days_between_dates" arguments
        = as_text_content (Calendar.get_days_between_dates start_date end_date))
  /\ (forall (title date time : string) (ctx_info : string -> outcome unit),
        arguments !! "title" = Some (VStr title) ->
        arguments !! "date" = Some (VStr date) ->
        arguments !! "time" = Some (VStr time) ->
        (forall msg, ctx_info msg = Return tt) ->
        Calendar.call_tool pads_year now "schedule_reminder" arguments
        = as_text_content (Calendar.schedule_reminder title date time ctx_info))
  /\ Calendar.call_tool pads_year now "get_current_date" arguments
     = as_text_content (Calendar.get_current_date pads_year now)
  /\ Calendar.call_tool pads_year now "get_today" arguments
     = as_text_content (Calendar.get_today pads_year now)
  /\ Calendar.call_tool pads_year now "get_yesterday" arguments
     = as_text_content (Calendar.get_yesterday pads_year now)
  /\ Calendar.call_tool pads_year now "get_tomorrow" arguments
     = as_text_content (Calendar.get_tomorrow pads_year now).
Proof.
  repeat split.
  - intros s H. unfold Calendar.call_tool, Calendar.get_date_info, dict_get.
    cbn [String.eqb Ascii.eqb Bool.eqb andb]. rewrite H. cbn [strptime str].
    destruct (strptime_Ymd s) as [dt | e]; [reflexivity |].
    cbn. destruct (subclass (exn_cls e) ValueError); reflexivity.
  - intros s n H1 H2.
    unfold Calendar.call_tool, Calendar.add_days_to_date, dict_get.
    cbn [String.eqb Ascii.eqb Bool.eqb andb]. rewrite H1, H2.
    cbn [strptime str timedelta].
    destruct (strptime_Ymd s) as [dt | e];
      [| cbn; destruct (subclass (exn_cls e) ValueError); reflexivity].
    rewrite !bind_Return.
    destruct (timedelta_days n) as [k | e];
      [| cbn; destruct (subclass (exn_cls e) ValueError); reflexivity].
    rewrite !bind_Return.
    destruct (add_days dt k) as [r | e]; [reflexivity |].
    cbn. destruct (subclass (exn_cls e) ValueError); reflexivity.
  - intros a b H1 H2.
    unfold Calendar.call_tool, Calendar.get_days_between_dates, dict_get.
    cbn [String.eqb Ascii.eqb Bool.eqb andb]. rewrite H1, H2. cbn [strptime str].
    destruct (strptime_Ymd a) as [da | e];
      [| cbn; destruct (subclass (exn_cls e) ValueError); reflexivity].
    rewrite !bind_Return.
    destruct (strptime_Ymd b) as [db | e]; [reflexivity |].
    cbn. destruct (subclass (exn_cls e) ValueError); reflexivity.
  - intros title date time ctx_info H1 H2 H3 Hctx.
    unfold Calendar.call_tool, Calendar.schedule_reminder, dict_get.
    cbn [String.eqb Ascii.eqb Bool.eqb andb]. rewrite H1, H2, H3. cbn [strptime str].
    destruct (strptime_Ymd date) as [da | e];
      [| cbn; destruct (subclass (exn_cls e) ValueError); reflexivity].
    rewrite !bind_Return.
    destruct (strptime_HM time) as [db | e];
      [| cbn; destruct (subclass (exn_cls e) ValueError); reflexivity].
    rewrite !bind_Return, Hctx. reflexivity.
  - rewrite call_tool_get_yesterday. unfold Calendar.get_yesterday.
    rewrite timedelta_days_small by (cbn; lia). rewrite !bind_Return.
    change (- (1)) with (-1). destruct (add_days now (-1)); reflexivity.
  - rewrite call_tool_get_tomorrow. unfold Calendar.get_tomorrow.
    rewrite timedelta_days_small by (cbn; lia). rewrite !bind_Return.
    destruct (add_days now 1); reflexivity.
Qed.

Lemma calendar_servers_agree_witness :
  Calendar.call_tool false (mk_datetime (mk_date 2024 3 1) 0) "add_days_to_date"
    {[ "date_string" := VStr "2024-02-28"; "days" := VInt 2 ]}
  = as_text_content (Calendar.add_days_to_date false "2024-02-28" 2).
Proof.
  destruct (calendar_servers_agree false (mk_datetime (mk_date 2024 3 1) 0)
              {[ "date_string" := VStr "2024-02-28"; "days" := VInt 2 ]})
    as (_ & H & _).
  apply H; vm_compute; reflexivity.
Defined.

(** ** The exceptions that leave the calendar dispatcher *)

Lemma strptime_raises (parse : string -> outcome datetime) (v : value) (e : exn) :
  (forall s e', parse s = Raise e' -> exn_cls e' = ValueError) ->
  strptime parse v = Raise e ->
  exn_cls e = ValueError \/ (exn_cls e = TypeError /\ is_str v = false).
Proof.
  intros Hp. destruct v as [s | n |]; cbn.
  - intros H. left. exact (Hp _ _ H).
  - intros [= <-]. right. split; reflexivity.
  - intros [= <-]. right. split; reflexivity.
Qed.

Lemma timedelta_days_raises (n : Z) (e : exn) :
  timedelta_days n = Raise e -> exn_cls e = OverflowError.
Proof.
  unfold timedelta_days. destruct (Z.abs n >? 999999999); [| discriminate].
  intros [= <-]. reflexivity.
Qed.

Lemma timedelta_raises (v : value) (e : exn) :
  timedelta v = Raise e ->
  exn_cls e = OverflowError \/ (exn_cls e = TypeError /\ is_int v = false).
Proof.
  destruct v as [s | n |]; cbn.
  - intros [= <-]. right. split; reflexivity.
  - intros H. left. exact (timedelta_days_raises _ _ H).
  - intros [= <-]. right. split; reflexivity.
Qed.

Lemma add_days_raises (dt : datetime) (n : Z) (e : exn) :
  add_days dt n = Raise e -> exn_cls e = OverflowError.
Proof.
  unfold add_days. destruct ((0 <? _) && _); [discriminate |].
  intros [= <-]. reflexivity.
Qed.

Lemma try_except_raises {A} (c : outcome A) (a : A) (e : exn) :
  try_except c ValueError (Return a) = Raise e ->
  c = Raise e /\ exn_cls e <> ValueError.
Proof.
  destruct c as [x | e']; cbn; [discriminate |].
  destruct (subclass (exn_cls e') ValueError) eqn:E; [discriminate |].
  intros [= <-]. split; [reflexivity |]. intros H. rewrite H in E. discriminate E.
Qed.

Lemma dict_get_is_str (arguments : gmap string value) (key : string) :
  (forall v, arguments !! key = Some v -> is_str v = true) ->
  is_str (dict_get arguments key (VStr "")) = true.
Proof.
  intros H. unfold dict_get. destruct (arguments !! key) as [v |]; [| reflexivity].
  exact (H v eq_refl).
Qed.

Lemma dict_get_is_int (arguments : gmap string value) (key : string) :
  (forall v, arguments !! key = Some v -> is_int v = true) ->
  is_int (dict_get arguments key (VInt 0)) = true.
Proof.
  intros H. unfold dict_get. destruct (arguments !! key) as [v |]; [| reflexivity].
  exact (H v eq_refl).
Qed.

(** What a raised exception of the dispatcher can be, tool by tool: the
    class, and whether an argument of the wrong type is behind it. *)
Lemma calendar_call_tool_raises (pads_year : bool) (now : datetime) (name : string)
    (arguments : gmap string value) (e : exn) :
  Calendar.call_tool pads_year now name arguments = Raise e ->
  (exn_cls e = OverflowError
   /\ name ∈ ["get_yesterday"; "get_tomorrow"; "add_days_to_date"])
  \/ (exn_cls e = TypeError
      /\ ((exists key, key ∈ ["date_string"; "start_date"; "end_date"; "date"; "time"]
                       /\ is_str (dict_get arguments key (VStr "")) = false)
          \/ is_int (dict_get arguments "days" (VInt 0)) = false)).
Proof.
  unfold Calendar.call_tool.
  repeat match goal with
         | |- context [ (name =? ?s)%string ] =>
             destruct (String.eqb_spec name s) as [-> | _]
         end; try discriminate.
  - (* get_yesterday *)
    rewrite timedelta_days_small by (cbn; lia). rewrite bind_Return.
    destruct (add_days now (- (1))) as [y | e'] eqn:E; [discriminate |].
    intros [= <-]. left. split; [exact (add_days_raises _ _ _ E) | set_solver].
  - (* get_tomorrow *)
    rewrite timedelta_days_small by (cbn; lia). rewrite bind_Return.
    destruct (add_days now 1) as [y | e'] eqn:E; [discriminate |].
    intros [= <-]. left. split; [exact (add_days_raises _ _ _ E) | set_solver].
  - (* get_date_info *)
    intros H. apply try_except_raises in H as [H Hne].
    destruct (strptime strptime_Ymd _) as [dt | e'] eqn:E; [discriminate |].
    injection H as ->.
    destruct (strptime_raises _ _ _ strptime_Ymd_raises E) as [C | [C T]];
      [contradiction |].
    right. split; [exact C |]. left. exists "date_string". split; [set_solver | exact T].
  - (* add_days_to_date *)
    intros H. apply try_except_raises in H as [H Hne].
    destruct (strptime strptime_Ymd _) as [dt | e'] eqn:E.
    2: { injection H as ->.
         destruct (strptime_raises _ _ _ strptime_Ymd_raises E) as [C | [C T]];
           [contradiction |].
         right. split; [exact C |]. left. exists "date_string".
         split; [set_solver | exact T]. }
    rewrite bind_Return in H.
    destruct (timedelta _) as [delta | e'] eqn:Ed.
    2: { injection H as ->. destruct (timedelta_raises _ _ Ed) as [C | [C T]].
         - left. split; [exact C | set_solver].
         - right. split; [exact C |]. right. exact T. }
    rewrite bind_Return in H.
    destruct (add_days dt delta) as [r | e'] eqn:Ea; [discriminate |].
    injection H as ->. left. split; [exact (add_days_raises _ _ _ Ea) | set_solver].
  - (* get_days_between_dates *)
    intros H. apply try_except_raises in H as [H Hne].
    destruct (strptime strptime_Ymd (dict_get arguments "start_date" _))
      as [dt | e'] eqn:E.
    2: { injection H as ->.
         destruct (strptime_raises _ _ _ strptime_Ymd_raises E) as [C | [C T]];
           [contradiction |].
         right. split; [exact C |]. left. exists "start_date".
         split; [set_solver | exact T]. }
    rewrite bind_Return in H.
    destruct (strptime strptime_Ymd (dict_get arguments "end_date" _))
      as [dt' | e'] eqn:E'; [discriminate |].
    injection H as ->.
    destruct (strptime_raises _ _ _ strptime_Ymd_raises E') as [C | [C T]];
      [contradiction |].
    right. split; [exact C |]. left. exists "end_date". split; [set_solver | exact T].
  - (* schedule_reminder *)
    intros H. apply try_except_raises in H as [H Hne].
    destruct (strptime strptime_Ymd _) as [dt | e'] eqn:E.
    2: { injection H as ->.
         destruct (strptime_raises _ _ _ strptime_Ymd_raises E) as [C | [C T]];
           [contradiction |].
         right. split; [exact C |]. left. exists "date".
         split; [set_solver | exact T]. }
    rewrite bind_Return in H.
    destruct (strptime strptime_HM _) as [dt' | e'] eqn:E'; [discriminate |].
    injection H as ->.
    destruct (strptime_raises _ _ _ strptime_HM_raises E') as [C | [C T]];
      [contradiction |].
    right. split; [exact C |]. left. exists "time". split; [set_solver | exact T].
Qed.

(** X7: the exceptions that leave the dispatcher of the calendar server,
    which catches [ValueError] only.  Whatever the tool and the arguments,
    an exception that leaves it is an [OverflowError] or a [TypeError].  When
    the arguments have the declared types it is an [OverflowError], and the
    tool is one of the three that add days: [get_yesterday], [get_tomorrow],
    [add_days_to_date]; the other tools never raise. *)
Theorem calendar_escaping_exceptions (pads_year : bool) (now : datetime)
    (name : string) (arguments : gmap string value) (e : exn) :
  Calendar.call_tool pads_year now name arguments = Raise e ->
  (exn_cls e = OverflowError \/ exn_cls e = TypeError)
  /\ (declared_types arguments ->
      exn_cls e = OverflowError
      /\ name ∈ ["get_yesterday"; "get_tomorrow"; "add_days_to_date"]).
Proof.
  intros H. apply calendar_call_tool_raises in H.
  split.
  - destruct H as [[C _] | [C _]]; [left | right]; exact C.
  - intros [Hs Hi]. destruct H as [H | [_ [(key & Hk & T) | T]]]; [exact H | |].
    + rewrite dict_get_is_str in T; [discriminate T |].
      intros v. apply Hs. set_solver.
    + rewrite (dict_get_is_int _ _ Hi) in T. discriminate T.
Qed.

Lemma calendar_escaping_exceptions_witness :
  Calendar.call_tool false (mk_datetime (mk_date 2024 3 1) 0) "add_days_to_date"
    {[ "date_string" := VStr "9999-12-31"; "days" := VInt 1 ]}
  = Raise (mk_exn OverflowError "date value out of range")
  /\ (exn_cls (mk_exn OverflowError "date value out of range") = OverflowError
      \/ exn_cls (mk_exn OverflowError "date value out of range") = TypeError).
Proof.
  assert (H : Calendar.call_tool false (mk_datetime (mk_date 2024 3 1) 0)
                "add_days_to_date"
                {[ "date_string" := VStr "9999-12-31"; "days" := VInt 1 ]}
              = Raise (mk_exn OverflowError "date value out of range"))
    by (vm_compute; reflexivity).
  split; [exact H |].
  exact (proj1 (calendar_escaping_exceptions _ _ _ _ _ H)).
Defined.

(* ===================================================================== *)
(** * Further properties of the Dropbox tools *)
(* ===================================================================== *)

Lemma ensure_leading_slash_leads (p p' : value) :
  Dropbox.ensure_leading_slash p = Return p' -> leads_with_slash p'.
Proof.
  unfold Dropbox.ensure_leading_slash, Dropbox.startswith_slash, Dropbox.prepend_slash.
  destruct p as [s | n |]; cbn [bind]; try discriminate.
  destruct (startswith "/" s) eqn:E; cbn [negb]; intros [= <-];
    (eexists; split; [reflexivity |]); [exact E | reflexivity].
Qed.

(** X8: the tools that normalise their path never hand the Dropbox client a
    path without a leading slash, whatever the arguments are and whatever
    the service answers: [create_folder], [delete_file], [get_file_info] and
    [create_shared_link], in the FastMCP server and in the dispatcher of the
    low-level server (where an argument that is no string reaches no call). *)
Theorem normalising_tools_hand_absolute_paths (format_gb : Z -> string)
    (w : Dropbox.world) (v : value) :
  (forall folder_path : string,
     v ∈ Dropbox.sdk_paths (Dropbox.create_folder w folder_path []).1 ->
     leads_with_slash v)
  /\ (forall dropbox_path : string,
        v ∈ Dropbox.sdk_paths (Dropbox.delete_file w dropbox_path []).1 ->
        leads_with_slash v)
  /\ (forall dropbox_path : string,
        v ∈ Dropbox.sdk_paths (Dropbox.get_file_info w dropbox_path []).1 ->
        leads_with_slash v)
  /\ (forall dropbox_path : string,
        v ∈ Dropbox.sdk_paths (Dropbox.create_shared_link w dropbox_path []).1 ->
        leads_with_slash v)
  /\ (forall (name : string) (arguments : gmap string value),
        name ∈ ["create_folder"; "delete_file"; "get_file_info"; "create_shared_link"] ->
        v ∈ Dropbox.sdk_paths (Dropbox.call_tool format_gb w name arguments []).1 ->
        leads_with_slash v).
Proof.
  split; [exact (fun p => create_folder_path w p v) |].
  split; [exact (fun p => delete_file_path w p v) |].
  split; [exact (fun p => get_file_info_path w p v) |].
  split; [exact (fun p => create_shared_link_path w p v) |].
  intros name arguments Hname.
  elem_cases Hname; subst name.
  all: unfold Dropbox.call_tool, Dropbox.call_tool_try;
    simpl (String.eqb _ _); cbv iota.
  all: match goal with
       | |- context [ dict_get ?a ?k ?d ] =>
           generalize (dict_get a k d); intros p
       end.
  all: pose proof (ensure_leading_slash_leads p) as Hn;
    unfold Dropbox.existing_shared_link;
    destruct (Dropbox.ensure_leading_slash p) as [p' | e];
    [specialize (Hn p' eq_refl) | clear Hn].
  all: run_handler; cbn; intros H;
    repeat (apply elem_of_cons in H as [-> | H]);
    try (apply elem_of_nil in H; destruct H); exact Hn.
Qed.

Lemma normalising_tools_hand_absolute_paths_witness :
  VStr "/docs/2024"
    ∈ Dropbox.sdk_paths
        (Dropbox.call_tool (fun _ => "0.00") dropbox_world_ok "create_folder"
           {[ "folder_path" := VStr "docs/2024" ]} []).1
  /\ leads_with_slash (VStr "/docs/2024").
Proof.
  assert (H : VStr "/docs/2024"
                ∈ Dropbox.sdk_paths
                    (Dropbox.call_tool (fun _ => "0.00") dropbox_world_ok "create_folder"
                       {[ "folder_path" := VStr "docs/2024" ]} []).1)
    by (vm_compute; constructor).
  split; [exact H |].
  destruct (normalising_tools_hand_absolute_paths (fun _ => "0.00") dropbox_world_ok
              (VStr "/docs/2024")) as (_ & _ & _ & _ & Hn).
  apply (Hn "create_folder" {[ "folder_path" := VStr "docs/2024" ]}).
  - compute_done.
  - exact H.
Defined.

(** Without the token, the client is not made. *)
Lemma get_dropbox_client_no_token (w : Dropbox.world) (msg : string) (t : list event) :
  no_dropbox_token w ->
  Dropbox.get_dropbox_client w msg t = (t, Raise (mk_exn ValueError msg)).
Proof.
  intros [H | H]; unfold Dropbox.get_dropbox_client; rewrite H; reflexivity.
Qed.

(** X9: without [DROPBOX_ACCESS_TOKEN] (unset or empty) the dispatcher of
    the low-level server calls nothing: for each of its nine tools, whatever
    the arguments, the trace is unchanged and the answer is the failure text
    of that tool, "<Operation> failed: ", followed by the message that the
    variable is not set. *)
Theorem dropbox_dispatcher_needs_the_token (format_gb : Z -> string)
    (w : Dropbox.world) (arguments : gmap string value) (t : list event) :
  no_dropbox_token w ->
  let answer (name : string) := Dropbox.call_tool format_gb w name arguments t in
  let not_set :=
    "DROPBOX_ACCESS_TOKEN environment variable not set. Please set this in your Render environment variables." in
  answer "upload_file" = (t, Return [text_content ("Upload failed: " +:+ not_set)])
  /\ answer "download_file"
     = (t, Return [text_content ("Download failed: " +:+ not_set)])
  /\ answer "list_folder"
     = (t, Return [text_content ("List folder failed: " +:+ not_set)])
  /\ answer "create_folder"
     = (t, Return [text_content ("Create folder failed: " +:+ not_set)])
  /\ answer "delete_file" = (t, Return [text_content ("Delete failed: " +:+ not_set)])
  /\ answer "get_file_info"
     = (t, Return [text_content ("Get file info failed: " +:+ not_set)])
  /\ answer "create_shared_link"
     = (t, Return [text_content ("Create shared link failed: " +:+ not_set)])
  /\ answer "search_files" = (t, Return [text_content ("Search failed: " +:+ not_set)])
  /\ answer "get_account_info"
     = (t, Return [text_content ("Get account info failed: " +:+ not_set)]).
Proof.
  intros Hw answer not_set. subst answer not_set. cbv beta.
  repeat match goal with |- _ /\ _ => split end.
  all: unfold Dropbox.call_tool, Dropbox.call_tool_try;
    simpl (String.eqb _ _); cbv iota;
    unfold Eff.try_catch at 1 2; unfold Eff.bind at 1;
    rewrite (get_dropbox_client_no_token w _ t Hw); cbn [exn_cls subclass exn_str];
    reflexivity.
Qed.

Lemma dropbox_dispatcher_needs_the_token_witness :
  Dropbox.call_tool (fun _ => "0.00") dropbox_world_no_token "delete_file"
    {[ "dropbox_path" := VStr "/docs/report.pdf" ]} []
  = ([], Return [text_content
                   "Delete failed: DROPBOX_ACCESS_TOKEN environment variable not set. Please set this in your Render environment variables."])
  /\ Dropbox.call_tool (fun _ => "0.00") dropbox_world_no_token "search_files"
       {[ "dropbox_path" := VStr "/docs/report.pdf" ]} []
     = ([], Return [text_content
                      "Search failed: DROPBOX_ACCESS_TOKEN environment variable not set. Please set this in your Render environment variables."]).
Proof.
  destruct (dropbox_dispatcher_needs_the_token (fun _ => "0.00") dropbox_world_no_token
              {[ "dropbox_path" := VStr "/docs/report.pdf" ]} [])
    as (_ & _ & _ & _ & Hdelete & _ & _ & Hsearch & _).
  - left. reflexivity.
  - split; [exact Hdelete | exact Hsearch].
Defined.

(** The handlers of the FastMCP server share one shape when the token is
    missing: the first [ctx.info], then the [except] clause. *)
Lemma fastmcp_tool_without_token (w : Dropbox.world) (started failed : string)
    (rest : Eff.M (S := list event) string) (t : list event) (r : outcome string) :
  no_dropbox_token w ->
  Eff.try_catch
    (let! _ := Dropbox.info w started in
     let! _ := Dropbox.get_dropbox_client w Dropbox.not_set in
     rest)
    (Dropbox.report w failed) [] = (t, r) ->
  sdk_calls t = []
  /\ (Dropbox.ctx_info w started = Return tt ->
      Dropbox.ctx_error w (failed +:+ Dropbox.not_set) = Return tt ->
      r = Return (failed +:+ Dropbox.not_set)).
Proof.
  intros Hw. unfold Eff.try_catch, Eff.bind, Dropbox.info, Eff.perform.
  cbn [app].
  destruct (Dropbox.ctx_info w started) as [[] | e] eqn:Ei.
  - rewrite (get_dropbox_client_no_token w _ _ Hw).
    unfold Dropbox.report, Dropbox.error, Eff.bind, Eff.perform, Eff.ret.
    cbn [exn_str app].
    destruct (Dropbox.ctx_error w (failed +:+ Dropbox.not_set)) as [[] | e] eqn:Ee;
      intros [= <- <-]; (split; [reflexivity |]); intros _ H; congruence.
  - unfold Dropbox.report, Dropbox.error, Eff.bind, Eff.perform, Eff.ret.
    cbn [app].
    destruct (Dropbox.ctx_error w (failed +:+ exn_str e)) as [[] | e'];
      intros [= <- <-]; (split; [reflexivity |]); intros H; discriminate H.
Qed.

(** X10: without the token no tool of the FastMCP server reaches the Dropbox
    client: in a run in which the logging works, the trace of each of the
    nine tools holds no call of the client, and the answer is the failure
    text of the tool followed by the message that the variable is not set. *)
Theorem dropbox_tools_need_the_token (format_gb : Z -> string) (w : Dropbox.world)
    (path other : string) (t : list event) (r : outcome string) :
  no_dropbox_token w ->
  (forall msg, Dropbox.ctx_info w msg = Return tt) ->
  (forall msg, Dropbox.ctx_error w msg = Return tt) ->
  (Dropbox.upload_file w path other [] = (t, r)
   -> sdk_calls t = [] /\ r = Return ("Upload failed: " +:+ Dropbox.not_set))
  /\ (Dropbox.download_file w path other [] = (t, r)
      -> sdk_calls t = [] /\ r = Return ("Download failed: " +:+ Dropbox.not_set))
  /\ (Dropbox.list_folder w path [] = (t, r)
      -> sdk_calls t = [] /\ r = Return ("List folder failed: " +:+ Dropbox.not_set))
  /\ (Dropbox.create_folder w path [] = (t, r)
      -> sdk_calls t = [] /\ r = Return ("Create folder failed: " +:+ Dropbox.not_set))
  /\ (Dropbox.delete_file w path [] = (t, r)
      -> sdk_calls t = [] /\ r = Return ("Delete failed: " +:+ Dropbox.not_set))
  /\ (Dropbox.get_file_info w path [] = (t, r)
      -> sdk_calls t = [] /\ r = Return ("Get file info failed: " +:+ Dropbox.not_set))
  /\ (Dropbox.create_shared_link w path [] = (t, r)
      -> sdk_calls t = []
         /\ r = Return ("Create shared link failed: " +:+ Dropbox.not_set))
  /\ (Dropbox.search_files w path [] = (t, r)
      -> sdk_calls t = [] /\ r = Return ("Search failed: " +:+ Dropbox.not_set))
  /\ (Dropbox.get_account_info format_gb w [] = (t, r)
      -> sdk_calls t = []
         /\ r = Return ("Get account info failed: " +:+ Dropbox.not_set)).
Proof.
  intros Hw Hi He.
  assert (G : forall started failed rest,
            Eff.try_catch
              (let! _ := Dropbox.info w started in
               let! _ := Dropbox.get_dropbox_client w Dropbox.not_set in
               rest)
              (Dropbox.report w failed) [] = (t, r) ->
            sdk_calls t = [] /\ r = Return (failed +:+ Dropbox.not_set)).
  { intros started failed rest H.
    destruct (fastmcp_tool_without_token w started failed rest t r Hw H) as [H1 H2].
    split; [exact H1 |]. apply H2; [apply Hi | apply He]. }
  repeat match goal with |- _ /\ _ => split end.
  all: intros H.
  2-9: exact (G _ _ _ H).
  unfold Dropbox.upload_file in H.
  unfold Eff.try_catch, Eff.bind, Dropbox.info, Eff.perform in H.
  cbn [app] in H. rewrite Hi in H.
  rewrite (get_dropbox_client_no_token w _ _ Hw) in H.
  cbn [exn_cls subclass] in H.
  unfold Dropbox.report, Dropbox.error, Eff.bind, Eff.perform, Eff.ret in H.
  cbn [exn_str app] in H. rewrite He in H. injection H as <- <-.
  split; reflexivity.
Qed.

Lemma dropbox_tools_need_the_token_witness :
  sdk_calls (Dropbox.delete_file dropbox_world_no_token "/docs/report.pdf" []).1 = []
  /\ (Dropbox.delete_file dropbox_world_no_token "/docs/report.pdf" []).2
     = Return ("Delete failed: " +:+ Dropbox.not_set).
Proof.
  destruct (dropbox_tools_need_the_token (fun _ => "0.00") dropbox_world_no_token
              "/docs/report.pdf" ""
              (Dropbox.delete_file dropbox_world_no_token "/docs/report.pdf" []).1
              (Dropbox.delete_file dropbox_world_no_token "/docs/report.pdf" []).2)
    as (_ & _ & _ & _ & H & _).
  - left. reflexivity.
  - reflexivity.
  - reflexivity.
  - apply H. reflexivity.
Defined.

(** X11: [create_shared_link] reuses a link that exists.  With the client
    at hand and a path that normalises to [p'], the dispatcher asks for the
    links of [p'] first: if there is one it answers with the first and creates
    nothing; if there is none, or if the question itself fails, it creates a
    link and answers with the new one. *)
Theorem shared_link_is_reused (format_gb : Z -> string) (w : Dropbox.world)
    (arguments : gmap string value) (p' : value) (t : list event) :
  Dropbox.get_dropbox_client w Dropbox.not_set_render t = (t, Return tt) ->
  Dropbox.ensure_leading_slash (dict_get arguments "dropbox_path" (VStr "")) = Return p' ->
  (forall (url : string) (others : list string),
     Dropbox.sharing_list_shared_links w p' = Return (url :: others) ->
     Dropbox.call_tool format_gb w "create_shared_link" arguments t
     = ((t ++ [Sdk "sharing_list_shared_links" [p']])%list,
        Return [text_content ("Shared link: " +:+ url)]))
  /\ (forall url : string,
        Dropbox.sharing_list_shared_links w p' = Return []
        \/ (exists e, Dropbox.sharing_list_shared_links w p' = Raise e) ->
        Dropbox.sharing_create_shared_link_with_settings w p' = Return url ->
        Dropbox.call_tool format_gb w "create_shared_link" arguments t
        = ((t ++ [Sdk "sharing_list_shared_links" [p'];
                  Sdk "sharing_create_shared_link_with_settings" [p']])%list,
           Return [text_content ("Shared link created: " +:+ url)])).
Proof.
  intros Hc Hp.
  unfold Dropbox.call_tool, Dropbox.call_tool_try.
  simpl (String.eqb _ _). cbv iota.
  unfold Dropbox.existing_shared_link, Dropbox.sdk.
  cbv [Eff.try_catch Eff.bind Eff.ret Eff.lift Eff.perform].
  rewrite Hc, Hp.
  split.
  - intros url others ->. reflexivity.
  - intros url [-> | [e ->]] ->; cbn [head]; rewrite <- app_assoc; reflexivity.
Qed.

Lemma shared_link_is_reused_witness :
  Dropbox.call_tool (fun _ => "0.00") dropbox_world_linked "create_shared_link"
    {[ "dropbox_path" := VStr "docs/report.pdf" ]} []
  = ([Sdk "sharing_list_shared_links" [VStr "/docs/report.pdf"]],
     Return [text_content "Shared link: https://www.dropbox.com/s/old"]).
Proof.
  destruct (shared_link_is_reused (fun _ => "0.00") dropbox_world_linked
              {[ "dropbox_path" := VStr "docs/report.pdf" ]}
              (VStr "/docs/report.pdf") []) as [H _].
  - reflexivity.
  - vm_compute. reflexivity.
  - apply (H "https://www.dropbox.com/s/old" []). reflexivity.
Defined.

(** ** The two Dropbox servers *)

Lemma ensure_leading_slash_str (s : string) :
  Dropbox.ensure_leading_slash (VStr s)
  = Return (VStr (if negb (startswith "/" s) then "/" +:+ s else s)).
Proof.
  unfold Dropbox.ensure_leading_slash, Dropbox.startswith_slash, Dropbox.prepend_slash.
  cbn [bind]. destruct (startswith "/" s); reflexivity.
Qed.

Lemma normalize_folder_path_str (s : string) :
  Dropbox.normalize_folder_path (VStr s)
  = Return (VStr (if (s =? "/")%string || (s =? "")%string then ""
                  else if negb (startswith "/" s) then "/" +:+ s else s)).
Proof.
  destruct s as [| c s']; [reflexivity |].
  destruct s' as [| c' s''];
    destruct c as [[] [] [] [] [] [] [] []]; reflexivity.
Qed.

(** With the token set, making the client does not depend on the message
    for a missing token, and leaves the trace as it is. *)
Lemma get_dropbox_client_with_token (w : Dropbox.world) (token msg : string)
    (t : list event) :
  Dropbox.getenv w "DROPBOX_ACCESS_TOKEN" = Some token -> token <> "" ->
  Dropbox.get_dropbox_client w msg t
  = (t, if Dropbox.dropbox_importable w then Return tt
        else Raise (mk_exn ImportError
               "dropbox package not installed. Install with: pip install dropbox")).
Proof.
  intros H Hne. unfold Dropbox.get_dropbox_client. rewrite H.
  destruct token; [contradiction |].
  destruct (Dropbox.dropbox_importable w); reflexivity.
Qed.

(** Run both handlers down to the answers of the world. *)
Ltac run_both Hi He Hc :=
  unfold same_run, as_text_content, Dropbox.call_tool, Dropbox.call_tool_try,
    Dropbox.upload_file, Dropbox.download_file, Dropbox.list_folder,
    Dropbox.create_folder, Dropbox.delete_file, Dropbox.get_file_info,
    Dropbox.create_shared_link, Dropbox.search_files, Dropbox.get_account_info,
    Dropbox.existing_shared_link, Dropbox.report, Dropbox.sdk, Dropbox.info,
    Dropbox.error;
  simpl (String.eqb _ _); cbv iota;
  cbv [Eff.try_catch Eff.bind Eff.ret Eff.raise Eff.lift Eff.perform];
  rewrite ?Hi, ?He, ?Hc.

Ltac settle_both Hi He :=
  first [ split; reflexivity
        | exfalso;
          match goal with
          | H : Dropbox.ctx_error _ _ = Raise _ |- _ => rewrite He in H; discriminate H
          | H : Dropbox.ctx_info _ _ = Raise _ |- _ => rewrite Hi in H; discriminate H
          end ].

(** X12: the two Dropbox servers do the same.  With the token set and the
    logging at work, a call of the low-level dispatcher with string
    arguments gives the text that the FastMCP tool of the same name gives,
    wrapped in one [TextContent], and makes the same calls of the Dropbox
    client with the same arguments, for each of the nine tools and whatever
    the service answers. *)
Theorem dropbox_servers_agree (format_gb : Z -> string) (w : Dropbox.world)
    (token : string) (arguments : gmap string value) (a b : string) :
  Dropbox.getenv w "DROPBOX_ACCESS_TOKEN" = Some token -> token <> "" ->
  (forall msg, Dropbox.ctx_info w msg = Return tt) ->
  (forall msg, Dropbox.ctx_error w msg = Return tt) ->
  (arguments !! "local_path" = Some (VStr a) ->
   arguments !! "dropbox_path" = Some (VStr b) ->
   same_run (Dropbox.call_tool format_gb w "upload_file" arguments [])
     (Dropbox.upload_file w a b [])
   /\ same_run (Dropbox.call_tool format_gb w "download_file" arguments [])
        (Dropbox.download_file w b a []))
  /\ (arguments !! "folder_path" = Some (VStr a) ->
      same_run (Dropbox.call_tool format_gb w "list_folder" arguments [])
        (Dropbox.list_folder w a [])
      /\ same_run (Dropbox.call_tool format_gb w "create_folder" arguments [])
           (Dropbox.create_folder w a []))
  /\ (arguments !! "dropbox_path" = Some (VStr a) ->
      same_run (Dropbox.call_tool format_gb w "delete_file" arguments [])
        (Dropbox.delete_file w a [])
      /\ same_run (Dropbox.call_tool format_gb w "get_file_info" arguments [])
           (Dropbox.get_file_info w a [])
      /\ same_run (Dropbox.call_tool format_gb w "create_shared_link" arguments [])
           (Dropbox.create_shared_link w a []))
  /\ (arguments !! "query" = Some (VStr a) ->
      same_run (Dropbox.call_tool format_gb w "search_files" arguments [])
        (Dropbox.search_files w a []))
  /\ same_run (Dropbox.call_tool format_gb w "get_account_info" arguments [])
       (Dropbox.get_account_info format_gb w []).
Proof.
  intros Ht Hne Hi He.
  assert (Hc : forall msg t,
            Dropbox.get_dropbox_client w msg t
            = (t, if Dropbox.dropbox_importable w then Return tt
                  else Raise (mk_exn ImportError
                         "dropbox package not installed. Install with: pip install dropbox")))
    by (intros msg t; exact (get_dropbox_client_with_token w token msg t Ht Hne)).
  repeat match goal with |- _ /\ _ => split end.
  - intros H1 H2. unfold dict_get.
    split; run_both Hi He Hc; unfold dict_get; rewrite H1, H2;
      cbv [Eff.try_catch Eff.bind Eff.ret Eff.raise Eff.lift Eff.perform];
      rewrite ?Hi, ?He, ?Hc;
      destruct (Dropbox.dropbox_importable w);
      split_on_answers; settle_both Hi He.
  - intros H1.
    split; run_both Hi He Hc; unfold dict_get; rewrite H1;
      rewrite ?normalize_folder_path_str, ?ensure_leading_slash_str;
      cbv [Eff.try_catch Eff.bind Eff.ret Eff.raise Eff.lift Eff.perform];
      rewrite ?Hi, ?He, ?Hc;
      destruct (Dropbox.dropbox_importable w);
      split_on_answers; settle_both Hi He.
  - intros H1.
    repeat match goal with |- _ /\ _ => split end;
      run_both Hi He Hc; unfold dict_get; rewrite H1;
      rewrite ?ensure_leading_slash_str;
      cbv [Eff.try_catch Eff.bind Eff.ret Eff.raise Eff.lift Eff.perform];
      rewrite ?Hi, ?He, ?Hc;
      destruct (Dropbox.dropbox_importable w);
      split_on_answers; settle_both Hi He.
  - intros H1.
    run_both Hi He Hc; unfold dict_get; rewrite H1;
      cbv [Eff.try_catch Eff.bind Eff.ret Eff.raise Eff.lift Eff.perform];
      rewrite ?Hi, ?He, ?Hc;
      destruct (Dropbox.dropbox_importable w);
      split_on_answers; settle_both Hi He.
  - run_both Hi He Hc;
      destruct (Dropbox.dropbox_importable w);
      split_on_answers; settle_both Hi He.
Qed.

Lemma dropbox_servers_agree_witness :
  same_run
    (Dropbox.call_tool (fun _ => "0.00") dropbox_world_ok "list_folder"
       {[ "folder_path" := VStr "docs" ]} [])
    (Dropbox.list_folder dropbox_world_ok "docs" []).
Proof.
  destruct (dropbox_servers_agree (fun _ => "0.00") dropbox_world_ok "token"
              {[ "folder_path" := VStr "docs" ]} "docs" "")
    as (_ & H & _).
  - reflexivity.
  - discriminate.
  - reflexivity.
  - reflexivity.
  - apply H. reflexivity.
Defined.

(* ===================================================================== *)
(** * Further properties of the tools that talk to a vendor over HTTP *)
(* ===================================================================== *)

Lemma instagram_config_unset (w : Instagram.world) :
  unset (Instagram.getenv w) "IG_ACCESS_TOKEN" \/ unset (Instagram.getenv w) "IG_PAGE_ID" ->
  exists e, Instagram.get_instagram_config w = Raise e.
Proof.
  unfold unset, Instagram.get_instagram_config.
  intros [[H | H] | [H | H]]; rewrite H.
  1, 2: eexists; reflexivity.
  all: destruct (Instagram.getenv w "IG_ACCESS_TOKEN") as [[| c s] |];
    eexists; reflexivity.
Qed.

Lemma elevenlabs_config_unset (w : ElevenLabs.world) :
  unset (ElevenLabs.getenv w) "ELEVENLABS_API_KEY" ->
  exists e, ElevenLabs.get_elevenlabs_config w = Raise e.
Proof.
  unfold unset, ElevenLabs.get_elevenlabs_config.
  intros [H | H]; rewrite H; eexists; reflexivity.
Qed.

Lemma telegram_config_unset (w : Telegram.world) :
  unset (Telegram.getenv w) "TELEGRAM_BOT_TOKEN" ->
  exists e, Telegram.get_telegram_config w = Raise e.
Proof.
  unfold unset, Telegram.get_telegram_config.
  intros [H | H]; rewrite H; eexists; reflexivity.
Qed.

(** X13: without its credentials a tool sends nothing.  When a variable that
    the tool needs is unset or empty, [post_photo], [generate_speech] and the
    sending tools of the Telegram server issue no HTTP request, whatever the
    logging does and whatever the arguments [a], [b], [c] of the call are. *)
Theorem no_request_without_credentials (repr : json -> string)
    (nonzero : string -> bool) (b64encode : string -> string) (a b c : string) :
  (forall w : Instagram.world,
     unset (Instagram.getenv w) "IG_ACCESS_TOKEN"
     \/ unset (Instagram.getenv w) "IG_PAGE_ID" ->
     http_requests (Instagram.post_photo repr w a b []).1 = [])
  /\ (forall w : ElevenLabs.world,
        unset (ElevenLabs.getenv w) "ELEVENLABS_API_KEY" ->
        http_requests (ElevenLabs.generate_speech repr b64encode w a b c []).1 = [])
  /\ (forall w : Telegram.world,
        unset (Telegram.getenv w) "TELEGRAM_BOT_TOKEN" ->
        http_requests (Telegram.send_message repr nonzero w a b c []).1 = []
        /\ http_requests (Telegram.send_photo repr nonzero w a b c []).1 = []
        /\ http_requests (Telegram.send_document repr nonzero w a b c []).1 = []
        /\ http_requests (Telegram.set_webhook repr nonzero w a []).1 = []).
Proof.
  split; [| split].
  - intros w H. destruct (instagram_config_unset w H) as [e He].
    unfold Instagram.post_photo, Instagram.post_photo_try,
      Instagram.info, Instagram.error.
    cbv [Eff.try_catch Eff.bind Eff.ret Eff.lift Eff.perform]. rewrite He.
    split_on_answers; reflexivity.
  - intros w H. destruct (elevenlabs_config_unset w H) as [e He].
    unfold ElevenLabs.generate_speech, ElevenLabs.generate_speech_try,
      ElevenLabs.info, ElevenLabs.error.
    cbv [Eff.try_catch Eff.bind Eff.ret Eff.lift Eff.perform]. rewrite He.
    split_on_answers; reflexivity.
  - intros w H. destruct (telegram_config_unset w H) as [e He].
    repeat split.
    all: unfold Telegram.send_message, Telegram.send_photo, Telegram.send_document,
      Telegram.set_webhook, Telegram.report, Telegram.info, Telegram.error.
    all: cbv [Eff.try_catch Eff.bind Eff.ret Eff.lift Eff.perform]; rewrite He.
    all: split_on_answers; reflexivity.
Qed.

Lemma no_request_without_credentials_witness :
  http_requests
    (Instagram.post_photo no_repr instagram_no_credentials
       "https://example.org/a.jpg" "hello" []).1 = [].
Proof.
  destruct (no_request_without_credentials no_repr (fun _ => true) no_b64
              "https://example.org/a.jpg" "hello" "") as [H _].
  apply H. left. left. reflexivity.
Defined.

(** X14: [post_photo] reports success exactly when Instagram accepted both
    steps.  An answer that starts with "Photo posted successfully!" means
    that two requests were sent, the create request and then the publish
    request with the identifier of the created media, that both were
    answered with the status 200, and that the identifier in the answer is
    the [id] of the publish reply.  Conversely, when the logging works, two
    such replies always give that answer. *)
Theorem post_photo_success_means_published (repr : json -> string)
    (w : Instagram.world) (image_url caption : string) :
  let published_with (access_token page_id : string) (media_id post_id : json) :=
    Instagram.get_instagram_config w = Return (access_token, page_id)
    /\ exists (media_reply publish_reply : response) (media_data publish_data : json),
         Instagram.requests_post w (Instagram.media_url page_id)
           [ ("image_url", JStr image_url); ("caption", JStr caption);
             ("access_token", JStr access_token) ] = Return media_reply
         /\ status_code media_reply = 200
         /\ resp_json media_reply = Return media_data
         /\ json_item media_data "id" = Return media_id
         /\ Instagram.requests_post w (Instagram.publish_url page_id)
              [ ("creation_id", media_id); ("access_token", JStr access_token) ]
            = Return publish_reply
         /\ status_code publish_reply = 200
         /\ resp_json publish_reply = Return publish_data
         /\ json_item publish_data "id" = Return post_id in
  (forall (t : list event) (answer : string),
     Instagram.post_photo repr w image_url caption [] = (t, Return answer) ->
     startswith "Photo posted successfully!" answer = true ->
     exists (access_token page_id : string) (media_id post_id : json),
       published_with access_token page_id media_id post_id
       /\ answer = "Photo posted successfully! Post ID: " +:+ json_str repr post_id
       /\ http_requests t = [Instagram.media_url page_id; Instagram.publish_url page_id])
  /\ (forall (access_token page_id : string) (media_id post_id : json),
        (forall msg, Instagram.ctx_info w msg = Return tt) ->
        published_with access_token page_id media_id post_id ->
        (Instagram.post_photo repr w image_url caption []).2
        = Return ("Photo posted successfully! Post ID: " +:+ json_str repr post_id)).
Proof.
  intros published_with. subst published_with. cbv beta. split.
  - intros t answer.
    unfold Instagram.post_photo, Instagram.post_photo_try, Instagram.error_message,
      Instagram.info, Instagram.error.
    cbv [Eff.try_catch Eff.bind Eff.ret Eff.lift Eff.perform].
    destruct (Instagram.get_instagram_config w) as [[access_token page_id] | e0] eqn:Ec.
    2: { split_on_answers; intros [= <- <-] Hs; cbn in Hs; discriminate Hs. }
    cbn [fst snd].
    split_on_answers; intros [= <- <-] Hs; try (cbn in Hs; discriminate Hs).
    exists access_token, page_id.
    repeat match goal with
           | H : negb (_ =? 200) = false |- _ =>
               apply negb_false_iff, Z.eqb_eq in H
           end.
    do 2 eexists. split; [| split; reflexivity].
    split; [reflexivity |]. do 4 eexists. repeat split; eassumption.
  - intros access_token page_id media_id post_id Hi
      (Hc & mr & pr & md & pd & H1 & H2 & H3 & H4 & H5 & H6 & H7 & H8).
    unfold Instagram.post_photo, Instagram.post_photo_try, Instagram.info,
      Instagram.error.
    cbv [Eff.try_catch Eff.bind Eff.ret Eff.lift Eff.perform].
    rewrite Hi, Hc. cbn [fst snd]. rewrite H1, H3, H2. cbn [Z.eqb Pos.eqb negb].
    rewrite H4, H5, H7, H6. cbn [Z.eqb Pos.eqb negb]. rewrite H8, Hi. reflexivity.
Qed.

Lemma post_photo_success_means_published_witness :
  (Instagram.post_photo no_repr instagram_accepts "https://example.org/a.jpg" "hello"
     []).2
  = Return ("Photo posted successfully! Post ID: " +:+ json_str no_repr (JStr "9000")).
Proof.
  destruct (post_photo_success_means_published no_repr instagram_accepts
              "https://example.org/a.jpg" "hello") as [_ H].
  apply (H "token" "1789" (JStr "4242") (JStr "9000")).
  - reflexivity.
  - split; [reflexivity |].
    exists (mk_response 200 "" (Return (JDict [("id", JStr "4242")]))),
           (mk_response 200 "" (Return (JDict [("id", JStr "9000")]))),
           (JDict [("id", JStr "4242")]), (JDict [("id", JStr "9000")]).
    repeat split; reflexivity.
Defined.

(** X15: what [generate_speech] answers when the vendor refuses (a status
    other than 200), in a run in which the key is set and the logging works.
    An empty body gives "Unknown error"; a JSON body whose [detail] is an
    object gives its [message]; a body whose [detail] is a string, which has
    no [get], ends in the [except] clause and the caller reads the text of
    the [AttributeError] instead of the vendor's words. *)
Theorem generate_speech_error_replies (repr : json -> string)
    (b64encode : string -> string) (w : ElevenLabs.world)
    (text voice_id model_id api_key : string) (reply : response) :
  ElevenLabs.get_elevenlabs_config w = Return api_key ->
  (forall msg, ElevenLabs.ctx_info w msg = Return tt) ->
  (forall msg, ElevenLabs.ctx_error w msg = Return tt) ->
  (forall url data, ElevenLabs.requests_post w url data = Return reply) ->
  status_code reply <> 200 ->
  let answer := (ElevenLabs.generate_speech repr b64encode w text voice_id model_id []).2 in
  (content reply = "" -> answer = Return "Failed to generate speech: Unknown error")
  /\ (forall (items detail : list (string * json)) (message : string),
        content reply <> "" ->
        resp_json reply = Return (JDict items) ->
        assoc "detail" items = Some (JDict detail) ->
        assoc "message" detail = Some (JStr message) ->
        answer = Return ("Failed to generate speech: " +:+ message))
  /\ (forall (items : list (string * json)) (detail : string),
        content reply <> "" ->
        resp_json reply = Return (JDict items) ->
        assoc "detail" items = Some (JStr detail) ->
        answer
        = Return "Failed to generate speech: 'str' object has no attribute 'get'").
Proof.
  intros Hk Hi He Hp Hs answer. subst answer.
  unfold ElevenLabs.generate_speech, ElevenLabs.generate_speech_try,
    ElevenLabs.info, ElevenLabs.error.
  cbv [Eff.try_catch Eff.bind Eff.ret Eff.lift Eff.perform].
  rewrite Hi, Hk, Hp.
  destruct (Z.eqb_spec (status_code reply) 200) as [E | _]; [contradiction |].
  split; [| split].
  - intros ->. cbn [json_get assoc]. rewrite He. reflexivity.
  - intros items detail message Hc Hj Hd Hm.
    destruct (content reply) as [| ch rest]; [contradiction |].
    rewrite Hj, He. cbn [json_get]. rewrite Hd. cbn [json_get]. rewrite Hm.
    reflexivity.
  - intros items detail Hc Hj Hd.
    destruct (content reply) as [| ch rest]; [contradiction |].
    rewrite Hj, He. cbn [json_get]. rewrite Hd. cbn [json_get json_type_name].
    rewrite He. reflexivity.
Qed.

Lemma generate_speech_error_replies_witness :
  (ElevenLabs.generate_speech no_repr no_b64 elevenlabs_refuses
     "Hello" "voice-1" "eleven_monolingual_v1" []).2
  = Return "Failed to generate speech: 'str' object has no attribute 'get'".
Proof.
  destruct (generate_speech_error_replies no_repr no_b64 elevenlabs_refuses
              "Hello" "voice-1" "eleven_monolingual_v1" "key"
              (mk_response 422 "{...}"
                 (Return (JDict [("detail", JStr "Invalid voice")]))))
    as (_ & _ & H).
  - reflexivity.
  - reflexivity.
  - reflexivity.
  - reflexivity.
  - vm_compute. discriminate.
  - apply (H [("detail", JStr "Invalid voice")] "Invalid voice").
    + vm_compute. discriminate.
    + reflexivity.
    + reflexivity.
Defined.

(** X16: [send_message] reports success exactly when Telegram accepted the
    message.  An answer that starts with "Message sent successfully!" means
    that the one request went to the [sendMessage] URL of the bot, that the
    reply had the status 200 and a true [ok], and that the identifier in the
    answer is [result.message_id] of that reply.  Conversely, when the
    logging works, such a reply always gives that answer. *)
Theorem send_message_success_means_accepted (repr : json -> string)
    (nonzero : string -> bool) (w : Telegram.world)
    (chat_id text parse_mode : string) :
  let payload := [ ("chat_id", JStr chat_id); ("text", JStr text);
                   ("parse_mode", JStr parse_mode) ] in
  let accepted_with (bot_token : string) (reply : response) (message_id : json) :=
    Telegram.get_telegram_config w = Return bot_token
    /\ Telegram.requests_post w (Telegram.get_telegram_api_url bot_token "sendMessage")
         payload = Return reply
    /\ status_code reply = 200
    /\ exists data ok : json,
         resp_json reply = Return data
         /\ json_get data "ok" JNull = Return ok
         /\ truthy nonzero ok = true
         /\ Telegram.result_message_id data = Return message_id in
  (forall (t : list event) (answer : string),
     Telegram.send_message repr nonzero w chat_id text parse_mode [] = (t, Return answer) ->
     startswith "Message sent successfully!" answer = true ->
     exists (bot_token : string) (reply : response) (message_id : json),
       accepted_with bot_token reply message_id
       /\ answer = "Message sent successfully! Message ID: " +:+ json_str repr message_id
       /\ http_requests t = [Telegram.get_telegram_api_url bot_token "sendMessage"])
  /\ (forall (bot_token : string) (reply : response) (message_id : json),
        (forall msg, Telegram.ctx_info w msg = Return tt) ->
        accepted_with bot_token reply message_id ->
        (Telegram.send_message repr nonzero w chat_id text parse_mode []).2
        = Return ("Message sent successfully! Message ID: "
                  +:+ json_str repr message_id)).
Proof.
  intros payload accepted_with. subst accepted_with. cbv beta. split.
  - intros t answer.
    unfold Telegram.send_message, Telegram.report, Telegram.accepted,
      Telegram.info, Telegram.error.
    cbv [Eff.try_catch Eff.bind Eff.ret Eff.lift Eff.perform]. fold payload.
    destruct (Telegram.ctx_info w ("Sending message to chat " +:+ chat_id)) as [[] | e0].
    2: { destruct (Telegram.ctx_error w _) as [[] | e1]; [| discriminate].
         intros [= <- <-]. cbn. discriminate. }
    destruct (Telegram.get_telegram_config w) as [bot_token | e0].
    2: { destruct (Telegram.ctx_error w _) as [[] | e1]; [| discriminate].
         intros [= <- <-]. cbn. discriminate. }
    destruct (Telegram.requests_post w _ payload) as [reply | e0] eqn:Ep.
    2: { destruct (Telegram.ctx_error w _) as [[] | e1]; [| discriminate].
         intros [= <- <-]. cbn. discriminate. }
    destruct (resp_json reply) as [data | e0] eqn:Ej.
    2: { destruct (Telegram.ctx_error w _) as [[] | e1]; [| discriminate].
         intros [= <- <-]. cbn. discriminate. }
    destruct (Z.eqb_spec (status_code reply) 200) as [Es | Es].
    2: { cbn [bind].
         destruct (Telegram.ctx_error w _) as [[] | e1].
         - destruct (json_get data "description" _) as [d | e2].
           + intros [= <- <-]. cbn. discriminate.
           + destruct (Telegram.ctx_error w _) as [[] | e3]; [| discriminate].
             intros [= <- <-]. cbn. discriminate.
         - destruct (Telegram.ctx_error w _) as [[] | e3]; [| discriminate].
           intros [= <- <-]. cbn. discriminate. }
    destruct (json_get data "ok" JNull) as [ok | e0] eqn:Eok; cbn [bind].
    2: { destruct (Telegram.ctx_error w _) as [[] | e1]; [| discriminate].
         intros [= <- <-]. cbn. discriminate. }
    destruct (truthy nonzero ok) eqn:Et.
    2: { destruct (Telegram.ctx_error w _) as [[] | e1].
         - destruct (json_get data "description" _) as [d | e2].
           + intros [= <- <-]. cbn. discriminate.
           + destruct (Telegram.ctx_error w _) as [[] | e3]; [| discriminate].
             intros [= <- <-]. cbn. discriminate.
         - destruct (Telegram.ctx_error w _) as [[] | e3]; [| discriminate].
           intros [= <- <-]. cbn. discriminate. }
    destruct (Telegram.result_message_id data) as [message_id | e0] eqn:Em.
    2: { destruct (Telegram.ctx_error w _) as [[] | e1]; [| discriminate].
         intros [= <- <-]. cbn. discriminate. }
    destruct (Telegram.ctx_info w _) as [[] | e0].
    2: { destruct (Telegram.ctx_error w _) as [[] | e1]; [| discriminate].
         intros [= <- <-]. cbn. discriminate. }
    intros [= <- <-] _.
    exists bot_token, reply, message_id.
    split; [| split; reflexivity].
    split; [reflexivity |]. split; [exact Ep |]. split; [exact Es |].
    exists data, ok. repeat split; assumption.
  - intros bot_token reply message_id Hi (Hc & Hp & Hs & data & ok & Hj & Hok & Ht & Hm).
    unfold Telegram.send_message, Telegram.report, Telegram.accepted,
      Telegram.info, Telegram.error.
    cbv [Eff.try_catch Eff.bind Eff.ret Eff.lift Eff.perform]. fold payload.
    rewrite Hi, Hc, Hp, Hj, Hs. cbn [Z.eqb Pos.eqb]. rewrite Hok. cbn [bind].
    rewrite Ht, Hm, Hi. reflexivity.
Qed.

Lemma send_message_success_means_accepted_witness :
  (Telegram.send_message no_repr (fun _ => true)
     (telegram_world
        (mk_response 200 ""
           (Return (JDict [("ok", JBool true);
                           ("result", JDict [("message_id", JInt 42)])]))))
     "1001" "hello" "HTML" []).2
  = Return ("Message sent successfully! Message ID: " +:+ json_str no_repr (JInt 42)).
Proof.
  destruct (send_message_success_means_accepted no_repr (fun _ => true)
              (telegram_world
                 (mk_response 200 ""
                    (Return (JDict [("ok", JBool true);
                                    ("result", JDict [("message_id", JInt 42)])]))))
              "1001" "hello" "HTML") as [_ H].
  apply (H "12345:abcde"
           (mk_response 200 ""
              (Return (JDict [("ok", JBool true);
                              ("result", JDict [("message_id", JInt 42)])])))
           (JInt 42)).
  - reflexivity.
  - split; [reflexivity |]. split; [reflexivity |]. split; [reflexivity |].
    exists (JDict [("ok", JBool true); ("result", JDict [("message_id", JInt 42)])]),
           (JBool true).
    repeat split; reflexivity.
Defined.

(** X17: each sending tool of the Telegram server issues exactly one request
    per call, to the URL of its own Bot API method, whatever Telegram
    answers and whether or not the request itself fails: nothing is sent
    twice.  (The bot token is set and the first [ctx.info] returns.) *)
Theorem telegram_tools_send_one_request (repr : json -> string)
    (nonzero : string -> bool) (w : Telegram.world) (bot_token a b c : string) :
  Telegram.get_telegram_config w = Return bot_token ->
  (forall msg, Telegram.ctx_info w msg = Return tt) ->
  http_requests (Telegram.send_message repr nonzero w a b c []).1
  = [Telegram.get_telegram_api_url bot_token "sendMessage"]
  /\ http_requests (Telegram.send_photo repr nonzero w a b c []).1
     = [Telegram.get_telegram_api_url bot_token "sendPhoto"]
  /\ http_requests (Telegram.send_document repr nonzero w a b c []).1
     = [Telegram.get_telegram_api_url bot_token "sendDocument"]
  /\ http_requests (Telegram.set_webhook repr nonzero w a []).1
     = [Telegram.get_telegram_api_url bot_token "setWebhook"].
Proof.
  intros Hc Hi. repeat split.
  all: unfold Telegram.send_message, Telegram.send_photo, Telegram.send_document,
    Telegram.set_webhook, Telegram.report, Telegram.info, Telegram.error.
  all: cbv [Eff.try_catch Eff.bind Eff.ret Eff.lift Eff.perform]; rewrite !Hi, Hc.
  all: split_on_answers; reflexivity.
Qed.

Lemma telegram_tools_send_one_request_witness :
  http_requests
    (Telegram.set_webhook no_repr (fun _ => true)
       (telegram_world (mk_response 401 "" (Return (JDict [("ok", JBool false)]))))
       "https://example.org/hook" []).1
  = ["https://api.telegram.org/bot12345:abcde/setWebhook"].
Proof.
  destruct (telegram_tools_send_one_request no_repr (fun _ => true)
              (telegram_world (mk_response 401 "" (Return (JDict [("ok", JBool false)]))))
              "12345:abcde" "https://example.org/hook" "" "") as (_ & _ & _ & H).
  - reflexivity.
  - reflexivity.
  - exact H.
Defined.

(** ** The resources that show a masked credential *)

Lemma substring_all (s : string) (n : nat) :
  (String.length s <= n)%nat -> String.substring 0 n s = s.
Proof.
  revert n. induction s as [| c s IH]; intros [| n] H; cbn in *;
    try reflexivity; try lia.
  rewrite IH by lia. reflexivity.
Qed.

Lemma substring_skip (hidden shown : string) (n : nat) :
  String.substring (String.length hidden) n (hidden +:+ shown)
  = String.substring 0 n shown.
Proof.
  induction hidden as [| c hidden IH]; [reflexivity |].
  change (String.substring (String.length hidden) n (hidden +:+ shown)
          = String.substring 0 n shown).
  exact IH.
Qed.

Lemma length_append (a b : string) :
  String.length (a +:+ b) = (String.length a + String.length b)%nat.
Proof.
  induction a as [| c a IH]; [reflexivity |].
  change (S (String.length (a +:+ b)) = S (String.length a + String.length b)).
  rewrite IH. reflexivity.
Qed.

Lemma tail_chars_short (n : nat) (s : string) :
  (String.length s <= n)%nat -> tail_chars n s = s.
Proof.
  intros H. unfold tail_chars.
  replace (String.length s - n)%nat with 0%nat by lia.
  apply substring_all. exact H.
Qed.

Lemma tail_chars_app (n : nat) (hidden shown : string) :
  String.length shown = n -> tail_chars n (hidden +:+ shown) = shown.
Proof.
  intros H. unfold tail_chars. rewrite length_append.
  replace (String.length hidden + String.length shown - n)%nat
    with (String.length hidden) by lia.
  rewrite substring_skip. apply substring_all. lia.
Qed.

Lemma append_not_empty (hidden shown : string) :
  String.length shown = 10%nat -> hidden +:+ shown <> "".
Proof.
  intros H E. apply (f_equal String.length) in E. rewrite length_append in E.
  cbn in E. lia.
Qed.

(** X18: the account resources of the ElevenLabs, Telegram and TikTok
    servers print ten stars and then the last ten characters of the
    credential, for a credential of ASCII characters.  What comes before the
    last ten characters does not reach the text; a credential of ten
    characters or fewer is printed in full. *)
Theorem masked_resources_show_the_last_ten (getenv : string -> option string)
    (ctx : string -> outcome unit)
    (post : string -> list (string * json) -> outcome response) (key : string) :
  isascii key = true ->
  getenv "ELEVENLABS_API_KEY" = Some key ->
  getenv "TELEGRAM_BOT_TOKEN" = Some key ->
  getenv "TIKTOK_ACCESS_TOKEN" = Some key ->
  key <> "" ->
  let elevenlabs :=
    ElevenLabs.get_elevenlabs_account (ElevenLabs.mk_world getenv post ctx ctx) in
  let telegram := Telegram.get_telegram_bot (Telegram.mk_world getenv post ctx ctx) in
  let tiktok := TikTok.get_tiktok_account getenv in
  (forall hidden shown : string,
     key = hidden +:+ shown -> String.length shown = 10%nat ->
     elevenlabs = "ElevenLabs API Key: **********" +:+ shown
     /\ telegram = "Telegram Bot Token: **********" +:+ shown
     /\ tiktok = "TikTok Account Token: **********" +:+ shown)
  /\ ((String.length key <= 10)%nat ->
      elevenlabs = "ElevenLabs API Key: **********" +:+ key
      /\ telegram = "Telegram Bot Token: **********" +:+ key
      /\ tiktok = "TikTok Account Token: **********" +:+ key).
Proof.
  intros _ He Ht Hk Hne elevenlabs telegram tiktok.
  subst elevenlabs telegram tiktok.
  unfold ElevenLabs.get_elevenlabs_account, ElevenLabs.get_elevenlabs_config,
    Telegram.get_telegram_bot, Telegram.get_telegram_config,
    TikTok.get_tiktok_account, TikTok.get_tiktok_config.
  cbn [ElevenLabs.getenv Telegram.getenv]. rewrite He, Ht, Hk.
  destruct key as [| ch key']; [contradiction |].
  split.
  - intros hidden shown E Hlen. rewrite E, (tail_chars_app 10 hidden shown Hlen).
    repeat split; reflexivity.
  - intros Hlen. rewrite (tail_chars_short 10 _ Hlen). repeat split; reflexivity.
Qed.

Lemma masked_resources_show_the_last_ten_witness :
  (ElevenLabs.get_elevenlabs_account
     (ElevenLabs.mk_world (fun _ => Some "sk_0123456789abcdef") (fun _ _ => timed_out)
        (fun _ => Return tt) (fun _ => Return tt))
   = "ElevenLabs API Key: **********6789abcdef"
   /\ Telegram.get_telegram_bot
        (Telegram.mk_world (fun _ => Some "sk_0123456789abcdef") (fun _ _ => timed_out)
           (fun _ => Return tt) (fun _ => Return tt))
      = "Telegram Bot Token: **********6789abcdef"
   /\ TikTok.get_tiktok_account (fun _ => Some "sk_0123456789abcdef")
      = "TikTok Account Token: **********6789abcdef")
  /\ TikTok.get_tiktok_account (fun _ => Some "act.1234")
     = "TikTok Account Token: **********act.1234".
Proof.
  split.
  - destruct (masked_resources_show_the_last_ten (fun _ => Some "sk_0123456789abcdef")
                (fun _ => Return tt) (fun _ _ => timed_out) "sk_0123456789abcdef")
      as [H _].
    + vm_compute. reflexivity.
    + reflexivity.
    + reflexivity.
    + reflexivity.
    + discriminate.
    + apply (H "sk_012345" "6789abcdef"); reflexivity.
  - destruct (masked_resources_show_the_last_ten (fun _ => Some "act.1234")
                (fun _ => Return tt) (fun _ _ => timed_out) "act.1234")
      as [_ H].
    + vm_compute. reflexivity.
    + reflexivity.
    + reflexivity.
    + reflexivity.
    + discriminate.
    + apply H. vm_compute. lia.
Defined.

(* ===================================================================== *)
(** * Further properties of the PDF tools *)
(* ===================================================================== *)

Lemma disk_snoc (t : list event) (e : event) :
  Pdf.disk (t ++ [e])
  = match e with
    | TempFile p => {[ p ]} ∪ Pdf.disk t
    | Unlink p => Pdf.disk t ∖ {[ p ]}
    | _ => Pdf.disk t
    end.
Proof. unfold Pdf.disk. rewrite foldl_app. reflexivity. Qed.

Lemma disk_nil : Pdf.disk [] = ∅.
Proof. reflexivity. Qed.

(** A goal that assumes a failed write, in a world where writes succeed. *)
Ltac write_failed Hw :=
  exfalso; destruct Hw as (Hw1 & Hw2 & Hw3);
  match goal with
  | H : Pdf.temp_write _ _ _ = Raise _ |- _ => exact (Hw1 _ _ _ H)
  | H : Pdf.writer_write _ _ _ = Raise _ |- _ => exact (Hw2 _ _ _ H)
  | H : Pdf.read_file _ _ = Raise _ |- _ => exact (Hw3 _ _ H)
  end.

(** Turn the tests [path ∈ disk t] that a run went through into facts
    about sets, and keep nothing else. *)
Ltac disk_facts :=
  cbn [fst] in *;
  repeat match goal with
         | H : bool_decide _ = true |- _ => apply bool_decide_eq_true in H
         | H : bool_decide _ = false |- _ => apply bool_decide_eq_false in H
         end;
  rewrite ?disk_snoc, ?disk_nil in *;
  repeat match goal with
         | H : ?T |- _ =>
             lazymatch T with
             | _ ∉ _ => fail
             | _ ∈ _ => fail
             | _ ⊆ _ => fail
             | _ => clear H
             end
         end.

(** A goal that assumes that a file just created is not there. *)
Ltac file_is_there :=
  match goal with
  | H : ?p ∉ ?D |- _ =>
      match D with context [ {[ p ]} ] => exfalso; apply H; set_solver end
  end.

(** X19: [split_pdf_pages] and [extract_text_from_pdf] leave no temporary
    file behind as long as the file writes themselves succeed: whatever the
    download, the reader, the text extraction, the page range and the logging
    do, the disk is empty when the tool returns. *)
Theorem temporary_files_are_removed (b64encode : string -> string)
    (extract_text : Pdf.page -> outcome string) (w : Pdf.world) (pdf_url : string)
    (start_page end_page : Z) :
  file_writes_succeed w ->
  Pdf.disk (Pdf.split_pdf_pages b64encode w pdf_url start_page end_page []).1 = ∅
  /\ Pdf.disk (Pdf.extract_text_from_pdf w extract_text pdf_url []).1 = ∅.
Proof.
  intros Hw. split.
  - unfold Pdf.split_pdf_pages, Pdf.split_pdf_pages_try, Pdf.info, Pdf.error,
      Pdf.with_temp_file, Pdf.unlink.
    run_eff.
    all: try write_failed Hw.
    all: disk_facts; try file_is_there.
    all: set_solver.
  - unfold Pdf.extract_text_from_pdf, Pdf.extract_text_from_pdf_try, Pdf.info,
      Pdf.error, Pdf.with_temp_file, Pdf.unlink.
    run_eff.
    all: try write_failed Hw.
    all: disk_facts; try file_is_there.
    all: set_solver.
Qed.

Lemma temporary_files_are_removed_witness :
  Pdf.disk (Pdf.split_pdf_pages no_b64 pdf_world_unreadable
              "https://example.org/doc.pdf" 1 2 []).1 = ∅
  /\ Pdf.disk (Pdf.extract_text_from_pdf pdf_world_unreadable page_text
                 "https://example.org/doc.pdf" []).1 = ∅.
Proof.
  apply (temporary_files_are_removed no_b64 page_text pdf_world_unreadable
           "https://example.org/doc.pdf" 1 2).
  repeat split; discriminate.
Defined.
Lemma written_pages_snoc (t : list event) (e : event) :
  Pdf.written_pages (t ++ [e])
  = (Pdf.written_pages t
     ++ match e with PdfWrite _ pages => [pages] | _ => [] end)%list.
Proof.
  unfold Pdf.written_pages. rewrite omap_app. f_equal.
  destruct e; reflexivity.
Qed.

Lemma remove_temp_files_spec (temp_files : list string) (t : list event) :
  exists t' : list event,
    Pdf.remove_temp_files temp_files t = (t', Return tt)
    /\ Pdf.disk t' = Pdf.disk t ∖ list_to_set temp_files
    /\ Pdf.written_pages t' = Pdf.written_pages t.
Proof.
  revert t. induction temp_files as [| p rest IH]; intros t.
  - exists t. split; [reflexivity |]. split; [| reflexivity].
    cbn. set_solver.
  - cbn [Pdf.remove_temp_files]. unfold Eff.bind, Pdf.unlink.
    destruct (bool_decide (p ∈ Pdf.disk t)) eqn:E.
    + destruct (IH (t ++ [Unlink p])%list) as (t' & H1 & H2 & H3).
      exists t'. split; [exact H1 |]. split.
      * rewrite H2, disk_snoc. cbn [list_to_set]. set_solver.
      * rewrite H3, written_pages_snoc, app_nil_r. reflexivity.
    + destruct (IH t) as (t' & H1 & H2 & H3).
      exists t'. split; [exact H1 |]. split; [| exact H3].
      apply bool_decide_eq_false in E. rewrite H2. cbn [list_to_set]. set_solver.
Qed.

(** The loop of [merge_pdfs] keeps the name of every file it creates. *)
Lemma merge_loop_keeps_names (w : Pdf.world) (n : Z) (pdf_urls : list string) :
  (forall path data e, Pdf.temp_write w path data <> Raise e) ->
  forall (i : Z) (pdf_writer : list Pdf.page) (s s' : list event * list string)
         (r : outcome (string + list Pdf.page)),
    Pdf.merge_loop w n i pdf_urls pdf_writer s = (s', r) ->
    Pdf.disk s.1 ⊆ list_to_set s.2 ->
    Pdf.disk s'.1 ⊆ list_to_set s'.2.
Proof.
  intros Hw. induction pdf_urls as [| pdf_url rest IH]; intros i pdf_writer [t fs] s' r.
  - intros [= <- <-]. exact id.
  - cbn [Pdf.merge_loop].
    unfold Pdf.local, Pdf.temp_files_append, Pdf.info, Pdf.with_temp_file.
    cbv [Eff.bind Eff.ret Eff.lift Eff.perform]. cbn [fst snd].
    repeat match goal with
           | |- context [ match ?x with _ => _ end ] =>
               lazymatch x with
               | context [ match _ with _ => _ end ] => fail
               | _ => destruct x eqn:?
               end
           end.
    all: try (exfalso; eapply Hw; eassumption).
    all: try (intros [= <- <-]; cbn [fst snd]; intros Hs;
              rewrite ?disk_snoc; rewrite ?list_to_set_app_L; cbn [list_to_set];
              set_solver).
    cbn [fst snd]. intros H Hs. apply (IH _ _ _ _ _ H). cbn [fst snd].
    rewrite !disk_snoc, list_to_set_app_L. cbn [list_to_set]. set_solver.
Qed.

(** The loop writes nothing, and when it runs to its end the writer holds
    the pages of the documents of all URLs, in the order of the URLs. *)
Lemma merge_loop_pages (w : Pdf.world) (n : Z) (pdf_urls : list string) :
  forall (i : Z) (pdf_writer : list Pdf.page) (s s' : list event * list string)
         (r : outcome (string + list Pdf.page)),
    Pdf.merge_loop w n i pdf_urls pdf_writer s = (s', r) ->
    Pdf.written_pages s'.1 = Pdf.written_pages s.1
    /\ forall merged : list Pdf.page,
         r = Return (inr merged) ->
         exists docs : list (list Pdf.page),
           Forall2 (downloaded w) pdf_urls docs
           /\ merged = (pdf_writer ++ concat docs)%list.
Proof.
  induction pdf_urls as [| pdf_url rest IH]; intros i pdf_writer [t fs] s' r.
  - intros [= <- <-]. split; [reflexivity |]. intros merged [= <-].
    exists []. split; [constructor |]. cbn. rewrite app_nil_r. reflexivity.
  - cbn [Pdf.merge_loop].
    unfold Pdf.local, Pdf.temp_files_append, Pdf.info, Pdf.with_temp_file.
    cbv [Eff.bind Eff.ret Eff.lift Eff.perform]. cbn [fst snd].
    repeat match goal with
           | |- context [ match ?x with _ => _ end ] =>
               lazymatch x with
               | context [ match _ with _ => _ end ] => fail
               | _ => destruct x eqn:?
               end
           end.
    all: try (intros [= <- <-]; cbn [fst snd];
              rewrite ?written_pages_snoc, ?app_nil_r;
              split; [reflexivity | intros merged; discriminate]).
    cbn [fst snd]. intros H. destruct (IH _ _ _ _ _ H) as [H1 H2]. cbn [fst snd] in H1.
    split.
    + rewrite H1, !written_pages_snoc, !app_nil_r. reflexivity.
    + intros merged Hr. destruct (H2 merged Hr) as (docs & Hd & ->).
      exists (a3 :: docs). split.
      * constructor; [| exact Hd].
        exists a0, a1. destruct a2.
        apply negb_false_iff, Z.eqb_eq in Heqb. repeat split; assumption.
      * cbn [concat]. rewrite app_assoc. reflexivity.
Qed.

Lemma merge_body_keeps_names (b64encode : string -> string) (w : Pdf.world)
    (pdf_urls : list string) (s s' : list event * list string) (r : outcome string) :
  file_writes_succeed w ->
  Pdf.merge_pdfs_body b64encode w pdf_urls s = (s', r) ->
  Pdf.disk s.1 ⊆ list_to_set s.2 ->
  Pdf.disk s'.1 ⊆ list_to_set s'.2.
Proof.
  intros Hw. unfold Pdf.merge_pdfs_body. cbv zeta. unfold Eff.bind at 1.
  destruct (Pdf.merge_loop w _ 0 pdf_urls [] s) as [[t1 fs1] r1] eqn:E.
  intros H Hs.
  pose proof (merge_loop_keeps_names w _ pdf_urls (proj1 Hw) _ _ _ _ _ E Hs) as H1.
  cbn [fst snd] in H1. clear E Hs. revert H.
  destruct r1 as [[result | pdf_writer] | e].
  - intros [= <- <-]. exact H1.
  - unfold Pdf.local, Pdf.info, Pdf.with_temp_file, Pdf.unlink.
    cbv [Eff.bind Eff.ret Eff.lift Eff.perform]. cbn [fst snd].
    repeat match goal with
           | |- context [ match ?x with _ => _ end ] =>
               lazymatch x with
               | context [ match _ with _ => _ end ] => fail
               | _ => destruct x eqn:?
               end
           end.
    all: try write_failed Hw.
    all: intros [= <- <-]; cbn [fst snd]; clear Hw.
    all: disk_facts.
    all: try file_is_there.
    all: set_solver.
  - intros [= <- <-]. exact H1.
Qed.

(** X20: [merge_pdfs] removes every temporary file it creates, as long as
    the file writes succeed.  When a download is refused in the middle of
    the list, when the reader fails on one of the documents, when the
    logging fails: the files saved so far are removed, and the disk is
    empty when the tool returns. *)
Theorem merge_pdfs_removes_its_files (b64encode : string -> string) (w : Pdf.world)
    (pdf_urls : list string) :
  file_writes_succeed w ->
  Pdf.disk (Pdf.merge_pdfs b64encode w pdf_urls []).1 = ∅.
Proof.
  intros Hw. unfold Pdf.merge_pdfs, Pdf.merge_pdfs_try, Pdf.info, Pdf.error.
  cbv [Eff.try_catch Eff.bind Eff.ret Eff.lift Eff.perform]. cbn [app].
  destruct (Pdf.ctx_info w _) as [[] | e0].
  2: { destruct (Pdf.ctx_error w _); reflexivity. }
  destruct (Pdf.pdf_libraries w) as [[] | e0].
  2: { destruct (Pdf.ctx_error w _); reflexivity. }
  unfold Eff.try_finally.
  destruct (Pdf.merge_pdfs_body b64encode w pdf_urls _) as [[t1 fs1] r1] eqn:E.
  apply (merge_body_keeps_names _ _ _ _ _ _ Hw) in E; [| cbn; set_solver].
  cbn [fst snd] in E. unfold Pdf.local. cbn [fst snd].
  destruct (remove_temp_files_spec fs1 t1) as (t2 & -> & Hd & _).
  cbn [fst snd].
  assert (H2 : Pdf.disk t2 = ∅) by (rewrite Hd; set_solver).
  destruct r1 as [result | e1]; cbn [fst]; [exact H2 |].
  destruct (Pdf.ctx_error w _); cbn [fst]; rewrite disk_snoc; exact H2.
Qed.

Lemma merge_pdfs_removes_its_files_witness :
  Pdf.disk
    (Pdf.merge_pdfs no_b64 pdf_world_unreadable
       ["https://example.org/a.pdf"; "https://example.org/b.pdf"] []).1 = ∅.
Proof.
  apply (merge_pdfs_removes_its_files no_b64 pdf_world_unreadable
           ["https://example.org/a.pdf"; "https://example.org/b.pdf"]).
  repeat split; discriminate.
Defined.

Lemma merge_body_pages (b64encode : string -> string) (w : Pdf.world)
    (pdf_urls : list string) (s s' : list event * list string) (r : outcome string) :
  Pdf.merge_pdfs_body b64encode w pdf_urls s = (s', r) ->
  Pdf.written_pages s'.1 = Pdf.written_pages s.1
  \/ exists docs : list (list Pdf.page),
       Forall2 (downloaded w) pdf_urls docs
       /\ Pdf.written_pages s'.1 = (Pdf.written_pages s.1 ++ [concat docs])%list.
Proof.
  unfold Pdf.merge_pdfs_body. cbv zeta. unfold Eff.bind at 1.
  destruct (Pdf.merge_loop w _ 0 pdf_urls [] s) as [[t1 fs1] r1] eqn:E.
  destruct (merge_loop_pages w _ pdf_urls _ _ _ _ _ E) as [H1 H2].
  cbn [fst snd] in H1. clear E.
  destruct r1 as [[result | pdf_writer] | e].
  - intros [= <- <-]. left. exact H1.
  - destruct (H2 pdf_writer eq_refl) as (docs & Hd & ->). clear H2.
    unfold Pdf.local, Pdf.info, Pdf.with_temp_file, Pdf.unlink.
    cbv [Eff.bind Eff.ret Eff.lift Eff.perform]. cbn [fst snd].
    repeat match goal with
           | |- context [ match ?x with _ => _ end ] =>
               lazymatch x with
               | context [ match _ with _ => _ end ] => fail
               | _ => destruct x eqn:?
               end
           end.
    all: intros [= <- <-]; cbn [fst snd].
    all: rewrite ?written_pages_snoc, ?app_nil_r, H1.
    all: first [ left; reflexivity
               | right; exists docs; split; [exact Hd | reflexivity] ].
  - intros [= <- <-]. left. exact H1.
Qed.

(** X21: what [merge_pdfs] writes.  In every run the writer is written at
    most once, and the document it writes is the concatenation, in the order
    of the URLs, of one document per URL: the pages that the reader found in
    the file that holds the download of that URL (which answered 200). *)
Theorem merge_pdfs_writes_the_pages_in_order (b64encode : string -> string)
    (w : Pdf.world) (pdf_urls : list string) :
  Pdf.written_pages (Pdf.merge_pdfs b64encode w pdf_urls []).1 = []
  \/ exists docs : list (list Pdf.page),
       Forall2 (downloaded w) pdf_urls docs
       /\ Pdf.written_pages (Pdf.merge_pdfs b64encode w pdf_urls []).1 = [concat docs].
Proof.
  unfold Pdf.merge_pdfs, Pdf.merge_pdfs_try, Pdf.info, Pdf.error.
  cbv [Eff.try_catch Eff.bind Eff.ret Eff.lift Eff.perform]. cbn [app].
  destruct (Pdf.ctx_info w _) as [[] | e0].
  2: { left. destruct (Pdf.ctx_error w _); reflexivity. }
  destruct (Pdf.pdf_libraries w) as [[] | e0].
  2: { left. destruct (Pdf.ctx_error w _); reflexivity. }
  unfold Eff.try_finally.
  destruct (Pdf.merge_pdfs_body b64encode w pdf_urls _) as [[t1 fs1] r1] eqn:E.
  apply merge_body_pages in E. cbn [fst snd] in E.
  unfold Pdf.local. cbn [fst snd].
  destruct (remove_temp_files_spec fs1 t1) as (t2 & -> & _ & Hp).
  cbn [fst snd].
  assert (H : Pdf.written_pages t2 = []
              \/ exists docs, Forall2 (downloaded w) pdf_urls docs
                              /\ Pdf.written_pages t2 = [concat docs]).
  { rewrite Hp. destruct E as [-> | (docs & Hd & ->)];
      [left; reflexivity | right; exists docs; split; [exact Hd | reflexivity]]. }
  destruct r1 as [result | e1]; cbn [fst]; [exact H |].
  destruct (Pdf.ctx_error w _); cbn [fst]; rewrite written_pages_snoc, app_nil_r;
    exact H.
Qed.

(** A run of [merge_pdfs] in which everything works: two documents of two
    pages each. *)
Example merge_pdfs_of_two_documents :
  (Pdf.merge_pdfs no_b64 pdf_world_merge
     ["https://example.org/a.pdf"; "https://example.org/b.pdf"] []).1
  = [ Log "info" "Merging 2 PDF files";
      Log "info" "Processing PDF 1/2: https://example.org/a.pdf";
      HttpGet "https://example.org/a.pdf"; TempFile "/tmp/tmp3_0.pdf";
      Log "info" "Processing PDF 2/2: https://example.org/b.pdf";
      HttpGet "https://example.org/b.pdf"; TempFile "/tmp/tmp6_1.pdf";
      TempFile "/tmp/tmp7_merged.pdf";
      PdfWrite "/tmp/tmp7_merged.pdf" ["page 1"; "page 2"; "page 1"; "page 2"];
      Unlink "/tmp/tmp7_merged.pdf";
      Log "info" "Successfully merged 2 PDFs into 4 pages";
      Unlink "/tmp/tmp3_0.pdf"; Unlink "/tmp/tmp6_1.pdf" ].
Proof. vm_compute. reflexivity. Qed.

(* ===================================================================== *)
(** * Properties of the Supabase tools *)
(* ===================================================================== *)

Ltac run_supabase :=
  unfold Supabase.query_table, Supabase.search_records, Supabase.update_record,
    Supabase.delete_record, Supabase.report, Supabase.run, Supabase.info,
    Supabase.error, Supabase.perform;
  cbv [Eff.try_catch Eff.bind Eff.ret Eff.lift];
  split_on_answers.

(** X22: [update_record] and [delete_record] never run a statement without
    the filter on the record: whatever the project answers, the statements
    they execute are among [update(data).eq('id', record_id)] and
    [delete().eq('id', record_id)] on the table named in the call, at most
    one per call. *)
Theorem supabase_writes_are_filtered_by_id (repr : json -> string)
    (w : Supabase.world) (table_name record_id : string)
    (data : list (string * json)) :
  executed (Supabase.update_record repr w table_name record_id data []).1
    ⊆ [(table_name, [Supabase.update data; Supabase.eq "id" record_id])]
  /\ executed (Supabase.delete_record repr w table_name record_id []).1
       ⊆ [(table_name, [Supabase.delete; Supabase.eq "id" record_id])]
  /\ (length (executed (Supabase.update_record repr w table_name record_id data []).1)
      <= 1)%nat
  /\ (length (executed (Supabase.delete_record repr w table_name record_id []).1)
      <= 1)%nat.
Proof.
  repeat split.
  all: run_supabase; cbn; first [set_solver | lia].
Qed.

(** X23: the row limit of the two reading tools.  [query_table] tests the
    limit for truth before it uses it, so a limit of 0 is no limit: the
    statement is the bare [select] and reads the whole table; any other
    number, negative ones too, is passed on.  [search_records] passes every
    limit on, 0 included. *)
Theorem supabase_limit_zero_is_no_limit (repr : json -> string) (w : Supabase.world)
    (table_name columns column value : string) (limit_ : Z) :
  Supabase.get_supabase_client w = Return tt ->
  (forall msg, Supabase.ctx_info w msg = Return tt) ->
  executed (Supabase.query_table repr w table_name columns limit_ []).1
  = [(table_name,
      if limit_ =? 0 then [Supabase.select columns]
      else [Supabase.select columns; Supabase.limit limit_])]
  /\ executed (Supabase.search_records repr w table_name column value limit_ []).1
     = [(table_name,
         [Supabase.select "*"; Supabase.eq column value; Supabase.limit limit_])].
Proof.
  intros Hc Hi. split.
  all: unfold Supabase.query_table, Supabase.search_records, Supabase.report,
    Supabase.run, Supabase.info, Supabase.error, Supabase.perform;
    cbv [Eff.try_catch Eff.bind Eff.ret Eff.lift]; rewrite !Hi, Hc;
    split_on_answers; reflexivity.
Qed.

Lemma supabase_limit_zero_is_no_limit_witness :
  executed (Supabase.query_table no_repr supabase_world_ok "users" "*" 0 []).1
  = [("users", if 0 =? 0 then [Supabase.select "*"]
               else [Supabase.select "*"; Supabase.limit 0])]
  /\ executed (Supabase.search_records no_repr supabase_world_ok "users" "name" "Ada" 0
                 []).1
     = [("users", [Supabase.select "*"; Supabase.eq "name" "Ada"; Supabase.limit 0])].
Proof.
  apply (supabase_limit_zero_is_no_limit no_repr supabase_world_ok
           "users" "*" "name" "Ada" 0).
  - reflexivity.
  - reflexivity.
Defined.
